(** * Manufacturing hourly sheet: the analytics core

    A shallow embedding of [prediction_models.py] and [anomaly_detection.py]:
    the downtime risk scorer, the target advisor, the feature deriver, the
    anomaly engine and its attribution procedure; and of the helpers around
    them in [utils.py], [data_manager.py] and [import_data.py] and of the
    prediction button of [app.py].

    Conventions of the embedding.
    - A table is a pandas DataFrame with a RangeIndex: the set of column labels
      it carries and its rows, a row's label being its position.  Reading a
      column that is absent raises [KeyError].
    - Integer cells are the int64 values of a numeric column, taken in [Z];
      the sum of a column is taken modulo [2^64], as numpy takes it.
    - numpy's float64 is modelled by [float]: a finite value is the rational
      it denotes (in lowest terms), next to the three special values inf,
      -inf and NaN with their IEEE 754 arithmetic.  Every operation rounds
      its exact result to the nearest number with a significand of 53 bits,
      a tie going to the even significand ([round53]).  The sign of zero is
      abstracted away, and so is the range of the exponent: the quotients,
      products and sums the source forms of int64 cells stay within it.
    - What numpy leaves to its implementation is a parameter ([Numpy]): the
      order in which the entries of a float64 array are added up, and the
      order in which a sort leaves equal keys.
    - [Date] is the calendar day as a day number and [Timestamp] the creation
      instant as (day number, second of the day), the two blank-separated parts
      of its text.
    - The global [random] generator, the model file on disk and standard output
      form the [World] that effectful functions thread. *)

From Stdlib Require Import ZArith QArith Qround Qreduction Qabs Qpower List String Ascii Bool.
From Stdlib Require Import Lia Lqa.
From Stdlib Require Import Permutation Sorted.
From Stdlib Require Import DecimalString.
Import ListNotations.

Open Scope string_scope.
Open Scope list_scope.
Open Scope Z_scope.

(** ** Exceptions and fallible results *)

Inductive exn : Type :=
| KeyError (key : string)
| IndexError
| ValueError (msg : string)
| OverflowError (msg : string)
| LibraryError (msg : string).

Inductive result (A : Type) : Type :=
| Ok (a : A)
| Raise (e : exn).

Arguments Ok {A} a.
Arguments Raise {A} e.

Definition bind {A B : Type} (r : result A) (k : A -> result B) : result B :=
  match r with
  | Ok a => k a
  | Raise e => Raise e
  end.

Notation "x <- e ;; k" := (bind e (fun x => k))
  (at level 61, e at next level, right associativity).

(** [str(e)] *)
Definition str_exn (e : exn) : string :=
  match e with
  | KeyError k => ("'" ++ k ++ "'")%string
  | IndexError => "positional indexers are out-of-bounds"
  | ValueError m => m
  | OverflowError m => m
  | LibraryError m => m
  end.

(** ** float64 values *)

Inductive float : Type :=
| Fin (q : Q)
| PInf
| NInf
| NaN.

(** To the nearest integer, a tie going to the even one. *)
Definition Qround_half_even (q : Q) : Z :=
  let f := Qfloor q in
  match (q - inject_Z f ?= 1 # 2)%Q with
  | Lt => f
  | Gt => f + 1
  | Eq => if Z.even f then f else f + 1
  end.

(** The exponent of the binade of a positive rational, [floor (log2 q)], and
    the distance of two neighbouring binary64 numbers of that binade. *)
Definition ilog2 (q : Q) : Z :=
  let k := Z.log2 (Qnum q) - Z.log2 (Zpos (Qden q)) in
  if Qle_bool (2 ^ k) q then k else k - 1.

Definition ulp (a : Q) : Q := 2 ^ (ilog2 a - 52).

(** The binary64 number nearest to [q]: the significand has 53 bits, a tie
    goes to the even significand. *)
Definition round53 (q : Q) : Q :=
  match (Qnum q ?= 0)%Z with
  | Eq => 0%Q
  | c =>
      let a := Qabs q in
      let v := Qred (inject_Z (Qround_half_even (a / ulp a)) * ulp a) in
      match c with Lt => (- v)%Q | _ => v end
  end.

(** [float(z)] *)
Definition of_int (z : Z) : float := Fin (round53 (inject_Z z)).

(** A decimal literal of the source, [n/d]: the binary64 number nearest to
    it. *)
Definition lit (n : Z) (d : positive) : float := Fin (round53 (n # d)).

Definition Qsign (q : Q) : comparison := Qnum q ?= 0.

Definition isnan (x : float) : bool :=
  match x with NaN => true | _ => false end.

Definition isfinite (x : float) : bool :=
  match x with Fin _ => true | _ => false end.

(** Negation is exact. *)
Definition fneg (x : float) : float :=
  match x with
  | Fin q => Fin (- q)
  | PInf => NInf
  | NInf => PInf
  | NaN => NaN
  end.

Definition fadd (x y : float) : float :=
  match x, y with
  | NaN, _ | _, NaN => NaN
  | PInf, NInf | NInf, PInf => NaN
  | PInf, _ | _, PInf => PInf
  | NInf, _ | _, NInf => NInf
  | Fin a, Fin b => Fin (round53 (a + b))
  end.

Definition fsub (x y : float) : float := fadd x (fneg y).

(** The infinity of the sign [c], NaN for a zero factor. *)
Definition inf_of_sign (c : comparison) : float :=
  match c with Gt => PInf | Lt => NInf | Eq => NaN end.

Definition fmul (x y : float) : float :=
  match x, y with
  | NaN, _ | _, NaN => NaN
  | Fin a, Fin b => Fin (round53 (a * b))
  | Fin a, PInf | PInf, Fin a => inf_of_sign (Qsign a)
  | Fin a, NInf | NInf, Fin a => inf_of_sign (CompOpp (Qsign a))
  | PInf, PInf | NInf, NInf => PInf
  | PInf, NInf | NInf, PInf => NInf
  end.

(** numpy's true division: a zero divisor gives an infinity of the sign of the
    dividend, and NaN for 0/0; nothing is raised. *)
Definition fdiv (x y : float) : float :=
  match x, y with
  | NaN, _ | _, NaN => NaN
  | Fin a, Fin b =>
      match Qsign b with
      | Eq => inf_of_sign (Qsign a)
      | _ => Fin (round53 (a / b))
      end
  | Fin _, _ => Fin 0
  | PInf, Fin b => match Qsign b with Lt => NInf | _ => PInf end
  | NInf, Fin b => match Qsign b with Lt => PInf | _ => NInf end
  | _, _ => NaN
  end.

(** Comparisons: every comparison with NaN is false. *)
Definition fltb (x y : float) : bool :=
  match x, y with
  | NaN, _ | _, NaN => false
  | Fin a, Fin b => negb (Qle_bool b a)
  | NInf, NInf | PInf, _ | _, NInf => false
  | _, PInf | NInf, _ => true
  end.

Definition fgtb (x y : float) : bool := fltb y x.

Definition fleb (x y : float) : bool :=
  match x, y with
  | NaN, _ | _, NaN => false
  | Fin a, Fin b => Qle_bool a b
  | NInf, _ | _, PInf => true
  | PInf, _ | _, NInf => false
  end.

Definition fgeb (x y : float) : bool := fleb y x.

(** [int(x)]: truncation toward zero; it raises on the special values. *)
Definition to_int (x : float) : result Z :=
  match x with
  | Fin q => Ok (Z.quot (Qnum q) (Zpos (Qden q)))
  | PInf => Raise (OverflowError "cannot convert float infinity to integer")
  | NInf => Raise (OverflowError "cannot convert float infinity to integer")
  | NaN => Raise (ValueError "cannot convert float NaN to integer")
  end.

(** Python's [round(x)]: to the nearest integer, a tie going to the even one.
    The source never calls it; the specification's formulas do. *)
Definition py_round (x : float) : result Z :=
  match x with
  | Fin q => Ok (Qround_half_even q)
  | PInf => Raise (OverflowError "cannot convert float infinity to integer")
  | NInf => Raise (OverflowError "cannot convert float infinity to integer")
  | NaN => Raise (ValueError "cannot convert float NaN to integer")
  end.

(** *** Series reductions *)

(** An int64 again: the value modulo [2^64] in [-2^63, 2^63). *)
Definition wrap64 (z : Z) : Z := (z + 2 ^ 63) mod 2 ^ 64 - 2 ^ 63.

(** [Series.sum()] of an int64 column: the sum wraps around. *)
Definition int_sum (l : list Z) : Z := wrap64 (fold_left Z.add l 0).

(** [Series.max()] of an integer column, turned into a float where the
    source multiplies it; NaN for an empty one. *)
Definition int_max (l : list Z) : float :=
  match l with
  | [] => NaN
  | x :: t => of_int (fold_left Z.max t x)
  end.

(** numpy, as pandas calls it.  [np_sum] is the sum of a float64 array:
    numpy adds the entries up pairwise, in blocks, and in which order is
    left to it.  [argsort] is the permutation that sorts an array of int64
    keys: the default quicksort leaves the order of equal keys open. *)
Class Numpy : Type := {
  np_sum : list float -> float;
  argsort : list Z -> list nat
}.

(** What every summation guarantees: the sum is the value of some tree of
    additions over the entries, in some order, zeros apart. *)
Inductive sum_tree : list float -> float -> Prop :=
| sum_tree_nil : sum_tree [] (Fin 0)
| sum_tree_leaf x : sum_tree [x] x
| sum_tree_node l l1 l2 a b :
    sum_tree l1 a -> sum_tree l2 b -> Permutation l (l1 ++ l2) ->
    sum_tree l (fadd a b).

(** What every sort guarantees: the positions of the keys, each once, from
    the least key to the greatest. *)
Definition sorts (keys : list Z) (positions : list nat) : Prop :=
  Permutation positions (seq 0 (List.length keys))
  /\ StronglySorted Z.le (map (fun i => nth i keys 0) positions).

(** [Series.mean()] with pandas' default [skipna=True]: the NaN entries
    count as 0 in the sum and are left out of the count, infinities are
    not; an all-NaN or empty series has mean NaN. *)
Definition mean `{Numpy} (l : list float) : float :=
  let values := map (fun x => if isnan x then Fin 0 else x) l in
  let count := List.length (filter (fun x => negb (isnan x)) l) in
  match count with
  | O => NaN
  | _ => fdiv (np_sum values) (of_int (Z.of_nat count))
  end.

Definition int_mean `{Numpy} (l : list Z) : float := mean (map of_int l).

(** Elementwise [a / b] of two integer columns. *)
Definition series_div (a b : list Z) : list float :=
  map (fun p => fdiv (of_int (fst p)) (of_int (snd p))) (combine a b).

(** ** The record table *)

Record ShiftRecord : Type := mkShiftRecord {
  Date : Z;
  Shift : string;
  Machine_ID : string;
  Operator_Name : string;
  Product_Name : string;
  Target_Output : Z;
  Actual_Output : Z;
  Cumulative_Output : Z;
  Defects : Z;
  Downtime_Minutes : Z;
  Downtime_Reason : string;
  Remarks : string;
  Timestamp : Z * Z
}.

Record DataFrame : Type := mkDataFrame {
  columns : list string;
  rows : list ShiftRecord
}.

(** Rows with their index labels. *)
Definition Rows : Type := list (nat * ShiftRecord).

Definition iterrows (df : DataFrame) : Rows :=
  combine (seq 0 (List.length (rows df))) (rows df).

Definition has_column (df : DataFrame) (c : string) : bool :=
  existsb (String.eqb c) (columns df).

(** [frame[c]] on (a selection of) the rows of [df]. *)
Definition column {A : Type} (df : DataFrame) (c : string)
    (field : ShiftRecord -> A) (sel : Rows) : result (list A) :=
  if has_column df c then Ok (map (fun ir => field (snd ir)) sel)
  else Raise (KeyError c).

(** The rows of one machine, in table order and with their labels. *)
Definition rows_of (machine_id : string) (rs : Rows) : Rows :=
  filter (fun ir => String.eqb (Machine_ID (snd ir)) machine_id) rs.

(** [df[df["Machine_ID"] == machine_id]] *)
Definition select_machine (df : DataFrame) (machine_id : string) : result Rows :=
  _ <- column df "Machine_ID" Machine_ID (iterrows df) ;;
  Ok (rows_of machine_id (iterrows df)).

(** [DataFrame.empty]: an axis of length 0. *)
Definition df_empty (df : DataFrame) : bool :=
  match columns df, rows df with
  | [], _ | _, [] => true
  | _, _ => false
  end.

Definition all_columns : list string :=
  [ "Date"; "Shift"; "Machine_ID"; "Operator_Name"; "Product_Name";
    "Target_Output"; "Actual_Output"; "Cumulative_Output"; "Defects";
    "Downtime_Minutes"; "Downtime_Reason"; "Remarks"; "Timestamp" ].

(** The table carries every column of a shift record (section 3 of the
    specification; [load_data] builds it so). *)
Definition full_table (df : DataFrame) : bool :=
  forallb (has_column df) all_columns.

(** The data model's invariant on a record: the counts are not negative. *)
Definition valid_record (r : ShiftRecord) : bool :=
  (0 <=? Target_Output r) && (0 <=? Actual_Output r)
  && (0 <=? Cumulative_Output r) && (0 <=? Defects r)
  && (0 <=? Downtime_Minutes r).

Definition valid_table (df : DataFrame) : bool := forallb valid_record (rows df).

(** The combined [DateTime] column: seconds since day 0. *)
Definition DateTime (r : ShiftRecord) : Z := Date r * 86400 + snd (Timestamp r).

(** [frame.take(positions)] *)
Definition take {A : Type} (l : list A) (positions : list nat) : list A :=
  flat_map (fun p => match nth_error l p with Some x => [x] | None => [] end)
           positions.

(** [sort_values("DateTime")]: the rows in the order in which numpy sorts
    their keys. *)
Definition sort_values `{Numpy} (key : ShiftRecord -> Z) (l : Rows) : Rows :=
  take l (argsort (map (fun ir => key (snd ir)) l)).

(** [frame.tail(n)] *)
Definition tail {A : Type} (n : nat) (l : list A) : list A :=
  skipn (List.length l - n) l.

(** ** prediction_models.py *)

(** The one-row feature frame of [prepare_machine_features]. *)
Record Features : Type := mkFeatures {
  avg_downtime_24h : float;
  max_downtime_24h : float;
  downtime_frequency : Z;
  production_efficiency : float;
  defect_rate : float;
  operation_hours : Z;
  has_recent_downtime : Z
}.

(** [(series > 0).sum()] *)
Definition count_positive (l : list Z) : Z :=
  Z.of_nat (List.length (filter (fun d => 0 <? d) l)).

(** [(series > 0).any()] *)
Definition any_positive (l : list Z) : bool := existsb (fun d => 0 <? d) l.

Definition prepare_machine_features `{Numpy} (df : DataFrame) (machine_id : string)
    : result (option Features) :=
  machine_df <- select_machine df machine_id ;;
  match machine_df with
  | [] => Ok None
  | _ :: _ =>
      _ <- column df "Date" Date machine_df ;;
      _ <- column df "Timestamp" Timestamp machine_df ;;
      let machine_df := sort_values DateTime machine_df in
      downtime <- column df "Downtime_Minutes" Downtime_Minutes machine_df ;;
      target <- column df "Target_Output" Target_Output machine_df ;;
      actual <- column df "Actual_Output" Actual_Output machine_df ;;
      let efficiency :=
        if 0 <? int_sum target
        then fdiv (of_int (int_sum actual)) (of_int (int_sum target))
        else of_int 1 in
      defects <- (if 0 <? int_sum actual
                  then column df "Defects" Defects machine_df
                  else Ok []) ;;
      let defect_rate :=
        if 0 <? int_sum actual
        then fdiv (of_int (int_sum defects)) (of_int (int_sum actual))
        else of_int 0 in
      let recent_records := Nat.min 5 (List.length machine_df) in
      recent <- column df "Downtime_Minutes" Downtime_Minutes
                  (tail recent_records machine_df) ;;
      Ok (Some {|
        avg_downtime_24h := int_mean downtime;
        max_downtime_24h := int_max downtime;
        downtime_frequency := count_positive downtime;
        production_efficiency := efficiency;
        defect_rate := defect_rate;
        operation_hours := Z.of_nat (List.length machine_df);
        has_recent_downtime := if any_positive recent then 1 else 0
      |})
  end.

(** The heuristic of [predict_downtime], lines 121-141: the score from the
    feature row. *)
Definition risk_score (features : Features) : result Z :=
  let score := 0 in
  let downtime_freq := downtime_frequency features in
  let score := score + Z.min (downtime_freq * 10) 30 in
  let score := if has_recent_downtime features =? 1 then score + 20 else score in
  let efficiency := production_efficiency features in
  e <- to_int (fmul (fsub (of_int 1) efficiency) (of_int 100)) ;;
  let score := score + Z.max 0 (Z.min 40 e) in
  let defect_rate := defect_rate features in
  d <- to_int (fmul defect_rate (of_int 100)) ;;
  let score := score + Z.min d 10 in
  let final_score := Z.min score 100 in
  Ok final_score.

(** Lines 143-149: the prediction window from the size of the history. *)
Definition horizon (df : DataFrame) (machine_id : string) : result Z :=
  n <- select_machine df machine_id ;;
  if 20 <? Z.of_nat (List.length n) then Ok 24
  else
    n' <- select_machine df machine_id ;;
    if 10 <? Z.of_nat (List.length n') then Ok 12 else Ok 4.

Record Prediction : Type := mkPrediction {
  optimal_target : option Z;
  confidence : Z;
  message : string
}.

Definition predict_production_targets `{Numpy} (df : DataFrame) (machine_id : string)
    : result Prediction :=
  machine_df <- select_machine df machine_id ;;
  if (match machine_df with [] => true | _ => false end)
     || (Z.of_nat (List.length machine_df) <? 3)
  then Ok {| optimal_target := None;
             confidence := 0;
             message := "Insufficient data for prediction" |}
  else
    actual <- column df "Actual_Output" Actual_Output machine_df ;;
    target <- column df "Target_Output" Target_Output machine_df ;;
    let avg_efficiency := mean (series_div actual target) in
    let avg_output := int_mean actual in
    let max_output := int_max actual in
    if fgeb avg_efficiency (lit 95 100) then
      a <- to_int (fmul max_output (lit 105 100)) ;;
      b <- to_int (fmul avg_output (lit 11 10)) ;;
      Ok {| optimal_target := Some (Z.max a b);
            confidence := 80;
            message := "Machine consistently meets targets, can increase production target." |}
    else if fgeb avg_efficiency (lit 8 10) then
      a <- to_int (fdiv avg_output avg_efficiency) ;;
      Ok {| optimal_target := Some a;
            confidence := 70;
            message := "Machine performs well, maintain current targets." |}
    else
      a <- to_int (fmul avg_output (lit 11 10)) ;;
      Ok {| optimal_target := Some a;
            confidence := 60;
            message := "Machine struggles to meet targets, consider adjustment." |}.

(** ** anomaly_detection.py: the pure part *)

(** A value of a row (a Series) of the table: [record[c]]. *)
Definition cell {A : Type} (df : DataFrame) (c : string)
    (field : ShiftRecord -> A) (record : ShiftRecord) : result A :=
  if has_column df c then Ok (field record) else Raise (KeyError c).

(** [Series.fillna(0)] and [Series.replace([np.inf, -np.inf], 0)], per entry. *)
Definition fillna0 (x : float) : float :=
  match x with NaN => of_int 0 | _ => x end.

Definition replace_inf0 (x : float) : float :=
  match x with PInf | NInf => of_int 0 | _ => x end.

(** One derived ratio of the feature deriver: [(a / b).fillna(0).replace(..)]. *)
Definition guarded_ratio (a b : Z) : float :=
  replace_inf0 (fillna0 (fdiv (of_int a) (of_int b))).

Module Feature.
Record t : Type := mk {
  efficiency : float;
  defect_rate : float;
  downtime_per_unit : float;
  machine_id : string;
  index : nat
}.
End Feature.

(** [groupby("Machine_ID")]: the distinct keys in ascending order, each with
    its rows in table order. *)
Fixpoint unique (l : list string) : list string :=
  match l with
  | [] => []
  | x :: t => x :: filter (fun y => negb (String.eqb x y)) (unique t)
  end.

Fixpoint insert_key (x : string) (l : list string) : list string :=
  match l with
  | [] => [x]
  | y :: t => if String.leb x y then x :: y :: t else y :: insert_key x t
  end.

Definition sort_keys (l : list string) : list string :=
  fold_right insert_key [] l.

Definition groupby (df : DataFrame) : result (list (string * Rows)) :=
  keys <- column df "Machine_ID" Machine_ID (iterrows df) ;;
  Ok (map (fun k => (k, rows_of k (iterrows df))) (sort_keys (unique keys))).

Definition numeric_cols : list string :=
  [ "Target_Output"; "Actual_Output"; "Cumulative_Output";
    "Defects"; "Downtime_Minutes" ].

(** The feature rows of one machine group, lines 43-60. *)
Definition group_features (machine_id : string) (group : Rows) : list Feature.t :=
  map (fun ir =>
         let r := snd ir in
         {| Feature.efficiency := guarded_ratio (Actual_Output r) (Target_Output r);
            Feature.defect_rate := guarded_ratio (Defects r) (Actual_Output r);
            Feature.downtime_per_unit :=
              guarded_ratio (Downtime_Minutes r) (Actual_Output r);
            Feature.machine_id := machine_id;
            Feature.index := fst ir |})
      group.

(** The loop over the groups, lines 39-62: groups of fewer than 3 records
    are left out. *)
Fixpoint all_features (grouped : list (string * Rows)) : list (list Feature.t) :=
  match grouped with
  | [] => []
  | (machine_id, group) :: rest =>
      if Z.of_nat (List.length group) <? 3 then all_features rest
      else group_features machine_id group :: all_features rest
  end.

(** [(None, None)] is [None]; otherwise the feature frame and the copy of
    the table. *)
Definition prepare_anomaly_features (df : DataFrame)
    : result (option (list Feature.t * DataFrame)) :=
  if df_empty df || (Z.of_nat (List.length (rows df)) <? 5) then Ok None
  else
    let df_copy := df in
    if negb (forallb (has_column df_copy) numeric_cols) then Ok None
    else
      grouped <- groupby df_copy ;;
      match all_features grouped with
      | [] => Ok None
      | fs => Ok (Some (List.concat fs, df_copy))
      end.

(** *** Formatting *)

Definition str_int (z : Z) : string := NilZero.string_of_int (Z.to_int z).

(** [f"{x:.1f}"]: one decimal, the nearest one (a tie of the exact value
    goes to the even digit). *)
Definition format_1f (x : float) : string :=
  match x with
  | Fin q =>
      let n := Qround_half_even (Qabs q * 10) in
      ((match Qsign q with Lt => "-" | _ => "" end)
       ++ str_int (n / 10) ++ "." ++ str_int (n mod 10))%string
  | PInf => "inf"
  | NInf => "-inf"
  | NaN => "nan"
  end.

(** [f"{x:.1%}"] *)
Definition format_1pct (x : float) : string :=
  (format_1f (fmul x (of_int 100)) ++ "%")%string.

(** *** The attribution procedure *)

Definition unusual_downtime_message (minutes : Z) (avg_downtime : float) : string :=
  ("Unusual downtime: " ++ str_int minutes ++ " minutes vs. average "
   ++ format_1f avg_downtime ++ " minutes")%string.

Definition efficiency_dropped_message (efficiency avg_efficiency : float) : string :=
  ("Production efficiency dropped to " ++ format_1pct efficiency
   ++ " vs. average " ++ format_1pct avg_efficiency)%string.

Definition high_defect_rate_message (defect_rate avg_defect_rate : float) : string :=
  ("High defect rate: " ++ format_1pct defect_rate ++ " vs. average "
   ++ format_1pct avg_defect_rate)%string.

Definition below_target_message (actual target : Z) : string :=
  ("Output significantly below target: " ++ str_int actual ++ " vs. target "
   ++ str_int target)%string.

Definition generic_message : string := "Unusual production pattern detected".

(** The historical averages of lines 149-152, over all records of the
    machine in the full table. *)
Record Averages : Type := mkAverages {
  avg_efficiency : float;
  avg_defect_rate : float;
  avg_downtime : float
}.

Definition machine_averages `{Numpy} (df : DataFrame) (machine_id : string) : result Averages :=
  machine_data <- select_machine df machine_id ;;
  actual <- column df "Actual_Output" Actual_Output machine_data ;;
  target <- column df "Target_Output" Target_Output machine_data ;;
  let avg_efficiency := mean (series_div actual target) in
  defects <- column df "Defects" Defects machine_data ;;
  actual' <- column df "Actual_Output" Actual_Output machine_data ;;
  let avg_defect_rate := mean (series_div defects actual') in
  downtime <- column df "Downtime_Minutes" Downtime_Minutes machine_data ;;
  let avg_downtime := int_mean downtime in
  Ok {| avg_efficiency := avg_efficiency;
        avg_defect_rate := avg_defect_rate;
        avg_downtime := avg_downtime |}.

(** The conditions of the four specific rules, as the source tests them. *)
Definition rule_downtime (downtime : Z) (avg : Averages) : bool :=
  fgtb (of_int downtime) (fmul (avg_downtime avg) (of_int 2)) && (10 <? downtime).

Definition rule_efficiency (efficiency : float) (avg : Averages) : bool :=
  fltb efficiency (fmul (avg_efficiency avg) (lit 7 10))
  && fgtb (avg_efficiency avg) (of_int 0).

Definition rule_defects (defect_rate : float) (avg : Averages) : bool :=
  fgtb defect_rate (fadd (fmul (avg_defect_rate avg) (lit 15 10)) (lit 5 100))
  && fgtb defect_rate (lit 1 10).

Definition rule_output (actual target : Z) : bool :=
  fltb (of_int actual) (fmul (of_int target) (lit 6 10)) && (0 <? target).

Definition determine_anomaly_reason `{Numpy} (record : ShiftRecord) (df : DataFrame)
    : result string :=
  target <- cell df "Target_Output" Target_Output record ;;
  actual <- cell df "Actual_Output" Actual_Output record ;;
  let efficiency :=
    if 0 <? target then fdiv (of_int actual) (of_int target) else of_int 0 in
  defects <- (if 0 <? actual then cell df "Defects" Defects record else Ok 0) ;;
  let defect_rate :=
    if 0 <? actual then fdiv (of_int defects) (of_int actual) else of_int 0 in
  machine_id <- cell df "Machine_ID" Machine_ID record ;;
  avg <- machine_averages df machine_id ;;
  downtime <- cell df "Downtime_Minutes" Downtime_Minutes record ;;
  if rule_downtime downtime avg then
    Ok (unusual_downtime_message downtime (avg_downtime avg))
  else if rule_efficiency efficiency avg then
    Ok (efficiency_dropped_message efficiency (avg_efficiency avg))
  else if rule_defects defect_rate avg then
    Ok (high_defect_rate_message defect_rate (avg_defect_rate avg))
  else if rule_output actual target then
    Ok (below_target_message actual target)
  else Ok generic_message.

Module Anomaly.
Record t : Type := mk {
  machine_id : string;
  date : Z;
  shift : string;
  message : string;
  confidence : Z
}.
End Anomaly.

(** [np.where(preds == -1)[0]] *)
Fixpoint where_outlier (pos : nat) (preds : list Z) : list nat :=
  match preds with
  | [] => []
  | p :: t =>
      if p =? -1 then pos :: where_outlier (S pos) t
      else where_outlier (S pos) t
  end.

(** [frame.iloc[positions]]: a position past the end raises. *)
Fixpoint iloc {A : Type} (l : list A) (positions : list nat) : result (list A) :=
  match positions with
  | [] => Ok []
  | p :: t =>
      match nth_error l p with
      | None => Raise IndexError
      | Some x => xs <- iloc l t ;; Ok (x :: xs)
      end
  end.

(** [original_df.loc[idx]] *)
Definition loc (df : DataFrame) (idx : nat) : result ShiftRecord :=
  match nth_error (rows df) idx with
  | Some r => Ok r
  | None => Raise (KeyError (str_int (Z.of_nat idx)))
  end.

(** [feature_df["machine_id"].unique()]: in order of first appearance. *)
Definition feature_machines (feature_df : list Feature.t) : list string :=
  unique (map Feature.machine_id feature_df).

Definition features_of (machine_id : string) (feature_df : list Feature.t)
    : list Feature.t :=
  filter (fun f => String.eqb (Feature.machine_id f) machine_id) feature_df.

Definition feature_matrix (fs : list Feature.t) : list (float * float * float) :=
  map (fun f => (Feature.efficiency f, Feature.defect_rate f,
                 Feature.downtime_per_unit f)) fs.


(** ** utils.py *)

(** A [datetime.time]: compared as the tuple of its four fields. *)
Record time : Type := mkTime {
  hour : Z;
  minute : Z;
  second : Z;
  microsecond : Z
}.

Definition time_compare (a b : time) : comparison :=
  match hour a ?= hour b with
  | Eq =>
      match minute a ?= minute b with
      | Eq =>
          match second a ?= second b with
          | Eq => microsecond a ?= microsecond b
          | c => c
          end
      | c => c
      end
  | c => c
  end.

Definition time_leb (a b : time) : bool :=
  match time_compare a b with Gt => false | _ => true end.

Definition time_ltb (a b : time) : bool :=
  match time_compare a b with Lt => true | _ => false end.

(** The argument of [get_shift_from_time]: a time, or a datetime of which
    the time is taken. *)
Inductive moment : Type :=
| a_time (t : time)
| a_datetime (day : Z) (t : time).

Definition get_shift_from_time (current_time : moment) : string :=
  let current_time :=
    match current_time with
    | a_datetime _ t => t
    | a_time t => t
    end in
  let morning_start := mkTime 6 0 0 0 in
  let afternoon_start := mkTime 14 0 0 0 in
  let night_start := mkTime 22 0 0 0 in
  if time_leb morning_start current_time && time_ltb current_time afternoon_start
  then "Morning"
  else if time_leb afternoon_start current_time && time_ltb current_time night_start
  then "Afternoon"
  else "Night".

(** For the whole number of minutes the docstring asks for, [minutes // 60]
    and [minutes % 60] are the floor division and its remainder. *)
Definition format_duration (minutes : Z) : string :=
  let hours := minutes / 60 in
  let mins := minutes mod 60 in
  if 0 <? hours
  then (str_int hours ++ "h " ++ str_int mins ++ "m")%string
  else (str_int mins ++ "m")%string.

(** ** data_manager.py *)

(** A frame cut out of a table: its columns and the rows kept, with their
    labels.  [pd.DataFrame()] is the frame without columns and rows. *)
Record Frame : Type := mkFrame {
  fcolumns : list string;
  frows : Rows
}.

Definition empty_frame : Frame := {| fcolumns := []; frows := [] |}.

Definition frame_of (df : DataFrame) : Frame :=
  {| fcolumns := columns df; frows := iterrows df |}.

(** [value in df[c].values] *)
Definition in_values (x : string) (l : list string) : bool :=
  existsb (String.eqb x) l.

Definition get_machine_data (df : DataFrame) (machine_id : string) : result Frame :=
  ids <- column df "Machine_ID" Machine_ID (iterrows df) ;;
  if in_values machine_id ids then
    sel <- select_machine df machine_id ;;
    Ok {| fcolumns := columns df; frows := sel |}
  else Ok empty_frame.

Definition get_operator_data (df : DataFrame) (operator_name : string) : result Frame :=
  names <- column df "Operator_Name" Operator_Name (iterrows df) ;;
  if in_values operator_name names then
    _ <- column df "Operator_Name" Operator_Name (iterrows df) ;;
    Ok {| fcolumns := columns df;
          frows := filter (fun ir => String.eqb (Operator_Name (snd ir)) operator_name)
                     (iterrows df) |}
  else Ok empty_frame.

(** The dictionary of [get_production_stats]; [None] is the empty one. *)
Record Stats : Type := mkStats {
  total_production : Z;
  stats_total_defects : Z;
  total_downtime : Z;
  stats_efficiency : float;
  stats_defect_rate : float;
  machines : Z;
  operators : Z
}.

(** [Series.nunique()] *)
Definition nunique (l : list string) : Z := Z.of_nat (List.length (unique l)).

Definition get_production_stats (df : DataFrame) : result (option Stats) :=
  if df_empty df then Ok None
  else
    let all := iterrows df in
    actual <- column df "Actual_Output" Actual_Output all ;;
    defects <- column df "Defects" Defects all ;;
    downtime <- column df "Downtime_Minutes" Downtime_Minutes all ;;
    target <- column df "Target_Output" Target_Output all ;;
    let efficiency :=
      if 0 <? int_sum target
      then fmul (fdiv (of_int (int_sum actual)) (of_int (int_sum target))) (of_int 100)
      else of_int 0 in
    let defect_rate :=
      if 0 <? int_sum actual
      then fmul (fdiv (of_int (int_sum defects)) (of_int (int_sum actual))) (of_int 100)
      else of_int 0 in
    ids <- column df "Machine_ID" Machine_ID all ;;
    names <- column df "Operator_Name" Operator_Name all ;;
    Ok (Some {| total_production := int_sum actual;
                stats_total_defects := int_sum defects;
                total_downtime := int_sum downtime;
                stats_efficiency := efficiency;
                stats_defect_rate := defect_rate;
                machines := nunique ids;
                operators := nunique names |}).

(** One dictionary of [get_recent_downtime_reasons]. *)
Record ReasonEntry : Type := mkReasonEntry {
  entry_date : Z;
  entry_machine : string;
  entry_minutes : Z;
  entry_reason : string
}.

Definition entry_of (r : ShiftRecord) : ReasonEntry :=
  {| entry_date := Date r;
     entry_machine := Machine_ID r;
     entry_minutes := Downtime_Minutes r;
     entry_reason := Downtime_Reason r |}.

(** The order of the [Timestamp] texts, "YYYY-MM-DD HH:MM:SS": by day, then
    by second. *)
Definition timestamp_ltb (a b : Z * Z) : bool :=
  (fst a <? fst b) || ((fst a =? fst b) && (snd a <? snd b)).

(** [sort_values("Timestamp", ascending=False)]: the latest first.  Rows of
    equal stamp keep their order here; pandas' default sort does not promise
    an order among them. *)
Fixpoint insert_latest (x : nat * ShiftRecord) (l : Rows) : Rows :=
  match l with
  | [] => [x]
  | y :: t =>
      if timestamp_ltb (Timestamp (snd y)) (Timestamp (snd x)) then x :: y :: t
      else y :: insert_latest x t
  end.

Definition sort_latest_first (l : Rows) : Rows :=
  fold_left (fun acc x => insert_latest x acc) l [].

(** [frame.head(n)]: the first [n] rows; for a negative [n], all but the
    last [-n]. *)
Definition head (n : Z) (l : Rows) : Rows :=
  if 0 <=? n then firstn (Z.to_nat n) l
  else firstn (List.length l - Z.to_nat (- n)) l.

(** [frame[[c1; ...]]]: the columns asked for that the frame lacks are
    named in the [KeyError]. *)
Definition not_in_index (missing : list string) : exn :=
  KeyError ("[" ++ String.concat ", " (map (fun c => "'" ++ c ++ "'") missing)
            ++ "] not in index")%string.

Definition require_columns (df : DataFrame) (cs : list string) : result unit :=
  match filter (fun c => negb (has_column df c)) cs with
  | [] => Ok tt
  | missing => Raise (not_in_index missing)
  end.

(** A reason that is missing in the file is the empty text here, so that
    [notna()] and [!= ""] are one test. *)
Definition get_recent_downtime_reasons (df : DataFrame) (limit : Z)
    : result (list ReasonEntry) :=
  if df_empty df || negb (has_column df "Downtime_Reason") then Ok []
  else
    _ <- column df "Downtime_Minutes" Downtime_Minutes (iterrows df) ;;
    let downtime_df :=
      filter (fun ir => (0 <? Downtime_Minutes (snd ir))
                        && negb (String.eqb (Downtime_Reason (snd ir)) ""))
             (iterrows df) in
    match downtime_df with
    | [] => Ok []
    | _ :: _ =>
        _ <- column df "Timestamp" Timestamp downtime_df ;;
        let recent_reasons := head limit (sort_latest_first downtime_df) in
        _ <- require_columns df
               [ "Date"; "Machine_ID"; "Downtime_Minutes"; "Downtime_Reason" ] ;;
        Ok (map (fun ir => entry_of (snd ir)) recent_reasons)
    end.

Section Search.

(** [Series.str.contains(pat, case=False, na=False)]: the pattern is a
    regular expression, compiled once for the column, without regard to
    case; a pattern that does not compile raises. *)
Variable str_contains : string -> result (string -> bool).

(** [if criterion:] holds for a text that is given and not empty. *)
Definition given (criterion : option string) : option string :=
  match criterion with
  | Some "" => None
  | c => c
  end.

(** The date asked for is a day, written as the table writes its days; the
    copy of the table is the list of its labelled rows. *)
Definition search_data (df : DataFrame) (date : option Z)
    (shift machine_id operator_name : option string) : result Frame :=
  let result_df := iterrows df in
  result_df <-
    match date with
    | Some d =>
        _ <- column df "Date" Date result_df ;;
        Ok (filter (fun ir => Date (snd ir) =? d) result_df)
    | None => Ok result_df
    end ;;
  result_df <-
    match given shift with
    | Some s =>
        _ <- column df "Shift" Shift result_df ;;
        Ok (filter (fun ir => String.eqb (Shift (snd ir)) s) result_df)
    | None => Ok result_df
    end ;;
  result_df <-
    match given machine_id with
    | Some pat =>
        _ <- column df "Machine_ID" Machine_ID result_df ;;
        matches <- str_contains pat ;;
        Ok (filter (fun ir => matches (Machine_ID (snd ir))) result_df)
    | None => Ok result_df
    end ;;
  result_df <-
    match given operator_name with
    | Some pat =>
        _ <- column df "Operator_Name" Operator_Name result_df ;;
        matches <- str_contains pat ;;
        Ok (filter (fun ir => matches (Operator_Name (snd ir))) result_df)
    | None => Ok result_df
    end ;;
  Ok {| fcolumns := columns df; frows := result_df |}.

End Search.

(** ** app.py: what a handler puts on the page *)

(** The Streamlit elements written by the handlers of the fourth tab, in the
    order of the calls. *)
Inductive element : Type :=
| st_metric (label value : string)
| st_markdown (body : string)
| st_error (body : string)
| st_warning (body : string)
| st_success (body : string)
| st_info (body : string).

(** ** import_data.py *)

(** A row of the hourly sheet as [pd.read_csv] gives it: the cells of a
    shift record under the names of the sheet; an empty cell of the two free
    texts is a missing value. *)
Record SheetRow : Type := mkSheetRow {
  sheet_Date : Z;
  sheet_Shift : string;
  sheet_Machine_ID : string;
  sheet_Operator_Name : string;
  sheet_Product_Name : string;
  sheet_Target_Output : Z;
  sheet_Actual_Output : Z;
  sheet_Cumulative_Output : Z;
  Defects_Rework : Z;
  sheet_Downtime_Minutes : Z;
  Reason_for_Downtime : option string;
  Operator_Remarks : option string
}.

Record Sheet : Type := mkSheet {
  sheet_columns : list string;
  sheet_rows : list SheetRow
}.

(** The files of the working directory: the hourly sheet (absent, or what
    reading it gives), the data file, and the error that writing the data
    file meets, if any (the file is then left as it was); and what was
    printed. *)
Record Files : Type := mkFiles {
  import_file : option (result Sheet);
  data_file : option DataFrame;
  write_error : option exn;
  printed : list string
}.

(** The cells a row is asked for, in the order of lines 27-43. *)
Definition sheet_cells : list string :=
  [ "Date"; "Shift"; "Machine_ID"; "Operator_Name"; "Product_Name";
    "Target_Output"; "Actual_Output"; "Cumulative_Output"; "Defects_Rework";
    "Downtime_Minutes"; "Reason_for_Downtime"; "Operator_Remarks" ].

Definition sheet_has (sheet : Sheet) (c : string) : bool :=
  existsb (String.eqb c) (sheet_columns sheet).

(** [x if pd.notna(x) else ""] *)
Definition text_or_empty (x : option string) : string :=
  match x with
  | Some t => t
  | None => ""
  end.

(** Lines 27-45: the first cell asked for that the sheet lacks raises
    [KeyError]; the time of the stamp is the placeholder 00:00:00. *)
Definition new_record (sheet : Sheet) (row : SheetRow) : result ShiftRecord :=
  match find (fun c => negb (sheet_has sheet c)) sheet_cells with
  | Some c => Raise (KeyError c)
  | None =>
      Ok {| Date := sheet_Date row;
            Shift := sheet_Shift row;
            Machine_ID := sheet_Machine_ID row;
            Operator_Name := sheet_Operator_Name row;
            Product_Name := sheet_Product_Name row;
            Target_Output := sheet_Target_Output row;
            Actual_Output := sheet_Actual_Output row;
            Cumulative_Output := sheet_Cumulative_Output row;
            Defects := Defects_Rework row;
            Downtime_Minutes := sheet_Downtime_Minutes row;
            Downtime_Reason := text_or_empty (Reason_for_Downtime row);
            Remarks := text_or_empty (Operator_Remarks row);
            Timestamp := (sheet_Date row, 0) |}
  end.

(** The loop of lines 25-46. *)
Fixpoint import_records (sheet : Sheet) (todo : list SheetRow)
    : result (list ShiftRecord) :=
  match todo with
  | [] => Ok []
  | row :: rest =>
      new_record <- new_record sheet row ;;
      records <- import_records sheet rest ;;
      Ok (new_record :: records)
  end.

(** [pd.DataFrame(records)]: the columns are the keys of the dictionaries;
    without a dictionary there is none. *)
Definition data_frame_of (records : list ShiftRecord) : DataFrame :=
  {| columns := match records with [] => [] | _ :: _ => all_columns end;
     rows := records |}.

(** data_manager.py, [save_data]: the error of the write is printed and
    answered by [False]. *)
Definition save_data (df : DataFrame) (fs : Files) : bool * Files :=
  match write_error fs with
  | None =>
      (true, {| import_file := import_file fs; data_file := Some df;
                write_error := write_error fs; printed := printed fs |})
  | Some e =>
      (false, {| import_file := import_file fs; data_file := data_file fs;
                 write_error := write_error fs;
                 printed := printed fs ++ [ ("Error saving data: " ++ str_exn e)%string ] |})
  end.

Definition import_hourly_sheet_data (fs : Files) : (bool * string) * Files :=
  match import_file fs with
  | None => ((false, "Import file not found"), fs)
  | Some read =>
      match (import_df <- read ;;
             import_records import_df (sheet_rows import_df)) with
      | Ok records =>
          let df := data_frame_of records in
          let saved := save_data df fs in
          ((true, ("Successfully imported "
                   ++ str_int (Z.of_nat (List.length records)) ++ " records")%string),
           snd saved)
      | Raise e => ((false, ("Error importing data: " ++ str_exn e)%string), fs)
      end
  end.

(** * Reading the specification *)

(** ** The history of a machine, read off the table *)

(** The records of one machine, in table order. *)
Definition machine_records (df : DataFrame) (machine_id : string) : list ShiftRecord :=
  filter (fun r => String.eqb (Machine_ID r) machine_id) (rows df).

Definition record_count (df : DataFrame) (machine_id : string) : Z :=
  Z.of_nat (List.length (machine_records df machine_id)).

(** The means of lines 150-152 and 175-176 as the source takes them: of the
    raw quotients. *)
Definition history_avg_efficiency `{Numpy} (df : DataFrame) (machine_id : string)
    : float :=
  mean (map (fun r => fdiv (of_int (Actual_Output r)) (of_int (Target_Output r)))
            (machine_records df machine_id)).

Definition history_avg_output `{Numpy} (df : DataFrame) (machine_id : string)
    : float :=
  int_mean (map Actual_Output (machine_records df machine_id)).

Definition history_max_output (df : DataFrame) (machine_id : string) : float :=
  int_max (map Actual_Output (machine_records df machine_id)).

Definition history_avg_defect_rate `{Numpy} (df : DataFrame) (machine_id : string)
    : float :=
  mean (map (fun r => fdiv (of_int (Defects r)) (of_int (Actual_Output r)))
            (machine_records df machine_id)).

Definition history_avg_downtime `{Numpy} (df : DataFrame) (machine_id : string)
    : float :=
  int_mean (map Downtime_Minutes (machine_records df machine_id)).

Definition history_averages `{Numpy} (df : DataFrame) (machine_id : string)
    : Averages :=
  {| avg_efficiency := history_avg_efficiency df machine_id;
     avg_defect_rate := history_avg_defect_rate df machine_id;
     avg_downtime := history_avg_downtime df machine_id |}.

(** The average efficiency as the specification words it: the mean of the
    ratios, a ratio with a zero denominator floored to 0 before. *)
Definition floored_avg_efficiency `{Numpy} (df : DataFrame) (machine_id : string)
    : float :=
  mean (map (fun r => guarded_ratio (Actual_Output r) (Target_Output r))
            (machine_records df machine_id)).

(** Every record of the machine has a target above 0. *)
Definition positive_targets (df : DataFrame) (machine_id : string) : bool :=
  forallb (fun r => 0 <? Target_Output r) (machine_records df machine_id).

(** The two ratios of the record itself, lines 145-146. *)
Definition record_efficiency (r : ShiftRecord) : float :=
  if 0 <? Target_Output r
  then fdiv (of_int (Actual_Output r)) (of_int (Target_Output r))
  else of_int 0.

Definition record_defect_rate (r : ShiftRecord) : float :=
  if 0 <? Actual_Output r
  then fdiv (of_int (Defects r)) (of_int (Actual_Output r))
  else of_int 0.

(** The sums of section 4.3: sums of integers, without a bound. *)
Definition total (field : ShiftRecord -> Z) (df : DataFrame) (machine_id : string)
    : Z :=
  fold_right Z.add 0 (map field (machine_records df machine_id)).

Definition total_actual : DataFrame -> string -> Z := total Actual_Output.

Definition total_target : DataFrame -> string -> Z := total Target_Output.

Definition total_defects : DataFrame -> string -> Z := total Defects.

(** The sums fit in an int64: the column sums of the source do not wrap
    around. *)
Definition fits_int64 (z : Z) : bool := (- 2 ^ 63 <=? z) && (z <? 2 ^ 63).

Definition totals_fit (df : DataFrame) (machine_id : string) : bool :=
  fits_int64 (total_target df machine_id)
  && fits_int64 (total_actual df machine_id)
  && fits_int64 (total_defects df machine_id).

Definition downtime_count (df : DataFrame) (machine_id : string) : Z :=
  count_positive (map Downtime_Minutes (machine_records df machine_id)).

(** An arrangement of the records of the machine from the earliest to the
    latest; records of the same instant may stand in any order. *)
Definition chronological_order (df : DataFrame) (machine_id : string)
    (chron : list ShiftRecord) : Prop :=
  Permutation chron (machine_records df machine_id)
  /\ StronglySorted (fun a b => DateTime a <= DateTime b) chron.

(** The arrangement the source works on: the one numpy's sort leaves. *)
Definition chronological `{Numpy} (df : DataFrame) (machine_id : string)
    : list ShiftRecord :=
  map snd (sort_values DateTime (rows_of machine_id (iterrows df))).

(** One of the last 5 records of an arrangement has downtime. *)
Definition recent_in (chron : list ShiftRecord) : bool :=
  any_positive (map Downtime_Minutes (tail 5 chron)).

Definition recent_downtime `{Numpy} (df : DataFrame) (machine_id : string) : bool :=
  recent_in (chronological df machine_id).

(** The efficiency and the defect rate as the source takes them: of the
    int64 sums, guarded by [> 0]. *)
Definition column_sum (field : ShiftRecord -> Z) (df : DataFrame)
    (machine_id : string) : Z :=
  int_sum (map field (machine_records df machine_id)).

Definition guarded_efficiency (df : DataFrame) (m : string) : float :=
  if 0 <? column_sum Target_Output df m
  then fdiv (of_int (column_sum Actual_Output df m))
            (of_int (column_sum Target_Output df m))
  else of_int 1.

Definition guarded_defect_rate (df : DataFrame) (m : string) : float :=
  if 0 <? column_sum Actual_Output df m
  then fdiv (of_int (column_sum Defects df m)) (of_int (column_sum Actual_Output df m))
  else of_int 0.

(** The two rates of section 4.3 as the specification words them. *)
Definition overall_efficiency (df : DataFrame) (machine_id : string) : float :=
  if total_target df machine_id =? 0 then of_int 1
  else fdiv (of_int (total_actual df machine_id)) (of_int (total_target df machine_id)).

Definition overall_defect_rate (df : DataFrame) (machine_id : string) : float :=
  if total_actual df machine_id =? 0 then of_int 0
  else fdiv (of_int (total_defects df machine_id)) (of_int (total_actual df machine_id)).

(** ** The rules of the specification *)

(** [clamp lo hi x]: [x] brought into [lo, hi]. *)
Definition clamp (lo hi x : Z) : Z := Z.max lo (Z.min hi x).

(** The sum of the four contributions, clamped to [0, 100]; [conv] turns a
    float into the integer number of points, [chron] is the history of the
    machine in chronological order. *)
Definition risk_formula (conv : float -> result Z) (df : DataFrame)
    (machine_id : string) (chron : list ShiftRecord) : result Z :=
  e <- conv (fmul (fsub (of_int 1) (overall_efficiency df machine_id)) (of_int 100)) ;;
  d <- conv (fmul (overall_defect_rate df machine_id) (of_int 100)) ;;
  Ok (clamp 0 100
        (Z.min (10 * downtime_count df machine_id) 30
         + (if recent_in chron then 20 else 0)
         + clamp 0 40 e
         + Z.min d 10)).

Definition horizon_of (records : Z) : Z :=
  if 20 <? records then 24 else if 10 <? records then 12 else 4.

(** The two shapes of the advisor's answer. *)
Definition insufficient : Prediction :=
  {| optimal_target := None; confidence := 0;
     message := "Insufficient data for prediction" |}.

Definition advice (target confidence : Z) (message : string) : Prediction :=
  {| optimal_target := Some target; confidence := confidence; message := message |}.

(** The rule of section 4.4 for a machine with history, the conversion of a
    float to the integer target being [conv]. *)
Definition target_rule `{Numpy} (conv : float -> result Z) (df : DataFrame)
    (machine_id : string) (p : Prediction) : Prop :=
  let e := floored_avg_efficiency df machine_id in
  let o := history_avg_output df machine_id in
  let x := history_max_output df machine_id in
  (fgeb e (lit 95 100) = true ->
   exists a b, conv (fmul x (lit 105 100)) = Ok a /\ conv (fmul o (lit 11 10)) = Ok b /\
               optimal_target p = Some (Z.max a b) /\ confidence p = 80)
  /\ (fgeb e (lit 8 10) = true -> fltb e (lit 95 100) = true ->
      exists a, conv (fdiv o e) = Ok a /\
                optimal_target p = Some a /\ confidence p = 70)
  /\ (fltb e (lit 8 10) = true ->
      exists a, conv (fmul o (lit 11 10)) = Ok a /\
                optimal_target p = Some a /\ confidence p = 60).

(** "First matching rule wins": the message of the first rule of the list
    whose condition holds, the default when none does. *)
Fixpoint first_match (rules : list (bool * string)) (default : string) : string :=
  match rules with
  | [] => default
  | (condition, message) :: rest =>
      if condition then message else first_match rest default
  end.

(** The rules (a) to (d) of section 4.2, in the order of the specification,
    each with the text it reports. *)
Definition attribution_rules (record : ShiftRecord) (avg : Averages)
    : list (bool * string) :=
  let downtime := Downtime_Minutes record in
  let actual := Actual_Output record in
  let target := Target_Output record in
  let efficiency := record_efficiency record in
  let defect_rate := record_defect_rate record in
  [ (fgtb (of_int downtime) (fmul (avg_downtime avg) (of_int 2)) && (10 <? downtime),
     ("Unusual downtime: " ++ str_int downtime ++ " minutes vs. average "
      ++ format_1f (avg_downtime avg) ++ " minutes")%string);
    (fltb efficiency (fmul (avg_efficiency avg) (lit 7 10))
     && fgtb (avg_efficiency avg) (of_int 0),
     ("Production efficiency dropped to " ++ format_1pct efficiency
      ++ " vs. average " ++ format_1pct (avg_efficiency avg))%string);
    (fgtb defect_rate (fadd (fmul (avg_defect_rate avg) (lit 15 10)) (lit 5 100))
     && fgtb defect_rate (lit 1 10),
     ("High defect rate: " ++ format_1pct defect_rate ++ " vs. average "
      ++ format_1pct (avg_defect_rate avg))%string);
    (fltb (of_int actual) (fmul (of_int target) (lit 6 10)) && (0 <? target),
     ("Output significantly below target: " ++ str_int actual ++ " vs. target "
      ++ str_int target)%string) ].

(** The text of rule (e). *)
Definition generic_text : string := "Unusual production pattern detected".

(** ** Kinds of floats and of sums *)

(** Finite and not below 0. *)
Definition nonneg (x : float) : Prop := exists q, x = Fin q /\ (0 <= q)%Q.

(** A float that is a binary64 number: its own rounding. *)
Definition rounded (x : float) : Prop :=
  match x with Fin q => (round53 q == q)%Q | _ => True end.

(** The sum of the absolute values. *)
Fixpoint abs_sum (l : list Z) : Z :=
  match l with
  | [] => 0
  | z :: t => Z.abs z + abs_sum t
  end.

(** ** Sample tables and stand-ins *)

(** A record of the morning shift. *)
Definition shift_record (machine : string) (day sec target actual defects downtime : Z)
    : ShiftRecord :=
  {| Date := day; Shift := "Morning"; Machine_ID := machine; Operator_Name := "op";
     Product_Name := "part"; Target_Output := target; Actual_Output := actual;
     Cumulative_Output := actual; Defects := defects; Downtime_Minutes := downtime;
     Downtime_Reason := ""; Remarks := ""; Timestamp := (day, sec) |}.

(** A table with every column. *)
Definition table (rs : list ShiftRecord) : DataFrame :=
  {| columns := all_columns; rows := rs |}.

(** One record of 993 units against a target of 1000. *)
Definition near_target : DataFrame :=
  table [ shift_record "M1" 1 21600 1000 993 0 0 ].

(** One record of 900 units against a target of 1000. *)
Definition nine_tenths : DataFrame :=
  table [ shift_record "M1" 1 21600 1000 900 0 0 ].

(** One record with a negative count of defects. *)
Definition negative_defects : DataFrame :=
  table [ shift_record "M1" 1 21600 100 100 (-300) 0 ].

(** Three records of 100 units against a target of 100. *)
Definition three_at_target : DataFrame :=
  table [ shift_record "M1" 1 21600 100 100 0 0;
          shift_record "M1" 1 25200 100 100 0 0;
          shift_record "M1" 1 28800 100 100 0 0 ].

(** Three records of 7 units against a target of 10. *)
Definition three_at_seven : DataFrame :=
  table [ shift_record "M1" 1 21600 10 7 0 0;
          shift_record "M1" 1 25200 10 7 0 0;
          shift_record "M1" 1 28800 10 7 0 0 ].

(** Six records of one machine; the last one has 50 minutes of downtime,
    a tenth of the usual output and half of it defective. *)
Definition downtime_spike : DataFrame :=
  table [ shift_record "M1" 1 21600 100 100 1 0;
          shift_record "M1" 1 25200 100 100 1 0;
          shift_record "M1" 1 28800 100 100 1 0;
          shift_record "M1" 1 32400 100 100 1 0;
          shift_record "M1" 1 36000 100 100 1 0;
          shift_record "M1" 1 39600 100 10 5 50 ].

Definition spike_record : ShiftRecord := shift_record "M1" 1 39600 100 10 5 50.

(** Five records of one machine: one without a target, one without output
    but with two rework units and a full hour of downtime. *)
Definition zero_denominators : DataFrame :=
  table [ shift_record "M1" 1 21600 0 50 0 0;
          shift_record "M1" 1 25200 100 0 2 60;
          shift_record "M1" 1 28800 100 100 0 0;
          shift_record "M1" 1 32400 100 100 0 0;
          shift_record "M1" 1 36000 100 100 0 0 ].

(** The table of the downtime spike with the column of defects removed. *)
Definition without_defects : DataFrame :=
  {| columns := filter (fun c => negb (String.eqb c "Defects")) all_columns;
     rows := rows downtime_spike |}.

(** The feature row of the record without output. *)
Definition zero_output_feature : Feature.t :=
  {| Feature.efficiency := Fin 0;
     Feature.defect_rate := Fin 0;
     Feature.downtime_per_unit := Fin 0;
     Feature.machine_id := "M1";
     Feature.index := 1 |}.

(** Two machines of five records each: M1 always on target, M2 with one
    record at a tenth of the target and 50 minutes of downtime. *)
Definition two_machines : DataFrame :=
  table [ shift_record "M1" 1 21600 100 100 0 0;
          shift_record "M1" 1 25200 100 100 0 0;
          shift_record "M1" 1 28800 100 100 0 0;
          shift_record "M1" 1 32400 100 100 0 0;
          shift_record "M1" 1 36000 100 100 0 0;
          shift_record "M2" 1 21600 100 100 0 0;
          shift_record "M2" 1 25200 100 100 0 0;
          shift_record "M2" 1 28800 100 10 0 50;
          shift_record "M2" 1 32400 100 100 0 0;
          shift_record "M2" 1 36000 100 100 0 0 ].

Definition two_machines_features : list Feature.t :=
  match prepare_anomaly_features two_machines with
  | Ok (Some (feature_df, _)) => feature_df
  | _ => []
  end.

(** A stand-in for numpy: the entries are added up from left to right, and
    the sort is an insertion sort that keeps equal keys in their order. *)
Definition sequential_sum (l : list float) : float := fold_left fadd l (Fin 0).

Fixpoint insert_position (keys : list Z) (i : nat) (sorted : list nat) : list nat :=
  match sorted with
  | [] => [i]
  | j :: t =>
      if nth i keys 0 <? nth j keys 0 then i :: j :: t
      else j :: insert_position keys i t
  end.

Definition insertion_argsort (keys : list Z) : list nat :=
  fold_left (fun sorted i => insert_position keys i sorted)
            (seq 0 (List.length keys)) [].

#[export] Instance stand_in : Numpy :=
  {| np_sum := sequential_sum; argsort := insertion_argsort |}.

(** A linear congruential generator standing for the Mersenne twister. *)
Definition lcg_randbelow (n : Z) (s : Z) : Z * Z :=
  (s mod n, (s * 1103515245 + 12345) mod 2147483648).

(** A stand-in for scikit-learn: scaling is the identity; the fit raises on
    a matrix whose first column is constant and otherwise labels as
    outliers the rows of efficiency below one half. *)
Definition feqb (x y : float) : bool :=
  match x, y with
  | Fin a, Fin b => Qeq_bool a b
  | PInf, PInf | NInf, NInf => true
  | _, _ => false
  end.

Definition sample_fit_transform (X : list (float * float * float))
    : result (list (float * float * float)) := Ok X.

Definition sample_fit_predict (X : list (float * float * float)) : result (list Z) :=
  match X with
  | [] => Raise (ValueError "Found array with 0 sample(s)")
  | (e, _, _) :: rest =>
      if forallb (fun row => feqb (fst (fst row)) e) rest
      then Raise (ValueError "degenerate feature matrix")
      else Ok (map (fun row => if fltb (fst (fst row)) (lit 1 2) then -1 else 1) X)
  end.

(** ** Sums over the whole table *)

(** The sum of a column of the table, as a sum of integers. *)
Definition table_total (field : ShiftRecord -> Z) (df : DataFrame) : Z :=
  fold_right Z.add 0 (map field (rows df)).

(** ** The feature row of one labelled record *)

Definition feature_of (machine_id : string) (ir : nat * ShiftRecord) : Feature.t :=
  let r := snd ir in
  {| Feature.efficiency := guarded_ratio (Actual_Output r) (Target_Output r);
     Feature.defect_rate := guarded_ratio (Defects r) (Actual_Output r);
     Feature.downtime_per_unit := guarded_ratio (Downtime_Minutes r) (Actual_Output r);
     Feature.machine_id := machine_id;
     Feature.index := fst ir |}.

(** ** The records of one operator *)

Definition operator_records (df : DataFrame) (operator_name : string)
    : list ShiftRecord :=
  filter (fun r => String.eqb (Operator_Name r) operator_name) (rows df).

(** ** Times of the day *)

(** The ranges [datetime.time] enforces on its fields. *)
Definition valid_time (t : time) : bool :=
  (0 <=? hour t) && (hour t <? 24) && (0 <=? minute t) && (minute t <? 60)
  && (0 <=? second t) && (second t <? 60)
  && (0 <=? microsecond t) && (microsecond t <? 1000000).

Definition second_of_day (t : time) : Z := 3600 * hour t + 60 * minute t + second t.

(** ** Downtime reasons *)

(** A record that [get_recent_downtime_reasons] may report. *)
Definition has_downtime_reason (r : ShiftRecord) : bool :=
  (0 <? Downtime_Minutes r) && negb (String.eqb (Downtime_Reason r) "").

(** [a] is not older than [b]. *)
Definition not_older (a b : ShiftRecord) : Prop :=
  timestamp_ltb (Timestamp a) (Timestamp b) = false.

(** ** More sample tables and stand-ins *)

(** The table of the downtime spike with the column of machines removed. *)
Definition without_machine_id : DataFrame :=
  {| columns := filter (fun c => negb (String.eqb c "Machine_ID")) all_columns;
     rows := rows downtime_spike |}.

(** The five records of the first of the two machines, alone. *)
Definition first_machine_alone : DataFrame :=
  table (machine_records two_machines "M1").

(** The last microsecond of the morning shift. *)
Definition end_of_morning : time := mkTime 13 59 59 999999.

(** A record with its minutes of downtime and their reason. *)
Definition stoppage (machine : string) (day sec downtime : Z) (reason : string)
    : ShiftRecord :=
  {| Date := day; Shift := "Morning"; Machine_ID := machine; Operator_Name := "op";
     Product_Name := "part"; Target_Output := 100; Actual_Output := 100;
     Cumulative_Output := 100; Defects := 0; Downtime_Minutes := downtime;
     Downtime_Reason := reason; Remarks := ""; Timestamp := (day, sec) |}.

(** Four records: three stoppages with a reason, out of order, and one hour
    without downtime. *)
Definition stoppages : DataFrame :=
  table [ stoppage "M1" 1 21600 10 "jam";
          stoppage "M2" 1 25200 0 "";
          stoppage "M1" 2 21600 5 "tool change";
          stoppage "M3" 1 80000 20 "power" ].

(** A stand-in for the matcher of [str.contains]: the pattern "(" does not
    compile; any other matches the texts that hold it as it is written. *)
Definition holds (pat s : string) : bool :=
  match String.index 0 pat s with Some _ => true | None => false end.

Definition sample_str_contains (pat : string) : result (string -> bool) :=
  if String.eqb pat "("
  then Raise (LibraryError "missing ), unterminated subpattern at position 0")
  else Ok (holds pat).

(** ** The sheet import *)

(** The record made of a row of the sheet: cell by cell, a missing text
    empty, the stamp at midnight of the day. *)
Definition imported (row : SheetRow) (r : ShiftRecord) : Prop :=
  Date r = sheet_Date row
  /\ Shift r = sheet_Shift row
  /\ Machine_ID r = sheet_Machine_ID row
  /\ Operator_Name r = sheet_Operator_Name row
  /\ Product_Name r = sheet_Product_Name row
  /\ Target_Output r = sheet_Target_Output row
  /\ Actual_Output r = sheet_Actual_Output row
  /\ Cumulative_Output r = sheet_Cumulative_Output row
  /\ Defects r = Defects_Rework row
  /\ Downtime_Minutes r = sheet_Downtime_Minutes row
  /\ Downtime_Reason r = text_or_empty (Reason_for_Downtime row)
  /\ Remarks r = text_or_empty (Operator_Remarks row)
  /\ Timestamp r = (sheet_Date row, 0).

(** Every cell the import asks for is a column of the sheet. *)
Definition complete_sheet (sheet : Sheet) : bool :=
  forallb (sheet_has sheet) sheet_cells.

(** A sheet of two hours of one machine, and the files around it: an older
    data file, and a disk that refuses the write. *)
Definition sample_sheet : Sheet :=
  {| sheet_columns := sheet_cells;
     sheet_rows :=
       [ mkSheetRow 3 "Morning" "M1" "op" "part" 100 90 90 2 15 (Some "jam") None;
         mkSheetRow 3 "Morning" "M1" "op" "part" 100 95 185 0 0 None None ] |}.

Definition sample_files : Files :=
  {| import_file := Some (Ok sample_sheet);
     data_file := Some downtime_spike;
     write_error := Some (LibraryError "[Errno 13] Permission denied: 'manufacturing_data.csv'");
     printed := [] |}.

(** ** The world of the effectful functions *)

Section Runtime.

Context `{numpy : Numpy}.

(** The state of the global [random] generator and its primitive
    [_randbelow(n)], which draws from [0, n). *)
Variable RngState : Type.
Variable randbelow : Z -> RngState -> Z * RngState.

(** scikit-learn, as the source calls it: [StandardScaler().fit_transform] and
    [IsolationForest(contamination=0.1, random_state=42).fit_predict].  With
    the seed fixed both are functions of the matrix; either may raise. *)
Variable fit_transform : (list (float * float * float)) -> result (list (float * float * float)).
Variable fit_predict : list (float * float * float) -> result (list Z).

(** [model_file]: absent, or present and readable by [joblib.load] or not. *)
Record World : Type := mkWorld {
  rng : RngState;
  model_file : option bool;
  stdout : list string
}.

Definition M (A : Type) : Type := World -> result A * World.

Definition ret {A : Type} (a : A) : M A := fun w => (Ok a, w).

Definition raise {A : Type} (e : exn) : M A := fun w => (Raise e, w).

Definition bindM {A B : Type} (m : M A) (k : A -> M B) : M B :=
  fun w =>
    match m w with
    | (Ok a, w') => k a w'
    | (Raise e, w') => (Raise e, w')
    end.

Definition lift {A : Type} (r : result A) : M A := fun w => (r, w).

(** [try: body except Exception as e: handler(e)] *)
Definition try_except {A : Type} (body : M A) (handler : exn -> M A) : M A :=
  fun w =>
    match body w with
    | (Ok a, w') => (Ok a, w')
    | (Raise e, w') => handler e w'
    end.

Definition py_print (line : string) : M unit :=
  fun w => (Ok tt, {| rng := rng w; model_file := model_file w;
                      stdout := stdout w ++ [line] |}).

Definition set_rng (w : World) (s : RngState) : World :=
  {| rng := s; model_file := model_file w; stdout := stdout w |}.

(** [random.randint(a, b)] is [a + _randbelow(b - a + 1)]. *)
Definition randint (a b : Z) : M Z :=
  fun w =>
    let (k, s) := randbelow (b - a + 1) (rng w) in
    (Ok (a + k), set_rng w s).

(** [random.choice(seq)] is [seq[_randbelow(len(seq))]]. *)
Definition choice (seq : list Z) : M Z :=
  fun w =>
    let (k, s) := randbelow (Z.of_nat (List.length seq)) (rng w) in
    (match nth_error seq (Z.to_nat k) with
     | Some x => Ok x
     | None => Raise IndexError
     end, set_rng w s).

(** [train_downtime_model]: an unfitted classifier is written to the model
    file (the write is taken to succeed). *)
Definition train_downtime_model (df : DataFrame) : M unit :=
  fun w => (Ok tt, {| rng := rng w; model_file := Some true; stdout := stdout w |}).

(** [joblib.load(DOWNTIME_MODEL_PATH)] *)
Definition joblib_load : M unit :=
  fun w =>
    match model_file w with
    | Some true => (Ok tt, w)
    | Some false => (Raise (ValueError "cannot unpickle the model file"), w)
    | None => (Raise (LibraryError "No such file or directory"), w)
    end.

Definition path_exists : M bool :=
  fun w => (Ok (match model_file w with Some _ => true | None => false end), w).

Notation "x <~ e ;; k" := (bindM e (fun x => k))
  (at level 61, e at next level, right associativity).

Definition predict_downtime (df : DataFrame) (machine_id : string) : M (Z * Z) :=
  features <~ lift (prepare_machine_features df machine_id) ;;
  match features with
  | None =>
      score <~ randint 10 90 ;;
      hours <~ choice [2; 4; 8; 12; 24] ;;
      ret (score, hours)
  | Some features =>
      model_exists <~ path_exists ;;
      _ <~ (if negb model_exists then train_downtime_model df
            else try_except joblib_load (fun _ => train_downtime_model df)) ;;
      final_score <~ lift (risk_score features) ;;
      hours <~ lift (horizon df machine_id) ;;
      ret (final_score, hours)
  end.

(** *** anomaly_detection.py: the anomaly engine *)

(** A block of statements working on the list [anomalies] of the caller.
    The list is mutated in place: what was appended before an exception
    stays appended. *)
Definition Block : Type :=
  list Anomaly.t -> World -> (result unit * list Anomaly.t) * World.

(** The loop [for idx in anomaly_indices], lines 113-126. *)
Fixpoint report_anomalies (original_df : DataFrame) (machine_id : string)
    (anomaly_indices : list nat) : Block :=
  fun anomalies w =>
    match anomaly_indices with
    | [] => ((Ok tt, anomalies), w)
    | idx :: rest =>
        match (anomaly_record <- loc original_df idx ;;
               reason <- determine_anomaly_reason anomaly_record original_df ;;
               date <- cell original_df "Date" Date anomaly_record ;;
               shift <- cell original_df "Shift" Shift anomaly_record ;;
               Ok (reason, date, shift)) with
        | Raise e => ((Raise e, anomalies), w)
        | Ok (reason, date, shift) =>
            match randint 70 95 w with
            | (Raise e, w') => ((Raise e, anomalies), w')
            | (Ok confidence, w') =>
                report_anomalies original_df machine_id rest
                  (anomalies ++ [ {| Anomaly.machine_id := machine_id;
                                     Anomaly.date := date;
                                     Anomaly.shift := shift;
                                     Anomaly.message := reason;
                                     Anomaly.confidence := confidence |} ])
                  w'
            end
        end
    end.

(** The body of the [try], lines 98-126. *)
Definition machine_block (original_df : DataFrame) (machine_id : string)
    (machine_features : list Feature.t) : Block :=
  fun anomalies w =>
    let X := feature_matrix machine_features in
    match (X_scaled <- fit_transform X ;;
           preds <- fit_predict X_scaled ;;
           outliers <- iloc machine_features (where_outlier 0 preds) ;;
           Ok (map Feature.index outliers)) with
    | Raise e => ((Raise e, anomalies), w)
    | Ok anomaly_indices =>
        report_anomalies original_df machine_id anomaly_indices anomalies w
    end.

Definition error_line (machine_id : string) (e : exn) : string :=
  ("Error detecting anomalies for machine " ++ machine_id ++ ": "
   ++ str_exn e)%string.

(** The loop over the machines, lines 91-129. *)
Fixpoint scan_machines (feature_df : list Feature.t) (original_df : DataFrame)
    (machines : list string) (anomalies : list Anomaly.t) (w : World)
    : list Anomaly.t * World :=
  match machines with
  | [] => (anomalies, w)
  | machine_id :: rest =>
      let machine_features := features_of machine_id feature_df in
      if Z.of_nat (List.length machine_features) <? 5
      then scan_machines feature_df original_df rest anomalies w
      else
        match machine_block original_df machine_id machine_features anomalies w with
        | ((Ok _, anomalies'), w') =>
            scan_machines feature_df original_df rest anomalies' w'
        | ((Raise e, anomalies'), w') =>
            scan_machines feature_df original_df rest anomalies'
              (snd (py_print (error_line machine_id e) w'))
        end
  end.

Definition detect_anomalies (df : DataFrame) : M (list Anomaly.t) :=
  fun w =>
    match prepare_anomaly_features df with
    | Raise e => (Raise e, w)
    | Ok None => (Ok [], w)
    | Ok (Some ([], _)) => (Ok [], w)
    | Ok (Some (feature_df, original_df)) =>
        let (anomalies, w') :=
          scan_machines feature_df original_df (feature_machines feature_df) [] w in
        (Ok anomalies, w')
    end.

(** *** app.py: the prediction button *)

(** Lines 181-199, the body of [if st.button("Predict Downtime Risk"):], for
    the table of the session and the text of the input box.  The elements
    are written after the scorer has returned, so the page of a run that
    raises has none of them; the spinner shown meanwhile is left out. *)
Definition predict_downtime_risk (df : DataFrame) (prediction_machine : string)
    : M (list element) :=
  if negb (String.eqb prediction_machine "") then
    values <~ lift (column df "Machine_ID" Machine_ID (iterrows df)) ;;
    if in_values prediction_machine values then
      prediction <~ predict_downtime df prediction_machine ;;
      let risk_score := fst prediction in
      let hours := snd prediction in
      ret [ st_metric "Downtime Risk" (str_int risk_score ++ "%");
            st_markdown ("**Machine " ++ prediction_machine ++ "** has a **"
                         ++ str_int risk_score
                         ++ "%** risk of downtime in the next **"
                         ++ str_int hours ++ "** hours.");
            if 70 <? risk_score
            then st_error "High risk of downtime! Consider preventive maintenance."
            else if 30 <? risk_score
            then st_warning "Moderate risk of downtime. Monitor closely."
            else st_success "Low risk of downtime." ]
    else
      ret [ st_error ("Machine ID '" ++ prediction_machine
                      ++ "' not found in the dataset.") ]
  else ret [ st_warning "Please enter a Machine ID for prediction." ].


(** *** Outcomes of the effectful functions *)

(** The model file after the check of lines 109-116: written or readable. *)
Definition model_ready (w : World) : World :=
  {| rng := rng w; model_file := Some true; stdout := stdout w |}.

(** Two outcomes of a block agree up to what was printed. *)
Definition same_outcome {A : Type} (r1 r2 : A * World) : Prop :=
  fst r1 = fst r2 /\ rng (snd r1) = rng (snd r2).

(** What scaling and fitting return for the features of one machine. *)
Definition fit_outcome (fs : list Feature.t) : result (list Z) :=
  X_scaled <- fit_transform (feature_matrix fs) ;; fit_predict X_scaled.

(** *** What the anomaly engine owes for one machine *)

(** The labels of the rows the detector flags among the feature rows of one
    machine; scaling, fitting or the selection of the rows may raise. *)
Definition flagged_indices (fs : list Feature.t) : result (list nat) :=
  preds <- fit_outcome fs ;;
  outliers <- iloc fs (where_outlier 0 preds) ;;
  Ok (map Feature.index outliers).

(** The records to report for a machine, each as the machine and the label
    of the record: none for a machine with fewer than 5 feature rows or
    whose detection fails. *)
Definition flagged (feature_df : list Feature.t) (machine_id : string)
    : list (string * nat) :=
  let fs := features_of machine_id feature_df in
  if Z.of_nat (List.length fs) <? 5 then []
  else match flagged_indices fs with
       | Ok indices => map (pair machine_id) indices
       | Raise _ => []
       end.

(** The line printed for a machine whose detection fails. *)
Definition failure_report (machine_id : string) (e : exn) : string :=
  ("Error detecting anomalies for machine " ++ machine_id ++ ": "
   ++ str_exn e)%string.

Definition failure_reports (feature_df : list Feature.t) (machine_id : string)
    : list string :=
  let fs := features_of machine_id feature_df in
  if Z.of_nat (List.length fs) <? 5 then []
  else match flagged_indices fs with
       | Ok _ => []
       | Raise e => [failure_report machine_id e]
       end.

(** The anomaly [a] reports the record of the table labelled [snd flag] for
    the machine [fst flag]: it carries the machine, the date and the shift
    of the record, the reason of section 4.2 and a confidence from 70 to
    95. *)
Definition reports (df : DataFrame) (flag : string * nat) (a : Anomaly.t) : Prop :=
  exists record,
    nth_error (rows df) (snd flag) = Some record
    /\ Anomaly.machine_id a = fst flag
    /\ Anomaly.date a = Date record
    /\ Anomaly.shift a = Shift record
    /\ Anomaly.message a
       = first_match
           (attribution_rules record (history_averages df (Machine_ID record)))
           generic_text
    /\ 70 <= Anomaly.confidence a <= 95.

(** The machines of the feature frame other than [machine_id]. *)
Definition other_machines (feature_df : list Feature.t) (machine_id : string)
    : list string :=
  filter (fun m => negb (String.eqb m machine_id)) (feature_machines feature_df).

End Runtime.

Arguments mkWorld {RngState} rng model_file stdout.
Arguments rng {RngState} w.
Arguments model_file {RngState} w.
Arguments stdout {RngState} w.
Arguments set_rng {RngState} w s.
Arguments ret {RngState A} a w.
Arguments raise {RngState A} e w.
Arguments bindM {RngState A B} m k w.
Arguments lift {RngState A} r w.
Arguments try_except {RngState A} body handler w.
Arguments py_print {RngState} line w.
Arguments randint {RngState} randbelow a b w.
Arguments choice {RngState} randbelow seq w.
Arguments train_downtime_model {RngState} df w.
Arguments joblib_load {RngState} w.
Arguments path_exists {RngState} w.
Arguments predict_downtime {numpy RngState} randbelow df machine_id w.
Arguments report_anomalies {numpy RngState} randbelow original_df machine_id
  anomaly_indices anomalies w.
Arguments machine_block {numpy RngState} randbelow fit_transform fit_predict
  original_df machine_id machine_features anomalies w.
Arguments scan_machines {numpy RngState} randbelow fit_transform fit_predict
  feature_df original_df machines anomalies w.
Arguments detect_anomalies {numpy RngState} randbelow fit_transform fit_predict df w.
Arguments model_ready {RngState} w.
Arguments same_outcome {RngState A} r1 r2.
Arguments reports {numpy} df flag a.

(** ** A sample world *)

Definition sample_world : World Z :=
  {| rng := 7; model_file := None; stdout := [] |}.

Arguments predict_downtime_risk {numpy RngState} randbelow df prediction_machine w.

(** ** A sample run of the anomaly engine *)

Definition two_machines_run : result (list Anomaly.t) * World Z :=
  detect_anomalies lcg_randbelow sample_fit_transform sample_fit_predict
    two_machines sample_world.

Definition two_machines_found : list Anomaly.t :=
  match fst two_machines_run with
  | Ok anomalies => anomalies
  | Raise _ => []
  end.

(** * Properties *)

(** ** float64 arithmetic *)

(** *** Rounding to the nearest integer *)

Lemma Qround_half_even_comp x y : (x == y)%Q -> Qround_half_even x = Qround_half_even y.
Proof.
  intros H. unfold Qround_half_even. rewrite (Qfloor_comp _ _ H).
  assert (Hc : ((x - inject_Z (Qfloor y) ?= 1 # 2) = (y - inject_Z (Qfloor y) ?= 1 # 2))%Q).
  { apply Qcompare_comp; [rewrite H; reflexivity | reflexivity]. }
  rewrite Hc. reflexivity.
Qed.

Lemma Qround_half_even_bounds q :
  (inject_Z (Qround_half_even q) - (1 # 2) <= q
   /\ q <= inject_Z (Qround_half_even q) + (1 # 2))%Q.
Proof.
  unfold Qround_half_even.
  pose proof (Qfloor_le q) as Hlo. pose proof (Qlt_floor q) as Hhi.
  rewrite inject_Z_plus in Hhi. change (inject_Z 1) with 1%Q in Hhi.
  destruct (Qcompare_spec (q - inject_Z (Qfloor q)) (1 # 2)) as [He | Hl | Hg].
  - destruct (Z.even (Qfloor q)); rewrite ?inject_Z_plus;
      change (inject_Z 1) with 1%Q; split; lra.
  - split; lra.
  - rewrite inject_Z_plus. change (inject_Z 1) with 1%Q. split; lra.
Qed.

Lemma Qround_half_even_mono x y :
  (x <= y)%Q -> Qround_half_even x <= Qround_half_even y.
Proof.
  intros Hxy.
  destruct (Z_le_gt_dec (Qround_half_even x) (Qround_half_even y)) as [H | H]; [exact H|].
  exfalso.
  destruct (Qround_half_even_bounds x) as [Hx _].
  destruct (Qround_half_even_bounds y) as [_ Hy].
  assert (Hz : (inject_Z (Qround_half_even y) + 1 <= inject_Z (Qround_half_even x))%Q).
  { rewrite <- (inject_Z_plus _ 1). rewrite <- Zle_Qle. lia. }
  assert (Heq : (x == y)%Q) by lra.
  apply Qround_half_even_comp in Heq. lia.
Qed.

Lemma Qround_half_even_Z z : Qround_half_even (inject_Z z) = z.
Proof.
  unfold Qround_half_even. rewrite Qfloor_Z.
  destruct (Qcompare_spec (inject_Z z - inject_Z z) (1 # 2)) as [H | H | H];
    [lra | reflexivity | lra].
Qed.

(** *** Powers of two and binades *)

Lemma pow2_pos e : (0 < 2 ^ e)%Q.
Proof. apply Qpower_0_lt. reflexivity. Qed.

Lemma pow2_plus a b : (2 ^ (a + b) == 2 ^ a * 2 ^ b)%Q.
Proof. apply Qpower_plus. discriminate. Qed.

Lemma pow2_succ e : (2 ^ (e + 1) == 2 * 2 ^ e)%Q.
Proof. rewrite pow2_plus. change (2 ^ 1)%Q with 2%Q. lra. Qed.

Lemma pow2_le a b : a <= b -> (2 ^ a <= 2 ^ b)%Q.
Proof. intros H. apply Qpower_le_compat_l; [exact H | discriminate]. Qed.

Lemma pow2_lt a b : a < b -> (2 ^ a < 2 ^ b)%Q.
Proof. intros H. apply Qpower_lt_compat_l; [exact H | reflexivity]. Qed.

Lemma pow2_lt_inv a b : (2 ^ a < 2 ^ b)%Q -> a < b.
Proof. intros H. eapply Qpower_lt_compat_l_inv; [exact H | reflexivity]. Qed.

Lemma pow2_inject e : 0 <= e -> (inject_Z (2 ^ e) == 2 ^ e)%Q.
Proof. intros H. rewrite Zpower_Qpower by exact H. reflexivity. Qed.

Lemma log2_bounds n :
  0 < n -> (2 ^ (Z.log2 n) <= inject_Z n /\ inject_Z n < 2 * 2 ^ (Z.log2 n))%Q.
Proof.
  intros Hn. destruct (Z.log2_spec n Hn) as [Hlo Hhi].
  pose proof (Z.log2_nonneg n) as H0.
  rewrite <- pow2_succ, <- !pow2_inject by lia.
  rewrite <- Zle_Qle, <- Zlt_Qlt. replace (Z.log2 n + 1) with (Z.succ (Z.log2 n)) by lia.
  split; assumption.
Qed.

Lemma ilog2_spec q :
  (0 < q)%Q -> (2 ^ ilog2 q <= q /\ q < 2 * 2 ^ ilog2 q)%Q.
Proof.
  intros Hq. destruct q as [n d]. unfold ilog2. cbn [Qnum Qden].
  assert (Hn : 0 < n) by (unfold Qlt in Hq; simpl in Hq; lia).
  destruct (log2_bounds n Hn) as [Hn1 Hn2].
  destruct (log2_bounds (Zpos d) ltac:(lia)) as [Hd1 Hd2].
  set (ln := Z.log2 n) in *. set (ld := Z.log2 (Zpos d)) in *.
  pose proof (pow2_pos ln) as Pn. pose proof (pow2_pos ld) as Pd.
  pose proof (pow2_pos (ln - ld)) as Pk.
  assert (Hk : (2 ^ (ln - ld) * 2 ^ ld == 2 ^ ln)%Q).
  { rewrite <- pow2_plus. replace (ln - ld + ld) with ln by lia. reflexivity. }
  assert (Hq' : ((n # d) * inject_Z (Zpos d) == inject_Z n)%Q).
  { unfold Qeq, Qmult, inject_Z. simpl. lia. }
  assert (HD : (0 < inject_Z (Zpos d))%Q) by (unfold Qlt; simpl; lia).
  set (D := inject_Z (Zpos d)) in *. set (N := inject_Z n) in *.
  set (x := (n # d)%Q) in *. set (A := (2 ^ ln)%Q) in *. set (B := (2 ^ ld)%Q) in *.
  set (K := (2 ^ (ln - ld))%Q) in *.
  assert (Hhalf : (2 * 2 ^ (ln - ld - 1) == K)%Q).
  { unfold K. rewrite <- pow2_succ. replace (ln - ld - 1 + 1) with (ln - ld) by lia.
    reflexivity. }
  pose proof (pow2_pos (ln - ld - 1)) as Ph.
  set (H2 := (2 ^ (ln - ld - 1))%Q) in *.
  destruct (Qle_bool K x) eqn:E.
  - fold K. apply Qle_bool_iff in E. clearbody D N x A B K H2. clear Hq ln ld.
    split; [exact E|].
    apply Qnot_le_lt. intros Hc.
    assert (2 * K * D <= x * D)%Q by nra.
    assert (2 * K * B <= 2 * K * D)%Q by nra.
    nra.
  - fold H2.
    assert (Hlt : (x < K)%Q).
    { apply Qnot_le_lt. intros Hc. apply Qle_bool_iff in Hc. congruence. }
    clearbody D N x A B K H2. clear Hq ln ld E.
    split; [|lra].
    apply Qnot_lt_le. intros Hc.
    assert (x * D < H2 * D)%Q by nra.
    assert (H2 * D < H2 * (2 * B))%Q by nra.
    nra.
Qed.

Lemma ilog2_unique q e :
  (2 ^ e <= q)%Q -> (q < 2 * 2 ^ e)%Q -> ilog2 q = e.
Proof.
  intros Hlo Hhi.
  assert (Hq : (0 < q)%Q) by (pose proof (pow2_pos e); lra).
  destruct (ilog2_spec q Hq) as [Slo Shi].
  rewrite <- pow2_succ in Hhi, Shi.
  assert (e < ilog2 q + 1) by (apply pow2_lt_inv; lra).
  assert (ilog2 q < e + 1) by (apply pow2_lt_inv; lra).
  lia.
Qed.

(** *** Rounding to binary64 *)

Lemma ulp_pos a : (0 < ulp a)%Q.
Proof. apply pow2_pos. Qed.

Lemma ulp_binade a :
  (0 < a)%Q -> (2 ^ 52 * ulp a <= a /\ a < 2 ^ 53 * ulp a)%Q.
Proof.
  intros Ha. destruct (ilog2_spec a Ha) as [Hlo Hhi]. unfold ulp.
  assert (H : (2 ^ 52 * 2 ^ (ilog2 a - 52) == 2 ^ ilog2 a)%Q).
  { rewrite <- pow2_plus. replace (52 + (ilog2 a - 52)) with (ilog2 a) by lia. reflexivity. }
  change (2 ^ 53)%Q with (2 * 2 ^ 52)%Q.
  pose proof (pow2_pos (ilog2 a - 52)). split; lra.
Qed.

Lemma Qabs_pos_eq q : (0 < q)%Q -> Qabs q = q.
Proof.
  destruct q as [[|n|n] d]; unfold Qlt; simpl; intros H; try lia. reflexivity.
Qed.

Lemma round53_zero q : (q == 0)%Q -> round53 q = 0%Q.
Proof.
  destruct q as [n d]. unfold Qeq, round53. simpl. intros H.
  rewrite Z.mul_1_r in H. subst n. reflexivity.
Qed.

Lemma round53_pos q :
  (0 < q)%Q ->
  round53 q = Qred (inject_Z (Qround_half_even (q / ulp q)) * ulp q).
Proof.
  intros Hq. unfold round53. rewrite (Qabs_pos_eq q Hq).
  destruct q as [n d]. unfold Qlt in Hq. simpl in Hq. cbn [Qnum].
  destruct (Z.compare_spec n 0); [lia | lia | reflexivity].
Qed.

Lemma round53_opp q : round53 (- q) = (- round53 q)%Q.
Proof.
  destruct q as [[|n|n] d]; unfold round53; cbn [Qnum Qopp Z.opp Z.compare Qabs Z.abs];
    [reflexivity | | ].
  - reflexivity.
  - destruct (Qred _) as [a b]. unfold Qopp. cbn [Qnum Qden]. now rewrite Z.opp_involutive.
Qed.

Lemma Qopp_involutive q : (- - q)%Q = q.
Proof. destruct q as [n d]. unfold Qopp. simpl. now rewrite Z.opp_involutive. Qed.

Lemma ilog2_comp x y : (0 < x)%Q -> (x == y)%Q -> ilog2 x = ilog2 y.
Proof.
  intros Hx Hxy. destruct (ilog2_spec x Hx) as [Hlo Hhi].
  symmetry. apply ilog2_unique; lra.
Qed.

(** Equal rationals have the same rounding, fraction for fraction. *)
Lemma round53_comp x y : (x == y)%Q -> round53 x = round53 y.
Proof.
  assert (Hpos : forall a b, (0 < a)%Q -> (a == b)%Q -> round53 a = round53 b).
  { intros a b Ha Hab. rewrite (round53_pos a Ha), (round53_pos b) by lra.
    apply Qred_complete. unfold ulp. rewrite (ilog2_comp a b Ha Hab).
    assert (Hm : (a / 2 ^ (ilog2 b - 52) == b / 2 ^ (ilog2 b - 52))%Q)
      by (rewrite Hab; reflexivity).
    rewrite (Qround_half_even_comp _ _ Hm). reflexivity. }
  intros Hxy. destruct (Qlt_le_dec 0 x) as [Hp | Hp]; [now apply Hpos|].
  destruct (Qlt_le_dec x 0) as [Hn | Hz].
  - rewrite <- (Qopp_involutive x), <- (Qopp_involutive y), !(round53_opp (- _)).
    f_equal. apply Hpos; lra.
  - rewrite (round53_zero x), (round53_zero y) by lra. reflexivity.
Qed.

(** The significand of the result, an integer of 53 bits or [2^53]. *)
Lemma significand_range q :
  (0 < q)%Q ->
  2 ^ 52 <= Qround_half_even (q / ulp q) <= 2 ^ 53.
Proof.
  intros Hq. destruct (ulp_binade q Hq) as [Hlo Hhi]. pose proof (ulp_pos q) as Hu.
  assert (H1 : (inject_Z (2 ^ 52) <= q / ulp q)%Q).
  { apply Qle_shift_div_l; [exact Hu|]. exact Hlo. }
  assert (H2 : (q / ulp q <= inject_Z (2 ^ 53))%Q).
  { apply Qle_shift_div_r; [exact Hu|]. apply Qlt_le_weak. exact Hhi. }
  apply Qround_half_even_mono in H1, H2. rewrite Qround_half_even_Z in H1, H2.
  split; assumption.
Qed.

Lemma round53_pos_eq q :
  (0 < q)%Q ->
  (round53 q == inject_Z (Qround_half_even (q / ulp q)) * ulp q)%Q.
Proof. intros Hq. rewrite round53_pos by exact Hq. apply Qred_correct. Qed.

Lemma round53_binade q :
  (0 < q)%Q ->
  (2 ^ ilog2 q <= round53 q /\ round53 q <= 2 * 2 ^ ilog2 q)%Q.
Proof.
  intros Hq. rewrite (round53_pos_eq q Hq).
  destruct (significand_range q Hq) as [Hlo Hhi]. pose proof (ulp_pos q) as Hu.
  rewrite Zle_Qle in Hlo, Hhi.
  assert (H : (2 ^ 52 * ulp q == 2 ^ ilog2 q)%Q).
  { unfold ulp. rewrite <- pow2_plus. replace (52 + (ilog2 q - 52)) with (ilog2 q) by lia.
    reflexivity. }
  change (inject_Z (2 ^ 52)) with (2 ^ 52)%Q in Hlo.
  change (inject_Z (2 ^ 53)) with (2 * 2 ^ 52)%Q in Hhi.
  set (r := inject_Z (Qround_half_even (q / ulp q))) in *. clearbody r.
  set (u := ulp q) in *. clearbody u.
  set (p := (2 ^ 52)%Q) in *. clearbody p.
  split; nra.
Qed.

Lemma round53_sign q :
  ((0 < q -> 0 < round53 q) /\ (q < 0 -> round53 q < 0))%Q.
Proof.
  assert (Hpos : forall x, (0 < x -> 0 < round53 x)%Q).
  { intros x Hx. destruct (round53_binade x Hx) as [H _].
    pose proof (pow2_pos (ilog2 x)). lra. }
  split; [apply Hpos|]. intros Hq.
  assert (Hn : (0 < - q)%Q) by lra. apply Hpos in Hn.
  rewrite round53_opp in Hn. lra.
Qed.

Lemma round53_nonneg q : (0 <= q -> 0 <= round53 q)%Q.
Proof.
  intros H. destruct (Qlt_le_dec 0 q) as [Hp | Hz].
  - apply Qlt_le_weak. now apply round53_sign.
  - rewrite round53_zero by lra. lra.
Qed.

Lemma ilog2_le x y : (0 < x)%Q -> (x <= y)%Q -> ilog2 x <= ilog2 y.
Proof.
  intros Hx Hxy. destruct (ilog2_spec x Hx) as [Hlo _].
  destruct (ilog2_spec y ltac:(lra)) as [_ Hhi]. rewrite <- pow2_succ in Hhi.
  assert (ilog2 x < ilog2 y + 1) by (apply pow2_lt_inv; lra). lia.
Qed.

Lemma round53_mono_pos x y : (0 < x)%Q -> (x <= y)%Q -> (round53 x <= round53 y)%Q.
Proof.
  intros Hx Hxy. assert (Hy : (0 < y)%Q) by lra.
  pose proof (ilog2_le x y Hx Hxy) as He.
  destruct (Z.eq_dec (ilog2 x) (ilog2 y)) as [Heq | Hne].
  - rewrite (round53_pos_eq x Hx), (round53_pos_eq y Hy).
    unfold ulp. rewrite Heq. pose proof (pow2_pos (ilog2 y - 52)) as Hu.
    set (u := (2 ^ (ilog2 y - 52))%Q) in *.
    assert (Hm : (x / u <= y / u)%Q).
    { apply Qle_shift_div_l; [exact Hu|].
      assert (x / u * u == x)%Q by (field; lra). lra. }
    apply Qround_half_even_mono in Hm. rewrite Zle_Qle in Hm.
    clearbody u. nra.
  - destruct (round53_binade x Hx) as [_ Hxu]. destruct (round53_binade y Hy) as [Hyl _].
    assert (Hp : (2 * 2 ^ ilog2 x <= 2 ^ ilog2 y)%Q).
    { rewrite <- pow2_succ. apply pow2_le. lia. }
    lra.
Qed.

Lemma round53_mono x y : (x <= y)%Q -> (round53 x <= round53 y)%Q.
Proof.
  intros Hxy.
  destruct (Qlt_le_dec 0 x) as [Hx | Hx].
  - now apply round53_mono_pos.
  - destruct (Qlt_le_dec 0 y) as [Hy | Hy].
    + apply Qle_trans with 0%Q.
      * destruct (Qlt_le_dec x 0) as [Hn | Hz].
        -- apply Qlt_le_weak. now apply round53_sign.
        -- rewrite round53_zero by lra. lra.
      * apply Qlt_le_weak. now apply round53_sign.
    + destruct (Qlt_le_dec y 0) as [Hn | Hz].
      * assert (H : (round53 (- y) <= round53 (- x))%Q)
          by (apply round53_mono_pos; lra).
        rewrite !round53_opp in H. lra.
      * rewrite (round53_zero y) by lra.
        destruct (Qlt_le_dec x 0) as [Hn' | Hz'].
        -- apply Qlt_le_weak. now apply round53_sign.
        -- rewrite round53_zero by lra. lra.
Qed.

(** A number on the grid of its binade is its own rounding. *)
Lemma round53_exact q z :
  (0 < q)%Q -> (q == inject_Z z * ulp q)%Q -> (round53 q == q)%Q.
Proof.
  intros Hq Hz. rewrite (round53_pos_eq q Hq). pose proof (ulp_pos q) as Hu.
  assert (Hm : (q / ulp q == inject_Z z)%Q).
  { rewrite Hz at 1. field. lra. }
  rewrite (Qround_half_even_comp _ _ Hm), Qround_half_even_Z. lra.
Qed.

Lemma round53_idem q : (round53 (round53 q) == round53 q)%Q.
Proof.
  assert (Hpos : forall x, (0 < x -> round53 (round53 x) == round53 x)%Q).
  { intros x Hx.
    destruct (significand_range x Hx) as [Hlo Hhi].
    pose proof (round53_pos_eq x Hx) as Hr.
    assert (Hrp : (0 < round53 x)%Q) by now apply round53_sign.
    pose proof (ulp_pos x) as Hu.
    set (r := Qround_half_even (x / ulp x)) in *.
    destruct (Z.eq_dec r (2 ^ 53)) as [Htop | Hlt].
    - (* the next binade *)
      assert (He : ilog2 (round53 x) = ilog2 x + 1).
      { apply ilog2_unique.
        - rewrite Hr, Htop, pow2_succ. unfold ulp.
          assert (H : (2 ^ 52 * 2 ^ (ilog2 x - 52) == 2 ^ ilog2 x)%Q).
          { rewrite <- pow2_plus. replace (52 + (ilog2 x - 52)) with (ilog2 x) by lia.
            reflexivity. }
          change (inject_Z (2 ^ 53)) with (2 * 2 ^ 52)%Q.
          pose proof (pow2_pos (ilog2 x - 52)). lra.
        - rewrite Hr, Htop, pow2_succ. unfold ulp.
          assert (H : (2 ^ 52 * 2 ^ (ilog2 x - 52) == 2 ^ ilog2 x)%Q).
          { rewrite <- pow2_plus. replace (52 + (ilog2 x - 52)) with (ilog2 x) by lia.
            reflexivity. }
          change (inject_Z (2 ^ 53)) with (2 * 2 ^ 52)%Q.
          pose proof (pow2_pos (ilog2 x - 52)). pose proof (pow2_pos (ilog2 x)). lra. }
      apply (round53_exact _ (2 ^ 52) Hrp).
      assert (Hu' : (ulp (round53 x) == 2 * ulp x)%Q).
      { unfold ulp. rewrite He.
        replace (ilog2 x + 1 - 52) with ((ilog2 x - 52) + 1) by lia.
        apply pow2_succ. }
      rewrite Hu', Hr, Htop.
      change (inject_Z (2 ^ 53)) with (2 * inject_Z (2 ^ 52))%Q. lra.
    - (* the same binade *)
      assert (He : ilog2 (round53 x) = ilog2 x).
      { assert (H : (2 ^ 52 * ulp x == 2 ^ ilog2 x)%Q).
        { unfold ulp. rewrite <- pow2_plus.
          replace (52 + (ilog2 x - 52)) with (ilog2 x) by lia. reflexivity. }
        assert (Hr1 : (inject_Z r + 1 <= inject_Z (2 ^ 53))%Q).
        { change 1%Q with (inject_Z 1). rewrite <- (inject_Z_plus r 1), <- Zle_Qle. lia. }
        assert (Hr0 : (inject_Z (2 ^ 52) <= inject_Z r)%Q) by (rewrite <- Zle_Qle; lia).
        change (inject_Z (2 ^ 53)) with (2 * 2 ^ 52)%Q in Hr1.
        change (inject_Z (2 ^ 52)) with (2 ^ 52)%Q in Hr0.
        apply ilog2_unique; rewrite Hr.
        - set (u := ulp x) in *. clearbody u. set (p := (2 ^ 52)%Q) in *. clearbody p.
          set (R := inject_Z r) in *. clearbody R. nra.
        - set (u := ulp x) in *. clearbody u. set (p := (2 ^ 52)%Q) in *. clearbody p.
          set (R := inject_Z r) in *. clearbody R. nra. }
      apply (round53_exact _ r Hrp).
      assert (Hu' : (ulp (round53 x) == ulp x)%Q) by (unfold ulp; rewrite He; reflexivity).
      rewrite Hu'. exact Hr. }
  destruct (Qlt_le_dec 0 q) as [Hp | Hp]; [now apply Hpos|].
  destruct (Qlt_le_dec q 0) as [Hn | Hz].
  - assert (H : (round53 (round53 (- q)) == round53 (- q))%Q) by (apply Hpos; lra).
    rewrite round53_opp in H. rewrite round53_opp in H. lra.
  - rewrite (round53_zero q) by lra. reflexivity.
Qed.

(** The integers up to [2^53] are binary64 numbers. *)
Lemma round53_int z : Z.abs z <= 2 ^ 53 -> round53 (inject_Z z) = inject_Z z.
Proof.
  assert (Hpos : forall n, 0 < n <= 2 ^ 53 -> (round53 (inject_Z n) == inject_Z n)%Q).
  { intros n [Hn0 Hn]. assert (Hq : (0 < inject_Z n)%Q).
    { change 0%Q with (inject_Z 0). rewrite <- Zlt_Qlt. exact Hn0. }
    destruct (ilog2_spec _ Hq) as [Hlo Hhi].
    set (e := ilog2 (inject_Z n)) in *.
    assert (He : e <= 53).
    { assert (H : e < 54); [|lia]. apply pow2_lt_inv.
      apply Qle_lt_trans with (inject_Z n); [exact Hlo|].
      apply Qle_lt_trans with (inject_Z (2 ^ 53)); [rewrite <- Zle_Qle; exact Hn|].
      reflexivity. }
    destruct (Z.eq_dec e 53) as [E53 | E53].
    - assert (n = 2 ^ 53).
      { rewrite E53 in Hlo. change (2 ^ 53)%Q with (inject_Z (2 ^ 53)) in Hlo.
        rewrite <- Zle_Qle in Hlo. lia. }
      subst n. apply (round53_exact _ (2 ^ 52) Hq). unfold ulp. fold e. rewrite E53.
      reflexivity.
    - apply (round53_exact _ (n * 2 ^ (52 - e)) Hq). unfold ulp. fold e.
      rewrite inject_Z_mult, pow2_inject by lia.
      rewrite <- Qmult_assoc, <- pow2_plus.
      replace (52 - e + (e - 52)) with 0 by lia. change (2 ^ 0)%Q with 1%Q. lra. }
  assert (Hred : forall n, Qred (inject_Z n) = inject_Z n).
  { intros n. unfold Qred, inject_Z.
    pose proof (Z.ggcd_gcd n 1) as Hg. pose proof (Z.ggcd_correct_divisors n 1) as Hd.
    destruct (Z.ggcd n 1) as [g [aa bb]]. cbn [fst] in Hg.
    rewrite Z.gcd_1_r in Hg. subst g. destruct Hd as [Ha Hb].
    rewrite Z.mul_1_l in Ha, Hb. subst aa bb. reflexivity. }
  assert (Hleib : forall q x, (0 < q)%Q -> (round53 q == x)%Q -> Qred x = x ->
                               round53 q = x).
  { intros q x Hq He Hx. rewrite round53_pos in * by exact Hq.
    transitivity (Qred x); [|exact Hx]. apply Qred_complete.
    rewrite Qred_correct in He. exact He. }
  intros Hz.
  destruct (Z.lt_trichotomy z 0) as [Hn | [-> | Hp]].
  - assert (Hq : (0 < inject_Z (- z))%Q).
    { change 0%Q with (inject_Z 0). rewrite <- Zlt_Qlt. lia. }
    replace (inject_Z z) with (- inject_Z (- z))%Q
      by (unfold Qopp, inject_Z; simpl; f_equal; lia).
    rewrite round53_opp. f_equal.
    apply Hleib; [exact Hq | apply Hpos; lia | apply Hred].
  - reflexivity.
  - assert (Hq : (0 < inject_Z z)%Q).
    { change 0%Q with (inject_Z 0). rewrite <- Zlt_Qlt. lia. }
    apply Hleib; [exact Hq | apply Hpos; lia | apply Hred].
Qed.

(** The relative error of a rounding is at most [2^-53]. *)
Lemma round53_error q :
  (0 <= q)%Q ->
  (q * (1 - (1 # 2) ^ 53) <= round53 q /\ round53 q <= q * (1 + (1 # 2) ^ 53))%Q.
Proof.
  intros H0. destruct (Qlt_le_dec 0 q) as [Hq | Hz].
  2:{ rewrite (round53_zero q) by lra. assert (q == 0)%Q by lra.
      split; nra. }
  rewrite (round53_pos_eq q Hq).
  destruct (Qround_half_even_bounds (q / ulp q)) as [Hlo Hhi].
  destruct (ulp_binade q Hq) as [Hb _]. pose proof (ulp_pos q) as Hu.
  assert (Hm : (q / ulp q * ulp q == q)%Q) by (field; lra).
  set (m := (q / ulp q)%Q) in *. clearbody m.
  set (r := inject_Z (Qround_half_even m)) in *. clearbody r.
  set (u := ulp q) in *. clearbody u.
  assert (Hp : ((1 # 2) ^ 53 * 2 ^ 52 == 1 # 2)%Q) by reflexivity.
  set (h := ((1 # 2) ^ 53)%Q) in *. set (p := (2 ^ 52)%Q) in *.
  assert (Hh : (0 < h)%Q) by reflexivity.
  clearbody h p.
  assert (Hk : (u * (1 # 2) <= q * h)%Q) by nra.
  split; nra.
Qed.

(** *** The operations *)

Lemma Qsign_pos q : (0 < q)%Q -> Qsign q = Gt.
Proof.
  destruct q as [n d]. unfold Qlt, Qsign. simpl. intros H.
  apply Z.compare_gt_iff. lia.
Qed.

Lemma Qsign_neg q : (q < 0)%Q -> Qsign q = Lt.
Proof.
  destruct q as [n d]. unfold Qlt, Qsign. simpl. intros H.
  apply Z.compare_lt_iff. lia.
Qed.

Lemma Qsign_zero q : (q == 0)%Q -> Qsign q = Eq.
Proof.
  destruct q as [n d]. unfold Qeq, Qsign. simpl. intros H.
  apply Z.compare_eq_iff. lia.
Qed.

Lemma Qsign_round53 q : Qsign (round53 q) = Qsign q.
Proof.
  destruct (Qlt_le_dec 0 q) as [Hp | Hp].
  - rewrite (Qsign_pos q Hp). apply Qsign_pos. now apply round53_sign.
  - destruct (Qlt_le_dec q 0) as [Hn | Hz].
    + rewrite (Qsign_neg q Hn). apply Qsign_neg. now apply round53_sign.
    + assert (H0 : (q == 0)%Q) by lra.
      rewrite (round53_zero q H0). now rewrite (Qsign_zero q H0).
Qed.

Lemma Qsign_inject_Z z : Qsign (inject_Z z) = (z ?= 0).
Proof. reflexivity. Qed.

Lemma Qsign_of_int z : Qsign (round53 (inject_Z z)) = (z ?= 0).
Proof. now rewrite Qsign_round53. Qed.

Lemma of_int_small z : Z.abs z <= 2 ^ 53 -> of_int z = Fin (inject_Z z).
Proof. intros H. unfold of_int. now rewrite round53_int. Qed.

Lemma fmul_finite a b : fmul (Fin a) (Fin b) = Fin (round53 (a * b)).
Proof. reflexivity. Qed.

Lemma fadd_finite a b : fadd (Fin a) (Fin b) = Fin (round53 (a + b)).
Proof. reflexivity. Qed.

Lemma to_int_finite q : to_int (Fin q) = Ok (Z.quot (Qnum q) (Zpos (Qden q))).
Proof. reflexivity. Qed.

Lemma to_int_floor q : (0 <= q)%Q -> to_int (Fin q) = Ok (Qfloor q).
Proof.
  intros H. destruct q as [n d]. unfold to_int, Qfloor. cbn [Qnum Qden].
  f_equal. apply Z.quot_div_nonneg; [|lia].
  unfold Qle in H. simpl in H. lia.
Qed.

(** A float at or above a number that is a float itself stays there when
    it is rounded. *)
Lemma round53_above x y :
  (round53 x == x)%Q -> (x <= y)%Q -> (x <= round53 y)%Q.
Proof.
  intros Hx Hxy. rewrite <- Hx. now apply round53_mono.
Qed.

(** *** Sums *)

(** A property of the entries that addition keeps is a property of the sum. *)
Lemma sum_tree_invariant (P : float -> Prop) :
  P (Fin 0) -> (forall a b, P a -> P b -> P (fadd a b)) ->
  forall l v, sum_tree l v -> Forall P l -> P v.
Proof.
  intros H0 Hadd l v Ht. induction Ht as [|x|l l1 l2 a b _ IH1 _ IH2 Hperm]; intros Hl.
  - exact H0.
  - now inversion Hl.
  - apply (Permutation_Forall Hperm) in Hl. apply Forall_app in Hl as [Hl1 Hl2].
    apply Hadd; auto.
Qed.

Lemma sum_tree_finite l v :
  sum_tree l v -> Forall (fun x => isfinite x = true) l -> isfinite v = true.
Proof.
  apply (sum_tree_invariant (fun x => isfinite x = true)); [reflexivity|].
  intros [a| | |] [b| | |]; simpl; intros; try discriminate; reflexivity.
Qed.

Lemma sum_tree_nonneg l v : sum_tree l v -> Forall nonneg l -> nonneg v.
Proof.
  apply (sum_tree_invariant nonneg).
  - exists 0%Q. split; [reflexivity | lra].
  - intros a b (qa & -> & Ha) (qb & -> & Hb). eexists. split; [reflexivity|].
    apply round53_nonneg. lra.
Qed.

Lemma sum_tree_rounded l v : sum_tree l v -> Forall rounded l -> rounded v.
Proof.
  apply (sum_tree_invariant rounded).
  - simpl. rewrite round53_zero; reflexivity.
  - intros [a| | |] [b| | |]; simpl; auto. intros _ _. apply round53_idem.
Qed.

(** Integers whose absolute values add up to at most [2^53] are added
    exactly, in whichever order. *)
Lemma abs_sum_app l1 l2 : abs_sum (l1 ++ l2) = abs_sum l1 + abs_sum l2.
Proof. induction l1 as [|z l1 IH]; simpl; lia. Qed.

Lemma abs_sum_perm l l' : Permutation l l' -> abs_sum l = abs_sum l'.
Proof. induction 1; simpl; lia. Qed.

Lemma abs_sum_nonneg l : 0 <= abs_sum l.
Proof. induction l as [|z l IH]; simpl; lia. Qed.

Lemma Zsum_app l1 l2 :
  fold_right Z.add 0 (l1 ++ l2) = fold_right Z.add 0 l1 + fold_right Z.add 0 l2.
Proof. induction l1 as [|z l1 IH]; simpl; lia. Qed.

Lemma Zsum_perm l l' :
  Permutation l l' -> fold_right Z.add 0 l = fold_right Z.add 0 l'.
Proof. induction 1; simpl; lia. Qed.

Lemma Zsum_abs l : Z.abs (fold_right Z.add 0 l) <= abs_sum l.
Proof. induction l as [|z l IH]; simpl; lia. Qed.

Lemma sum_tree_exact l v :
  sum_tree l v ->
  forall zs, l = map (fun z => Fin (inject_Z z)) zs -> abs_sum zs <= 2 ^ 53 ->
  v = Fin (inject_Z (fold_right Z.add 0 zs)).
Proof.
  intros Ht. induction Ht as [|x|l l1 l2 a b _ IH1 _ IH2 Hperm]; intros zs Hl Hb.
  - destruct zs; [reflexivity | discriminate].
  - destruct zs as [|z [|z' zs]]; try discriminate. inversion Hl; subst.
    simpl. now rewrite Z.add_0_r.
  - rewrite Hl in Hperm. apply Permutation_sym, Permutation_map_inv in Hperm
      as (zs' & Heq & Hp).
    symmetry in Heq. apply map_eq_app in Heq as (zs1 & zs2 & -> & H1 & H2).
    symmetry in H1, H2.
    pose proof (abs_sum_perm _ _ Hp) as Ha. rewrite abs_sum_app in Ha.
    pose proof (abs_sum_nonneg zs1). pose proof (abs_sum_nonneg zs2).
    rewrite (IH1 zs1) by (auto; lia). rewrite (IH2 zs2) by (auto; lia).
    rewrite (Zsum_perm _ _ Hp), Zsum_app.
    pose proof (Zsum_abs zs1). pose proof (Zsum_abs zs2).
    cbn [fadd]. f_equal.
    transitivity (round53 (inject_Z (fold_right Z.add 0 zs1 + fold_right Z.add 0 zs2))).
    + apply round53_comp. now rewrite inject_Z_plus.
    + apply round53_int. lia.
Qed.

(** ** Tables and columns *)

Lemma has_column_full df c :
  full_table df = true -> In c all_columns -> has_column df c = true.
Proof.
  unfold full_table. rewrite forallb_forall. auto.
Qed.

Lemma column_full {A : Type} df c (field : ShiftRecord -> A) sel :
  full_table df = true -> In c all_columns ->
  column df c field sel = Ok (map (fun ir => field (snd ir)) sel).
Proof.
  intros Hf Hc. unfold column. now rewrite (has_column_full df c Hf Hc).
Qed.

Lemma cell_full {A : Type} df c (field : ShiftRecord -> A) r :
  full_table df = true -> In c all_columns -> cell df c field r = Ok (field r).
Proof.
  intros Hf Hc. unfold cell. now rewrite (has_column_full df c Hf Hc).
Qed.

Ltac in_columns := simpl; tauto.

Lemma select_machine_full df m :
  full_table df = true -> select_machine df m = Ok (rows_of m (iterrows df)).
Proof.
  intros Hf. unfold select_machine.
  rewrite column_full by (auto; in_columns). reflexivity.
Qed.

Lemma filter_snd_combine (p : ShiftRecord -> bool) (l : list ShiftRecord) (n : nat) :
  map snd (filter (fun ir => p (snd ir)) (combine (seq n (List.length l)) l))
  = filter p l.
Proof.
  revert n. induction l as [|r l IH]; intros n; simpl; [reflexivity|].
  destruct (p r); simpl; now rewrite IH.
Qed.

Lemma rows_of_records df m :
  map snd (rows_of m (iterrows df)) = machine_records df m.
Proof.
  unfold rows_of, iterrows, machine_records.
  apply (filter_snd_combine (fun r => String.eqb (Machine_ID r) m)).
Qed.

Lemma rows_of_count df m :
  Z.of_nat (List.length (rows_of m (iterrows df))) = record_count df m.
Proof.
  unfold record_count. rewrite <- rows_of_records. now rewrite length_map.
Qed.

Lemma map_field_rows {A : Type} (field : ShiftRecord -> A) (sel : Rows) :
  map (fun ir => field (snd ir)) sel = map field (map snd sel).
Proof. now rewrite map_map. Qed.

(** ** Integer and float columns *)

Lemma series_div_map {A : Type} (f g : A -> Z) (l : list A) :
  series_div (map f l) (map g l)
  = map (fun r => fdiv (of_int (f r)) (of_int (g r))) l.
Proof.
  unfold series_div. induction l as [|x l IH]; [reflexivity|].
  cbn [map combine fst snd]. f_equal. exact IH.
Qed.

Lemma fltb_fleb_false x y : fltb x y = true -> fleb y x = false.
Proof.
  destruct x, y; simpl; try discriminate; try reflexivity.
  intros H. now apply negb_true_iff in H.
Qed.

Lemma fold_add_from l a : fold_left Z.add l a = a + fold_right Z.add 0 l.
Proof.
  revert a. induction l as [|x l IH]; intros a; simpl; [lia|]. rewrite IH. lia.
Qed.

Lemma int_sum_wrap l : int_sum l = wrap64 (fold_right Z.add 0 l).
Proof. unfold int_sum. now rewrite fold_add_from. Qed.

Lemma int_sum_perm l l' : Permutation l l' -> int_sum l = int_sum l'.
Proof. intros H. rewrite !int_sum_wrap. now rewrite (Zsum_perm _ _ H). Qed.

Lemma fits_int64_spec z : fits_int64 z = true <-> - 2 ^ 63 <= z < 2 ^ 63.
Proof. unfold fits_int64. rewrite andb_true_iff, Z.leb_le, Z.ltb_lt. tauto. Qed.

(** A sum that fits does not wrap around. *)
Lemma int_sum_fits l :
  fits_int64 (fold_right Z.add 0 l) = true -> int_sum l = fold_right Z.add 0 l.
Proof.
  intros H. apply fits_int64_spec in H. rewrite int_sum_wrap. unfold wrap64.
  rewrite Z.mod_small by lia. lia.
Qed.

Lemma Zsum_nonneg l : Forall (fun z => 0 <= z) l -> 0 <= fold_right Z.add 0 l.
Proof. induction 1; simpl; lia. Qed.

Lemma count_positive_cons x l :
  count_positive (x :: l) = (if 0 <? x then 1 else 0) + count_positive l.
Proof.
  unfold count_positive. simpl. destruct (0 <? x); simpl List.length; lia.
Qed.

Lemma count_positive_perm l l' :
  Permutation l l' -> count_positive l = count_positive l'.
Proof.
  induction 1; rewrite ?count_positive_cons; lia.
Qed.

Lemma count_positive_nonneg l : 0 <= count_positive l.
Proof. unfold count_positive. lia. Qed.

Lemma tail_min {A : Type} (l : list A) :
  tail (Nat.min 5 (List.length l)) l = tail 5 l.
Proof.
  unfold tail. f_equal. lia.
Qed.

Lemma map_tail {A B : Type} (f : A -> B) n (l : list A) :
  map f (tail n l) = tail n (map f l).
Proof.
  unfold tail. now rewrite skipn_map, length_map.
Qed.

(** ** Taking rows by position *)

Lemma take_seq_from {A : Type} (l pre : list A) :
  take (pre ++ l) (seq (List.length pre) (List.length l)) = l.
Proof.
  revert pre. induction l as [|x l IH]; intros pre; [reflexivity|].
  cbn [List.length seq take flat_map].
  rewrite nth_error_app2 by lia. rewrite Nat.sub_diag. cbn [nth_error app].
  f_equal. specialize (IH (pre ++ [x])).
  rewrite <- app_assoc, length_app in IH. cbn [List.length app] in IH.
  rewrite Nat.add_1_r in IH. exact IH.
Qed.

Lemma take_seq {A : Type} (l : list A) : take l (seq 0 (List.length l)) = l.
Proof. apply (take_seq_from l []). Qed.

Lemma take_perm {A : Type} (l : list A) ps :
  Permutation ps (seq 0 (List.length l)) -> Permutation (take l ps) l.
Proof.
  intros H. rewrite <- (take_seq l) at 2. unfold take. now apply Permutation_flat_map.
Qed.

Lemma take_map {A B : Type} (f : A -> B) (l : list A) ps :
  map f (take l ps) = take (map f l) ps.
Proof.
  unfold take. induction ps as [|p ps IH]; [reflexivity|].
  cbn [flat_map]. rewrite map_app, IH, nth_error_map.
  destruct (nth_error l p); reflexivity.
Qed.

Lemma take_nth (keys : list Z) ps :
  Forall (fun p => (p < List.length keys)%nat) ps ->
  take keys ps = map (fun i => nth i keys 0) ps.
Proof.
  induction 1 as [|p ps Hp _ IH]; [reflexivity|].
  unfold take in *. cbn [flat_map map]. rewrite IH.
  destruct (nth_error keys p) as [k|] eqn:E.
  - now rewrite (nth_error_nth _ _ _ E).
  - apply nth_error_None in E. lia.
Qed.

Lemma sorted_map_keys {A : Type} (key : A -> Z) (l : list A) :
  StronglySorted Z.le (map key l) ->
  StronglySorted (fun a b => key a <= key b) l.
Proof.
  induction l as [|x l IH]; intros H; [constructor|].
  cbn [map] in H. inversion H as [|? ? Hs Hall]; subst.
  constructor; [now apply IH|].
  rewrite Forall_map in Hall. exact Hall.
Qed.

(** ** The feature deriver *)

Lemma guarded_ratio_finite a b : isfinite (guarded_ratio a b) = true.
Proof.
  unfold guarded_ratio, fdiv, of_int. rewrite !Qsign_of_int.
  destruct (b ?= 0); try reflexivity.
  destruct (a ?= 0); reflexivity.
Qed.

Lemma guarded_ratio_zero a : guarded_ratio a 0 = Fin 0.
Proof.
  unfold guarded_ratio, fdiv, of_int. rewrite !Qsign_of_int.
  cbn [Z.compare]. destruct (a ?= 0); reflexivity.
Qed.

(** With a divisor other than 0 the guards change nothing. *)
Lemma guarded_ratio_nonzero a b :
  b <> 0 -> guarded_ratio a b = fdiv (of_int a) (of_int b).
Proof.
  intros Hb. unfold guarded_ratio, fdiv, of_int. rewrite !Qsign_of_int.
  destruct (Z.compare_spec b 0); [contradiction | reflexivity | reflexivity].
Qed.

Lemma in_iterrows df i r :
  In (i, r) (iterrows df) -> nth_error (rows df) i = Some r.
Proof.
  unfold iterrows.
  assert (H : forall (l : list ShiftRecord) k,
             In (i, r) (combine (seq k (List.length l)) l) ->
             (k <= i)%nat /\ nth_error l (i - k) = Some r).
  { induction l as [|x l IH]; intros k Hin; simpl in Hin; [contradiction|].
    destruct Hin as [Heq | Hin].
    - inversion Heq; subst. rewrite Nat.sub_diag. split; [lia | reflexivity].
    - destruct (IH (S k) Hin) as [Hle Hnth]. split; [lia|].
      replace (i - k)%nat with (S (i - S k)) by lia. exact Hnth. }
  intros Hin. destruct (H (rows df) 0%nat Hin) as [_ Hnth].
  now rewrite Nat.sub_0_r in Hnth.
Qed.

Lemma in_all_features f grouped :
  In f (List.concat (all_features grouped)) ->
  exists machine_id group ir,
    In (machine_id, group) grouped /\ In ir group /\
    In f (group_features machine_id [ir]).
Proof.
  induction grouped as [|[k g] rest IH]; simpl; [contradiction|].
  intros Hin.
  assert (Hrest : In f (List.concat (all_features rest)) ->
                  exists machine_id group ir,
                    ((k, g) = (machine_id, group) \/ In (machine_id, group) rest)
                    /\ In ir group /\ In f (group_features machine_id [ir])).
  { intros H. destruct (IH H) as (k' & g' & ir & H1 & H2 & H3).
    exists k', g', ir. auto. }
  destruct (Z.of_nat (List.length g) <? 3); [auto|].
  simpl in Hin. apply in_app_or in Hin as [Hin | Hin]; [|auto].
  unfold group_features in Hin. apply in_map_iff in Hin as (ir & Hf & Hir).
  exists k, g, ir. split; [auto|]. split; [exact Hir|]. simpl. auto.
Qed.

Lemma in_groupby df grouped machine_id group ir :
  groupby df = Ok grouped -> In (machine_id, group) grouped -> In ir group ->
  In ir (iterrows df).
Proof.
  unfold groupby, column. destruct (has_column df "Machine_ID"); [|discriminate].
  cbn [bind]. intros H Hg Hir. inversion H; subst; clear H.
  apply in_map_iff in Hg as (k & Hk & _). inversion Hk; subst.
  unfold rows_of in Hir. apply filter_In in Hir. tauto.
Qed.

(** C7: every feature row the deriver returns refers to a record of the
    table; its three ratios are finite values; a ratio whose denominator is
    zero is exactly 0, and otherwise it is the quotient of the two cells. *)
Theorem prepare_anomaly_features_ratios df feature_df original_df f :
  prepare_anomaly_features df = Ok (Some (feature_df, original_df)) ->
  In f feature_df ->
  isfinite (Feature.efficiency f) = true
  /\ isfinite (Feature.defect_rate f) = true
  /\ isfinite (Feature.downtime_per_unit f) = true
  /\ exists r,
       nth_error (rows df) (Feature.index f) = Some r
       /\ (Target_Output r = 0 -> Feature.efficiency f = Fin 0)
       /\ (Actual_Output r = 0 ->
           Feature.defect_rate f = Fin 0 /\ Feature.downtime_per_unit f = Fin 0)
       /\ (Target_Output r <> 0 ->
           Feature.efficiency f
           = fdiv (of_int (Actual_Output r)) (of_int (Target_Output r)))
       /\ (Actual_Output r <> 0 ->
           Feature.defect_rate f
           = fdiv (of_int (Defects r)) (of_int (Actual_Output r))
           /\ Feature.downtime_per_unit f
              = fdiv (of_int (Downtime_Minutes r)) (of_int (Actual_Output r))).
Proof.
  unfold prepare_anomaly_features. intros Hprep Hin.
  destruct (df_empty df || (Z.of_nat (List.length (rows df)) <? 5)); [discriminate|].
  destruct (negb (forallb (has_column df) numeric_cols)); [discriminate|].
  destruct (groupby df) as [grouped|e] eqn:Hgroup; [|discriminate].
  cbn [bind] in Hprep.
  destruct (all_features grouped) as [|fs0 fss] eqn:Hall; [discriminate|].
  assert (Hfd : feature_df = List.concat (all_features grouped)).
  { rewrite Hall. inversion Hprep. reflexivity. }
  clear Hprep. subst feature_df.
  destruct (in_all_features f grouped Hin) as (k & g & [i r] & Hg & Hir & Hf).
  simpl in Hf. destruct Hf as [Hf | []]. subst f. cbn [Feature.efficiency
    Feature.defect_rate Feature.downtime_per_unit Feature.index fst snd].
  repeat split; try apply guarded_ratio_finite.
  exists r. split.
  { apply in_iterrows. eapply in_groupby; eauto. }
  repeat split.
  - intros H. rewrite H. apply guarded_ratio_zero.
  - rewrite H. apply guarded_ratio_zero.
  - rewrite H. apply guarded_ratio_zero.
  - intros H. now apply guarded_ratio_nonzero.
  - now apply guarded_ratio_nonzero.
  - now apply guarded_ratio_nonzero.
Qed.

(** ** The analytics *)

Section Properties.

Context `{numpy : Numpy}.
Hypothesis np_sum_tree : forall l, sum_tree l (np_sum l).
Hypothesis argsort_sorts : forall keys, sorts keys (argsort keys).

Context {RngState : Type}.
Variable randbelow : Z -> RngState -> Z * RngState.
Hypothesis randbelow_range :
  forall n s, 0 < n -> 0 <= fst (randbelow n s) < n.
Variable fit_transform :
  list (float * float * float) -> result (list (float * float * float)).
Variable fit_predict : list (float * float * float) -> result (list Z).

(** *** Sorting keeps the records *)

Lemma sort_values_perm key l : Permutation (sort_values key l) l.
Proof.
  unfold sort_values. apply take_perm.
  destruct (argsort_sorts (map (fun ir => key (snd ir)) l)) as [Hp _].
  now rewrite length_map in Hp.
Qed.

(** The sorted frame runs from the earliest record to the latest. *)
Lemma sort_values_sorted key l :
  StronglySorted (fun a b => key (snd a) <= key (snd b)) (sort_values key l).
Proof.
  unfold sort_values.
  destruct (argsort_sorts (map (fun ir => key (snd ir)) l)) as [Hp Hs].
  apply (sorted_map_keys (fun ir => key (snd ir))).
  rewrite take_map, take_nth; [exact Hs|].
  apply (Permutation_Forall (Permutation_sym Hp)), Forall_forall.
  intros p Hin. apply in_seq in Hin. lia.
Qed.

Lemma chronological_perm df m :
  Permutation (chronological df m) (machine_records df m).
Proof.
  unfold chronological. rewrite <- rows_of_records.
  apply Permutation_map, sort_values_perm.
Qed.

Lemma chronological_sorted df m :
  StronglySorted (fun a b => DateTime a <= DateTime b) (chronological df m).
Proof.
  unfold chronological.
  induction (sort_values_sorted DateTime (rows_of m (iterrows df)))
    as [|x l Hl IH Hx]; simpl; constructor; [exact IH|].
  rewrite Forall_forall in *. intros r Hr.
  apply in_map_iff in Hr as (y & <- & Hy). auto.
Qed.

Lemma chronological_is_order df m : chronological_order df m (chronological df m).
Proof. split; [apply chronological_perm | apply chronological_sorted]. Qed.

Lemma sorted_column_sum (field : ShiftRecord -> Z) df m :
  int_sum (map (fun ir => field (snd ir))
               (sort_values DateTime (rows_of m (iterrows df))))
  = column_sum field df m.
Proof.
  rewrite map_field_rows. fold (chronological df m).
  apply int_sum_perm, Permutation_map, chronological_perm.
Qed.

Lemma sorted_column_count (field : ShiftRecord -> Z) df m :
  count_positive (map (fun ir => field (snd ir))
                      (sort_values DateTime (rows_of m (iterrows df))))
  = count_positive (map field (machine_records df m)).
Proof.
  rewrite map_field_rows. fold (chronological df m).
  apply count_positive_perm, Permutation_map, chronological_perm.
Qed.

Lemma sorted_length df m :
  Z.of_nat (List.length (sort_values DateTime (rows_of m (iterrows df))))
  = record_count df m.
Proof.
  rewrite (Permutation_length (sort_values_perm DateTime _)). apply rows_of_count.
Qed.

(** *** Means *)

Lemma isnan_of_int l :
  filter (fun x => negb (isnan x)) (map of_int l) = map of_int l.
Proof. induction l as [|z l IH]; simpl; [reflexivity | now rewrite IH]. Qed.

Lemma zero_fill_of_int l :
  map (fun x => if isnan x then Fin 0 else x) (map of_int l) = map of_int l.
Proof. induction l as [|z l IH]; simpl; [reflexivity | now rewrite IH]. Qed.

(** The mean of an integer column: the sum over the count. *)
Lemma int_mean_sum l :
  l <> [] ->
  int_mean l = fdiv (np_sum (map of_int l)) (of_int (Z.of_nat (List.length l))).
Proof.
  intros Hl. unfold int_mean, mean.
  rewrite isnan_of_int, zero_fill_of_int, length_map.
  destruct l; [congruence | reflexivity].
Qed.

Lemma fdiv_count q n :
  (0 < n)%nat ->
  fdiv (Fin q) (of_int (Z.of_nat n))
  = Fin (round53 (q / round53 (inject_Z (Z.of_nat n)))).
Proof.
  intros Hn. unfold fdiv, of_int. rewrite Qsign_of_int.
  destruct (Z.compare_spec (Z.of_nat n) 0); [lia | lia | reflexivity].
Qed.

Lemma int_mean_finite l : l <> [] -> exists q, int_mean l = Fin q.
Proof.
  intros Hl. rewrite int_mean_sum by exact Hl.
  pose proof (sum_tree_finite _ _ (np_sum_tree (map of_int l))) as Hf.
  destruct (np_sum (map of_int l)) as [s| | |];
    try (discriminate Hf; apply Forall_forall; intros x Hx;
         apply in_map_iff in Hx as (z & <- & _); reflexivity).
  rewrite fdiv_count by (destruct l; [congruence | simpl; lia]). eauto.
Qed.

Lemma int_mean_nonneg l :
  l <> [] -> Forall (fun z => 0 <= z) l ->
  exists q, int_mean l = Fin q /\ (0 <= q)%Q /\ (round53 q == q)%Q.
Proof.
  intros Hne Hl. rewrite int_mean_sum by exact Hne.
  destruct (sum_tree_nonneg _ _ (np_sum_tree (map of_int l))) as (s & Hs & Hpos).
  { apply Forall_forall. intros x Hx. apply in_map_iff in Hx as (z & <- & Hz).
    rewrite Forall_forall in Hl. eexists. split; [reflexivity|].
    apply round53_nonneg. change 0%Q with (inject_Z 0). rewrite <- Zle_Qle. auto. }
  rewrite Hs, fdiv_count by (destruct l; [congruence | simpl; lia]).
  eexists. split; [reflexivity|]. split; [|apply round53_idem].
  apply round53_nonneg.
  assert (Hn : (0 < round53 (inject_Z (Z.of_nat (List.length l))))%Q).
  { apply round53_sign. change 0%Q with (inject_Z 0). rewrite <- Zlt_Qlt.
    destruct l; [congruence | simpl; lia]. }
  apply Qle_shift_div_l; [exact Hn|]. lra.
Qed.

Lemma int_max_finite l : l <> [] -> exists q, int_max l = Fin q.
Proof.
  destruct l; [congruence|]. intros _. simpl. unfold of_int. eauto.
Qed.

(** *** The target advisor *)

Lemma lit_positive n d : 0 < n -> exists q, lit n d = Fin q /\ (0 < q)%Q.
Proof.
  intros Hn. eexists. split; [reflexivity|]. apply round53_sign.
  unfold Qlt. simpl. lia.
Qed.

Lemma fgeb_finite_pos x n d :
  (0 < n) -> fgeb x (lit n d) = true -> x = PInf \/ exists q, x = Fin q /\ (0 < q)%Q.
Proof.
  intros Hn. destruct (lit_positive n d Hn) as (c & Hc & Hpos). rewrite Hc.
  unfold fgeb. destruct x; cbn [fleb]; try discriminate; auto.
  intros H. right. exists q. split; [reflexivity|].
  apply Qle_bool_iff in H. lra.
Qed.

Lemma predict_production_targets_cases df m :
  full_table df = true ->
  let e := history_avg_efficiency df m in
  let o := history_avg_output df m in
  let x := history_max_output df m in
  (record_count df m < 3 /\ predict_production_targets df m = Ok insufficient)
  \/ (3 <= record_count df m /\ fgeb e (lit 95 100) = true /\
      exists a b, to_int (fmul x (lit 105 100)) = Ok a /\
                  to_int (fmul o (lit 11 10)) = Ok b /\
                  predict_production_targets df m
                  = Ok (advice (Z.max a b) 80
                          "Machine consistently meets targets, can increase production target."))
  \/ (3 <= record_count df m /\ fgeb e (lit 95 100) = false /\
      fgeb e (lit 8 10) = true /\
      exists a, to_int (fdiv o e) = Ok a /\
                predict_production_targets df m
                = Ok (advice a 70 "Machine performs well, maintain current targets."))
  \/ (3 <= record_count df m /\ fgeb e (lit 95 100) = false /\
      fgeb e (lit 8 10) = false /\
      exists a, to_int (fmul o (lit 11 10)) = Ok a /\
                predict_production_targets df m
                = Ok (advice a 60 "Machine struggles to meet targets, consider adjustment.")).
Proof.
  intros Hf e o x.
  unfold predict_production_targets.
  rewrite select_machine_full by assumption. cbn [bind].
  rewrite rows_of_count.
  assert (Hnil : (match rows_of m (iterrows df) with [] => true | _ :: _ => false end) = true
                 -> record_count df m < 3).
  { rewrite <- rows_of_count. destruct (rows_of m (iterrows df)); simpl; [lia|discriminate]. }
  destruct (match rows_of m (iterrows df) with [] => true | _ :: _ => false end) eqn:Hempty.
  { left. split; [auto | reflexivity]. }
  clear Hnil. cbn [orb].
  destruct (record_count df m <? 3) eqn:Hlt.
  { left. split; [now apply Z.ltb_lt | reflexivity]. }
  apply Z.ltb_ge in Hlt. right.
  rewrite !column_full by (auto; in_columns). cbn [bind].
  rewrite !(map_field_rows Actual_Output), !(map_field_rows Target_Output).
  rewrite rows_of_records, series_div_map.
  fold (history_avg_efficiency df m) (history_avg_output df m) (history_max_output df m).
  fold e o x.
  assert (Hne : map Actual_Output (machine_records df m) <> []).
  { unfold record_count in Hlt. destruct (machine_records df m); simpl in *; [lia|congruence]. }
  destruct (int_mean_finite _ Hne) as [qo Ho].
  destruct (int_max_finite _ Hne) as [qx Hx].
  fold (history_avg_output df m) in Ho. fold o in Ho.
  fold (history_max_output df m) in Hx. fold x in Hx.
  destruct (fgeb e (lit 95 100)) eqn:H95.
  { left. split; [exact Hlt|]. split; [reflexivity|].
    rewrite Ho, Hx. unfold lit. rewrite !fmul_finite, !to_int_finite.
    eexists. eexists. split; [reflexivity|]. split; reflexivity. }
  right. destruct (fgeb e (lit 8 10)) eqn:H80.
  { left. split; [exact Hlt|]. split; [reflexivity|]. split; [reflexivity|].
    destruct (fgeb_finite_pos e 8 10 ltac:(lia) H80) as [Hinf | [q [Hq Hs]]].
    - rewrite Hinf in H95. discriminate.
    - rewrite Ho, Hq. unfold fdiv. rewrite (Qsign_pos q Hs), to_int_finite.
      eexists. split; reflexivity. }
  right. split; [exact Hlt|]. split; [reflexivity|]. split; [reflexivity|].
  rewrite Ho. unfold lit. rewrite fmul_finite, to_int_finite.
  eexists. split; reflexivity.
Qed.

(** C10: on a table carrying every column the target advisor returns a
    result; its confidence is 0, 60, 70 or 80; the target is absent exactly
    when the machine has fewer than 3 records, which is exactly when the
    confidence is 0; otherwise the target is an integer. *)
Theorem predict_production_targets_shape df m :
  full_table df = true ->
  exists p, predict_production_targets df m = Ok p
    /\ In (confidence p) [0; 60; 70; 80]
    /\ (optimal_target p = None <-> record_count df m < 3)
    /\ (confidence p = 0 <-> record_count df m < 3)
    /\ (3 <= record_count df m -> exists z, optimal_target p = Some z).
Proof.
  intros Hf.
  destruct (predict_production_targets_cases df m Hf)
    as [[Hn H] | [(Hn & _ & a & b & _ & _ & H) | [(Hn & _ & _ & a & _ & H)
       | (Hn & _ & _ & a & _ & H)]]];
    rewrite H; eexists; (split; [reflexivity|]); simpl;
    (split; [tauto|]); repeat split; intros; try lia; try discriminate; eauto.
Qed.

(** With every target above 0 no quotient is floored: the mean of the
    floored ratios is the mean the source takes. *)
Lemma floored_avg_efficiency_raw df m :
  positive_targets df m = true ->
  floored_avg_efficiency df m = history_avg_efficiency df m.
Proof.
  unfold positive_targets, floored_avg_efficiency, history_avg_efficiency.
  intros Hp. f_equal. apply map_ext_in. intros r Hr.
  rewrite forallb_forall in Hp. specialize (Hp r Hr). apply Z.ltb_lt in Hp.
  apply guarded_ratio_nonzero. lia.
Qed.

Lemma np_sum_ints zs :
  abs_sum zs <= 2 ^ 53 ->
  np_sum (map (fun z => Fin (inject_Z z)) zs) = Fin (inject_Z (fold_right Z.add 0 zs)).
Proof.
  intros Hb. exact (sum_tree_exact _ _ (np_sum_tree _) zs eq_refl Hb).
Qed.

Lemma mean_ints zs :
  zs <> [] -> abs_sum zs <= 2 ^ 53 ->
  mean (map (fun z => Fin (inject_Z z)) zs)
  = fdiv (Fin (inject_Z (fold_right Z.add 0 zs))) (of_int (Z.of_nat (List.length zs))).
Proof.
  intros Hne Hb. unfold mean.
  assert (Hf : filter (fun x => negb (isnan x)) (map (fun z => Fin (inject_Z z)) zs)
               = map (fun z => Fin (inject_Z z)) zs).
  { clear. induction zs as [|z zs IH]; simpl; [reflexivity | now rewrite IH]. }
  assert (Hz : map (fun x => if isnan x then Fin 0 else x)
                   (map (fun z => Fin (inject_Z z)) zs)
               = map (fun z => Fin (inject_Z z)) zs).
  { clear. induction zs as [|z zs IH]; simpl; [reflexivity | now rewrite IH]. }
  rewrite Hf, Hz, length_map, np_sum_ints by exact Hb.
  destruct zs; [congruence | reflexivity].
Qed.

Lemma history_at_target df m :
  record_count df m = 3 ->
  (forall r, In r (machine_records df m) ->
             Actual_Output r = 100 /\ Target_Output r = 100) ->
  history_avg_efficiency df m = Fin 1
  /\ history_avg_output df m = Fin 100
  /\ history_max_output df m = Fin 100.
Proof.
  unfold record_count, history_avg_efficiency, history_avg_output, history_max_output.
  intros Hn Hall.
  destruct (machine_records df m) as [|r1 [|r2 [|r3 [|r4 l]]]]; simpl in Hn; try lia.
  destruct (Hall r1) as [A1 T1]; [simpl; auto|].
  destruct (Hall r2) as [A2 T2]; [simpl; auto|].
  destruct (Hall r3) as [A3 T3]; [simpl; auto|].
  cbn [map]. rewrite A1, A2, A3, T1, T2, T3.
  change (fdiv (of_int 100) (of_int 100)) with (Fin (inject_Z 1)).
  unfold int_mean. cbn [map]. change (of_int 100) with (Fin (inject_Z 100)).
  split; [|split].
  - pose proof (mean_ints [1; 1; 1]) as H. cbn [map] in H.
    rewrite H by (vm_compute; congruence). vm_compute. reflexivity.
  - pose proof (mean_ints [100; 100; 100]) as H. cbn [map] in H.
    rewrite H by (vm_compute; congruence). vm_compute. reflexivity.
  - vm_compute. reflexivity.
Qed.

(** C4, amended: for a machine with at least 3 records whose targets are
    all above 0, on a table carrying every column, the three rules hold with
    [int()], truncation toward zero, in place of [round], the average
    efficiency being the mean of the floored ratios; three records of 100
    units against a target of 100 give the target 110 with confidence 80. *)
Theorem predict_production_targets_rules df m :
  full_table df = true ->
  positive_targets df m = true ->
  3 <= record_count df m ->
  exists p, predict_production_targets df m = Ok p
    /\ target_rule to_int df m p
    /\ (record_count df m = 3 ->
        (forall r, In r (machine_records df m) ->
                   Actual_Output r = 100 /\ Target_Output r = 100) ->
        optimal_target p = Some 110 /\ confidence p = 80).
Proof.
  intros Hf Hpos Hn.
  assert (Hrule : exists p, predict_production_targets df m = Ok p
                            /\ target_rule to_int df m p).
  { unfold target_rule. rewrite (floored_avg_efficiency_raw df m Hpos).
    destruct (predict_production_targets_cases df m Hf)
      as [[Hlt _] | [(_ & He & a & b & Ha & Hb & H) | [(_ & H95 & H80 & a & Ha & H)
         | (_ & H95 & H80 & a & Ha & H)]]]; [lia | | |];
      rewrite H; eexists; (split; [reflexivity|]); cbv zeta;
      repeat split; intros.
    - exists a, b. auto.
    - apply fltb_fleb_false in H1. unfold fgeb in He. congruence.
    - apply fltb_fleb_false in H0. unfold fgeb in He.
      assert (Hle : fleb (lit 8 10) (history_avg_efficiency df m) = true).
      { destruct (history_avg_efficiency df m); simpl in *; try discriminate; auto.
        apply Qle_bool_iff. apply Qle_bool_iff in He.
        eapply Qle_trans; [|exact He]. vm_compute. discriminate. }
      congruence.
    - congruence.
    - exists a. auto.
    - apply fltb_fleb_false in H0. unfold fgeb in H80. congruence.
    - congruence.
    - congruence.
    - exists a. auto. }
  destruct Hrule as (p & Hp & Hr). exists p. split; [exact Hp|]. split; [exact Hr|].
  intros H3 Hall. destruct (history_at_target df m H3 Hall) as (He & Ho & Hx).
  destruct Hr as (Hr & _).
  rewrite (floored_avg_efficiency_raw df m Hpos), He, Ho, Hx in Hr.
  destruct Hr as (a & b & Ha & Hb & Ht & Hc); [vm_compute; reflexivity|].
  vm_compute in Ha, Hb. inversion Ha. inversion Hb. subst. auto.
Qed.

(** *** The attribution procedure *)

Lemma machine_averages_full df m :
  full_table df = true -> machine_averages df m = Ok (history_averages df m).
Proof.
  intros Hf. unfold machine_averages.
  rewrite select_machine_full by assumption. cbn [bind].
  rewrite !column_full by (auto; in_columns). cbn [bind].
  rewrite (map_field_rows Actual_Output), (map_field_rows Target_Output),
    (map_field_rows Defects), (map_field_rows Downtime_Minutes).
  rewrite rows_of_records, !series_div_map. reflexivity.
Qed.

Lemma determine_anomaly_reason_rules record df :
  full_table df = true ->
  determine_anomaly_reason record df
  = Ok (first_match
          (attribution_rules record (history_averages df (Machine_ID record)))
          generic_text).
Proof.
  intros Hf.
  unfold determine_anomaly_reason, attribution_rules, first_match, record_defect_rate.
  rewrite !cell_full by (auto; in_columns). cbn [bind].
  destruct (0 <? Actual_Output record); cbn [bind];
    rewrite machine_averages_full by assumption; cbn [bind];
    fold (record_efficiency record);
    (destruct (rule_downtime (Downtime_Minutes record) _) eqn:Ra;
       unfold rule_downtime in Ra; rewrite Ra; [reflexivity|]);
    (destruct (rule_efficiency (record_efficiency record) _) eqn:Rb;
       unfold rule_efficiency in Rb; rewrite Rb; [reflexivity|]);
    (destruct (rule_defects _ _) eqn:Rc;
       unfold rule_defects in Rc; rewrite Rc; [reflexivity|]);
    (destruct (rule_output (Actual_Output record) (Target_Output record)) eqn:Rd;
       unfold rule_output in Rd; rewrite Rd; reflexivity).
Qed.

(** C2: on a table carrying every column the attribution procedure returns
    the text of the first of the rules (a), (b), (c), (d) whose condition
    holds, and the generic text when none does; so when the condition of
    rule (a) holds (downtime above twice the machine's average downtime and
    above 10) the result is "Unusual downtime: <minutes> minutes vs. average
    <average, one decimal> minutes", whatever the conditions of the other
    rules are. *)
Theorem determine_anomaly_reason_first_match record df :
  full_table df = true ->
  let avg := history_averages df (Machine_ID record) in
  determine_anomaly_reason record df
  = Ok (first_match (attribution_rules record avg) generic_text)
  /\ (fgtb (of_int (Downtime_Minutes record))
            (fmul (history_avg_downtime df (Machine_ID record)) (of_int 2)) = true ->
      10 < Downtime_Minutes record ->
      determine_anomaly_reason record df
      = Ok ("Unusual downtime: " ++ str_int (Downtime_Minutes record)
            ++ " minutes vs. average "
            ++ format_1f (history_avg_downtime df (Machine_ID record))
            ++ " minutes")%string).
Proof.
  intros Hf avg. split; [apply determine_anomaly_reason_rules, Hf|].
  intros Ha H10. rewrite determine_anomaly_reason_rules by exact Hf.
  unfold attribution_rules, first_match.
  change (avg_downtime (history_averages df (Machine_ID record)))
    with (history_avg_downtime df (Machine_ID record)).
  rewrite Ha. apply Z.ltb_lt in H10. rewrite H10. reflexivity.
Qed.

(** *** Averages over zero denominators *)

Lemma infinite_or_finite l :
  Forall (fun x => x = PInf \/ isfinite x = true) l ->
  In PInf l \/ (forall x, In x l -> isfinite x = true).
Proof.
  induction 1 as [|x l [-> | Hx] _ [IH | IH]].
  - right. contradiction.
  - left. left. reflexivity.
  - left. left. reflexivity.
  - left. right. exact IH.
  - right. intros y [<- | Hy]; auto.
Qed.

(** A sum over finite entries and positive infinities, with one infinity at
    least, is infinite, in whichever order numpy adds. *)
Lemma sum_tree_infinite l v :
  sum_tree l v ->
  Forall (fun x => x = PInf \/ isfinite x = true) l ->
  (In PInf l -> v = PInf) /\ ((forall x, In x l -> isfinite x = true) -> isfinite v = true).
Proof.
  induction 1 as [|x|l l1 l2 a b Ha IHa Hb IHb Hperm]; intros Hok.
  - split; [contradiction | reflexivity].
  - split.
    + intros [<- | []]. reflexivity.
    + intros H. apply H. left. reflexivity.
  - apply (Permutation_Forall Hperm) in Hok. apply Forall_app in Hok as [Hok1 Hok2].
    destruct (IHa Hok1) as [Ia Fa]. destruct (IHb Hok2) as [Ib Fb].
    assert (Hva : a = PInf \/ isfinite a = true).
    { destruct (infinite_or_finite l1 Hok1); auto. }
    assert (Hvb : b = PInf \/ isfinite b = true).
    { destruct (infinite_or_finite l2 Hok2); auto. }
    split.
    + intros Hin. apply (Permutation_in _ Hperm), in_app_or in Hin.
      destruct Hin as [Hin | Hin].
      * rewrite (Ia Hin). destruct Hvb as [-> | Hfin]; [reflexivity|].
        destruct b; try discriminate. reflexivity.
      * rewrite (Ib Hin). destruct Hva as [-> | Hfin]; [reflexivity|].
        destruct a; try discriminate. reflexivity.
    + intros Hall.
      assert (Hfa : isfinite a = true).
      { apply Fa. intros x Hx. apply Hall.
        apply (Permutation_in _ (Permutation_sym Hperm)), in_or_app. now left. }
      assert (Hfb : isfinite b = true).
      { apply Fb. intros x Hx. apply Hall.
        apply (Permutation_in _ (Permutation_sym Hperm)), in_or_app. now right. }
      destruct a, b; try discriminate. reflexivity.
Qed.

Lemma mean_infinite l :
  In PInf l -> Forall (fun x => x = PInf \/ isfinite x = true) l -> mean l = PInf.
Proof.
  intros Hin Hok. unfold mean.
  assert (Hf : filter (fun x => negb (isnan x)) l = l).
  { clear Hin. induction Hok as [|x l [-> | Hx] _ IH]; simpl;
      [reflexivity | now rewrite IH | destruct x; try discriminate; simpl; now rewrite IH]. }
  assert (Hz : map (fun x => if isnan x then Fin 0 else x) l = l).
  { clear Hin Hf. induction Hok as [|x l [-> | Hx] _ IH]; simpl;
      [reflexivity | now rewrite IH | destruct x; try discriminate; simpl; now rewrite IH]. }
  rewrite Hf, Hz.
  destruct (sum_tree_infinite l _ (np_sum_tree l) Hok) as [Hinf _].
  rewrite (Hinf Hin).
  destruct l as [|x l]; [contradiction|].
  unfold fdiv, of_int. rewrite Qsign_of_int.
  destruct (Z.compare_spec (Z.of_nat (List.length (x :: l))) 0) as [H | H | H];
    simpl in H; try lia; reflexivity.
Qed.

(** C3 fails on the code: the averages of lines 150-151 and 175 are means of
    the raw quotients.  With one record without a target and one without
    output, both averages of the machine are infinite, where the mean of the
    floored ratios is 0.6; the attribution then reports a drop against an
    infinite average, and the target advisor takes the machine to meet its
    targets. *)
Theorem machine_averages_unguarded :
  machine_averages zero_denominators "M1"
  = Ok {| avg_efficiency := PInf; avg_defect_rate := PInf; avg_downtime := Fin 12 |}
  /\ mean (map (fun r => guarded_ratio (Actual_Output r) (Target_Output r))
               (machine_records zero_denominators "M1")) = lit 3 5
  /\ determine_anomaly_reason (shift_record "M1" 1 28800 100 100 0 0) zero_denominators
     = Ok "Production efficiency dropped to 100.0% vs. average inf%"
  /\ predict_production_targets zero_denominators "M1"
     = Ok (advice 105 80
             "Machine consistently meets targets, can increase production target.").
Proof.
  assert (Hf : full_table zero_denominators = true) by reflexivity.
  assert (He : history_avg_efficiency zero_denominators "M1" = PInf).
  { unfold history_avg_efficiency. apply mean_infinite.
    - vm_compute. left. reflexivity.
    - vm_compute. repeat constructor; right; reflexivity. }
  assert (Hd : history_avg_defect_rate zero_denominators "M1" = PInf).
  { unfold history_avg_defect_rate. apply mean_infinite.
    - vm_compute. right. left. reflexivity.
    - vm_compute. repeat constructor; right; reflexivity. }
  assert (Ht : history_avg_downtime zero_denominators "M1" = Fin 12).
  { unfold history_avg_downtime, int_mean.
    pose proof (mean_ints [0; 60; 0; 0; 0]) as H. cbn [map] in H.
    change (map of_int (map Downtime_Minutes (machine_records zero_denominators "M1")))
      with [Fin (inject_Z 0); Fin (inject_Z 60); Fin (inject_Z 0); Fin (inject_Z 0);
            Fin (inject_Z 0)].
    rewrite H by (vm_compute; congruence). vm_compute. reflexivity. }
  assert (Ho : history_avg_output zero_denominators "M1" = Fin 70).
  { unfold history_avg_output, int_mean.
    pose proof (mean_ints [50; 0; 100; 100; 100]) as H. cbn [map] in H.
    change (map of_int (map Actual_Output (machine_records zero_denominators "M1")))
      with [Fin (inject_Z 50); Fin (inject_Z 0); Fin (inject_Z 100); Fin (inject_Z 100);
            Fin (inject_Z 100)].
    rewrite H by (vm_compute; congruence). vm_compute. reflexivity. }
  split; [|split; [|split]].
  - rewrite machine_averages_full by exact Hf. unfold history_averages.
    now rewrite He, Hd, Ht.
  - pose proof (mean_ints [0; 0; 1; 1; 1]) as H. cbn [map] in H.
    change (map (fun r => guarded_ratio (Actual_Output r) (Target_Output r))
                (machine_records zero_denominators "M1"))
      with [Fin (inject_Z 0); Fin (inject_Z 0); Fin (inject_Z 1); Fin (inject_Z 1);
            Fin (inject_Z 1)].
    rewrite H by (vm_compute; congruence). vm_compute. reflexivity.
  - rewrite determine_anomaly_reason_rules by exact Hf.
    unfold history_averages.
    change (Machine_ID (shift_record "M1" 1 28800 100 100 0 0)) with "M1"%string.
    rewrite He, Hd, Ht. vm_compute. reflexivity.
  - destruct (predict_production_targets_cases zero_denominators "M1" Hf)
      as [[Hn _] | [(_ & _ & a & b & Ha & Hb & H) | [(_ & H95 & _) | (_ & H95 & _)]]].
    + vm_compute in Hn. discriminate.
    + rewrite H. rewrite Ho in Hb. vm_compute in Ha, Hb.
      inversion Ha; inversion Hb; subst. reflexivity.
    + rewrite He in H95. vm_compute in H95. discriminate.
    + rewrite He in H95. vm_compute in H95. discriminate.
Qed.

(** *** The risk scorer *)

Lemma ratio_finite a b d :
  exists q, (if 0 <? b then fdiv (of_int a) (of_int b) else of_int d) = Fin q.
Proof.
  destruct (Z.ltb_spec 0 b) as [H|H]; [|unfold of_int; eauto].
  unfold fdiv, of_int. rewrite Qsign_of_int.
  apply Z.compare_gt_iff in H. rewrite H. eauto.
Qed.

(** A machine with history has a feature row, whose two rates are finite. *)
Lemma prepare_machine_features_some df m :
  full_table df = true -> 1 <= record_count df m ->
  exists f qe qd,
    prepare_machine_features df m = Ok (Some f)
    /\ production_efficiency f = Fin qe /\ defect_rate f = Fin qd.
Proof.
  intros Hf Hn. unfold prepare_machine_features.
  rewrite select_machine_full by assumption. cbn [bind].
  rewrite <- rows_of_count in Hn.
  destruct (rows_of m (iterrows df)) as [|ir rest] eqn:E; [simpl in Hn; lia|].
  rewrite <- E. clear Hn.
  rewrite !column_full by (auto; in_columns). cbn [bind].
  set (sorted := sort_values DateTime (rows_of m (iterrows df))).
  destruct (ratio_finite
              (int_sum (map (fun ir => Actual_Output (snd ir)) sorted))
              (int_sum (map (fun ir => Target_Output (snd ir)) sorted)) 1) as [qe Hqe].
  destruct (ratio_finite
              (int_sum (map (fun ir => Defects (snd ir)) sorted))
              (int_sum (map (fun ir => Actual_Output (snd ir)) sorted)) 0) as [qd Hqd].
  destruct (0 <? int_sum (map (fun ir => Actual_Output (snd ir)) sorted)) eqn:HA;
    rewrite ?column_full by (auto; in_columns); cbn [bind];
    eexists; exists qe, qd; (split; [reflexivity|]);
    cbn [production_efficiency defect_rate]; auto.
Qed.

Lemma prepare_machine_features_history df m :
  full_table df = true -> 1 <= record_count df m ->
  exists avg mx,
    prepare_machine_features df m
    = Ok (Some {| avg_downtime_24h := avg;
                  max_downtime_24h := mx;
                  downtime_frequency := downtime_count df m;
                  production_efficiency := guarded_efficiency df m;
                  defect_rate := guarded_defect_rate df m;
                  operation_hours := record_count df m;
                  has_recent_downtime := if recent_downtime df m then 1 else 0 |}).
Proof.
  intros Hf Hn. unfold prepare_machine_features.
  rewrite select_machine_full by assumption. cbn [bind].
  rewrite <- rows_of_count in Hn.
  destruct (rows_of m (iterrows df)) as [|ir rest] eqn:E; [simpl in Hn; lia|].
  rewrite <- E. clear Hn.
  rewrite !column_full by (auto; in_columns). cbn [bind].
  rewrite !sorted_column_sum.
  unfold guarded_defect_rate.
  destruct (0 <? column_sum Actual_Output df m); cbn [bind];
    rewrite ?column_full by (auto; in_columns); cbn [bind];
    rewrite tail_min, sorted_column_count, sorted_length;
    rewrite (map_field_rows Downtime_Minutes (tail 5 _)), map_tail;
    fold (chronological df m) (recent_in (chronological df m))
         (recent_downtime df m) (downtime_count df m);
    rewrite ?sorted_column_sum; eexists; eexists; reflexivity.
Qed.

Lemma risk_score_formula f e d :
  to_int (fmul (fsub (of_int 1) (production_efficiency f)) (of_int 100)) = Ok e ->
  to_int (fmul (defect_rate f) (of_int 100)) = Ok d ->
  risk_score f
  = Ok (Z.min (Z.min (10 * downtime_frequency f) 30
               + (if has_recent_downtime f =? 1 then 20 else 0)
               + clamp 0 40 e + Z.min d 10) 100).
Proof.
  intros He Hd. unfold risk_score. rewrite He. cbn [bind]. rewrite Hd. cbn [bind].
  unfold clamp. f_equal. destruct (has_recent_downtime f =? 1); lia.
Qed.

Lemma risk_score_finite f qe qd :
  production_efficiency f = Fin qe -> defect_rate f = Fin qd ->
  exists score, risk_score f = Ok score.
Proof.
  intros He Hd. unfold risk_score. rewrite He, Hd. unfold fsub, fneg, of_int.
  rewrite fadd_finite, !fmul_finite, !to_int_finite. cbn [bind]. eauto.
Qed.

Lemma guarded_efficiency_finite df m : exists q, guarded_efficiency df m = Fin q.
Proof. apply ratio_finite. Qed.

Lemma guarded_defect_rate_finite df m : exists q, guarded_defect_rate df m = Fin q.
Proof. apply ratio_finite. Qed.

Lemma valid_record_fields r :
  valid_record r = true ->
  0 <= Target_Output r /\ 0 <= Actual_Output r /\ 0 <= Cumulative_Output r
  /\ 0 <= Defects r /\ 0 <= Downtime_Minutes r.
Proof.
  unfold valid_record. rewrite !andb_true_iff, !Z.leb_le. tauto.
Qed.

Lemma valid_total_nonneg (field : ShiftRecord -> Z) df m :
  valid_table df = true ->
  (forall r, valid_record r = true -> 0 <= field r) ->
  0 <= total field df m.
Proof.
  intros Hv Hfield. apply Zsum_nonneg, Forall_forall.
  intros z Hz. apply in_map_iff in Hz as (r & <- & Hr).
  apply Hfield. unfold machine_records in Hr. apply filter_In in Hr as [Hr _].
  unfold valid_table in Hv. rewrite forallb_forall in Hv. auto.
Qed.

(** Sums that fit are the sums of the integers. *)
Lemma totals_fit_sums df m :
  totals_fit df m = true ->
  column_sum Target_Output df m = total_target df m
  /\ column_sum Actual_Output df m = total_actual df m
  /\ column_sum Defects df m = total_defects df m.
Proof.
  unfold totals_fit. rewrite !andb_true_iff. intros [[HT HA] HD].
  unfold column_sum. repeat split; apply int_sum_fits; assumption.
Qed.

Lemma valid_totals df m :
  valid_table df = true ->
  0 <= total_target df m /\ 0 <= total_actual df m /\ 0 <= total_defects df m.
Proof.
  intros Hv. repeat split; apply valid_total_nonneg; try assumption;
    intros r Hr; now apply valid_record_fields in Hr.
Qed.

Lemma guarded_efficiency_overall df m :
  valid_table df = true -> totals_fit df m = true ->
  guarded_efficiency df m = overall_efficiency df m.
Proof.
  intros Hv Hfit. unfold guarded_efficiency, overall_efficiency.
  destruct (totals_fit_sums df m Hfit) as (-> & -> & _).
  destruct (valid_totals df m Hv) as (H & _).
  destruct (Z.ltb_spec 0 (total_target df m)), (Z.eqb_spec (total_target df m) 0);
    try reflexivity; lia.
Qed.

Lemma guarded_defect_rate_overall df m :
  valid_table df = true -> totals_fit df m = true ->
  guarded_defect_rate df m = overall_defect_rate df m.
Proof.
  intros Hv Hfit. unfold guarded_defect_rate, overall_defect_rate.
  destruct (totals_fit_sums df m Hfit) as (_ & -> & ->).
  destruct (valid_totals df m Hv) as (_ & H & _).
  destruct (Z.ltb_spec 0 (total_actual df m)), (Z.eqb_spec (total_actual df m) 0);
    try reflexivity; lia.
Qed.

Lemma of_int_nonneg z : 0 <= z -> (0 <= round53 (inject_Z z))%Q.
Proof.
  intros H. apply round53_nonneg. change 0%Q with (inject_Z 0). now rewrite <- Zle_Qle.
Qed.

Lemma of_int_positive z : 0 < z -> (0 < round53 (inject_Z z))%Q.
Proof.
  intros H. apply round53_sign. change 0%Q with (inject_Z 0). now rewrite <- Zlt_Qlt.
Qed.

(** The quotient of two integers, the divisor above 0. *)
Lemma fdiv_ints a b :
  0 < b ->
  fdiv (of_int a) (of_int b)
  = Fin (round53 (round53 (inject_Z a) / round53 (inject_Z b))).
Proof.
  intros Hb. unfold fdiv, of_int. rewrite Qsign_of_int.
  apply Z.compare_gt_iff in Hb. now rewrite Hb.
Qed.

Lemma Qdiv_nonneg x y : (0 <= x)%Q -> (0 < y)%Q -> (0 <= x / y)%Q.
Proof. intros Hx Hy. apply Qle_shift_div_l; [exact Hy | lra]. Qed.

Lemma guarded_defect_rate_points df m :
  valid_table df = true -> totals_fit df m = true ->
  exists d, to_int (fmul (guarded_defect_rate df m) (of_int 100)) = Ok d /\ 0 <= d.
Proof.
  intros Hv Hfit. unfold guarded_defect_rate.
  destruct (totals_fit_sums df m Hfit) as (_ & -> & ->).
  destruct (valid_totals df m Hv) as (_ & _ & HD).
  destruct (Z.ltb_spec 0 (total_actual df m)) as [HA|HA].
  - rewrite fdiv_ints by exact HA. unfold of_int.
    rewrite fmul_finite, to_int_floor.
    + eexists. split; [reflexivity|]. change 0 with (Qfloor 0).
      apply Qfloor_resp_le, round53_nonneg, Qmult_le_0_compat.
      * apply round53_nonneg, Qdiv_nonneg;
          [now apply of_int_nonneg | now apply of_int_positive].
      * now apply of_int_nonneg.
    + apply round53_nonneg, Qmult_le_0_compat.
      * apply round53_nonneg, Qdiv_nonneg;
          [now apply of_int_nonneg | now apply of_int_positive].
      * now apply of_int_nonneg.
  - exists 0. split; [reflexivity | lia].
Qed.

Lemma horizon_full df m :
  full_table df = true -> horizon df m = Ok (horizon_of (record_count df m)).
Proof.
  intros Hf. unfold horizon, horizon_of.
  rewrite select_machine_full by assumption. cbn [bind]. rewrite rows_of_count.
  destruct (20 <? record_count df m); [reflexivity|].
  destruct (10 <? record_count df m); reflexivity.
Qed.

Lemma horizon_of_values n : In (horizon_of n) [4; 12; 24].
Proof.
  unfold horizon_of. destruct (20 <? n); [simpl; tauto|].
  destruct (10 <? n); simpl; tauto.
Qed.

(** With history the scorer returns, the same from every world; it draws
    nothing and leaves a model file behind. *)
Lemma predict_downtime_returns df m :
  full_table df = true -> 1 <= record_count df m ->
  exists f score,
    prepare_machine_features df m = Ok (Some f)
    /\ risk_score f = Ok score
    /\ forall w, predict_downtime randbelow df m w
                 = (Ok (score, horizon_of (record_count df m)), model_ready w).
Proof.
  intros Hf Hn.
  destruct (prepare_machine_features_some df m Hf Hn) as (f & qe & qd & Hprep & He & Hd).
  destruct (risk_score_finite f qe qd He Hd) as [score Hs].
  exists f, score. split; [exact Hprep|]. split; [exact Hs|]. intros w.
  unfold predict_downtime, bindM, lift. rewrite Hprep, Hs.
  rewrite horizon_full by assumption.
  unfold path_exists, train_downtime_model, try_except, joblib_load, ret, model_ready.
  destruct w as [s [[|]|] out]; reflexivity.
Qed.

Lemma predict_downtime_known df m w :
  full_table df = true -> 1 <= record_count df m ->
  exists e d,
    to_int (fmul (fsub (of_int 1) (guarded_efficiency df m)) (of_int 100)) = Ok e
    /\ to_int (fmul (guarded_defect_rate df m) (of_int 100)) = Ok d
    /\ predict_downtime randbelow df m w
       = (Ok (Z.min (Z.min (10 * downtime_count df m) 30
                     + (if recent_downtime df m then 20 else 0)
                     + clamp 0 40 e + Z.min d 10) 100,
              horizon_of (record_count df m)),
          model_ready w).
Proof.
  intros Hf Hn.
  destruct (prepare_machine_features_history df m Hf Hn) as (avg & mx & Hprep).
  destruct (guarded_efficiency_finite df m) as [qe Hqe].
  destruct (guarded_defect_rate_finite df m) as [qd Hqd].
  eexists. eexists. split; [rewrite Hqe; reflexivity|].
  split; [rewrite Hqd; reflexivity|].
  unfold predict_downtime, bindM, lift. rewrite Hprep.
  erewrite risk_score_formula;
    [ | cbn [production_efficiency]; rewrite Hqe; reflexivity
      | cbn [defect_rate]; rewrite Hqd; reflexivity ].
  rewrite horizon_full by assumption.
  cbn [downtime_frequency has_recent_downtime].
  assert (Hrecent : (if (if recent_downtime df m then 1 else 0) =? 1 then 20 else 0)
                    = (if recent_downtime df m then 20 else 0)).
  { destruct (recent_downtime df m); reflexivity. }
  rewrite Hrecent.
  unfold path_exists, train_downtime_model, try_except, joblib_load, ret, model_ready.
  destruct w as [s [[|]|] out]; reflexivity.
Qed.

Lemma predict_downtime_unknown df m w :
  full_table df = true -> record_count df m = 0 ->
  exists score hours w',
    predict_downtime randbelow df m w = (Ok (score, hours), w')
    /\ 10 <= score <= 90 /\ In hours [2; 4; 8; 12; 24].
Proof.
  intros Hf Hn.
  unfold predict_downtime, prepare_machine_features, bindM, lift.
  rewrite select_machine_full by assumption. cbn [bind].
  rewrite <- rows_of_count in Hn.
  destruct (rows_of m (iterrows df)) as [|ir rest]; [|simpl in Hn; lia].
  unfold randint, choice, ret, set_rng. cbn [rng model_file stdout].
  pose proof (randbelow_range (90 - 10 + 1) (rng w) ltac:(lia)) as Hs.
  destruct (randbelow (90 - 10 + 1) (rng w)) as [k s]. cbn [fst] in Hs.
  cbn [rng model_file stdout].
  change (Z.of_nat (List.length [2; 4; 8; 12; 24])) with 5.
  pose proof (randbelow_range 5 s ltac:(lia)) as Hc.
  destruct (randbelow 5 s) as [j s']. cbn [fst] in Hc.
  assert (Hj : j = 0 \/ j = 1 \/ j = 2 \/ j = 3 \/ j = 4) by lia.
  destruct Hj as [-> | [-> | [-> | [-> | ->]]]]; cbn -[Z.add];
    eexists; eexists; eexists; (split; [reflexivity|]); (split; [lia|]); tauto.
Qed.

(** C1, amended: for a machine with at least one record, on a table that
    carries every column, holds no negative number and whose column sums
    fit in an int64, the risk score is the sum of the four contributions
    clamped to [0, 100]; the two rates are turned into points by [int()],
    truncation toward zero, not by [round], and the last 5 records are those
    of the history as the sort by date and time arranges it, a
    chronological arrangement of the records of the machine. *)
Theorem predict_downtime_score df m w :
  full_table df = true -> valid_table df = true -> totals_fit df m = true ->
  1 <= record_count df m ->
  exists score hours w',
    predict_downtime randbelow df m w = (Ok (score, hours), w')
    /\ chronological_order df m (chronological df m)
    /\ risk_formula to_int df m (chronological df m) = Ok score.
Proof.
  intros Hf Hv Hfit Hn.
  destruct (predict_downtime_known df m w Hf Hn) as (e & d & He & Hd & Hrun).
  destruct (guarded_defect_rate_points df m Hv Hfit) as (d' & Hd' & Hpos).
  assert (d' = d) by congruence. subst d'.
  rewrite Hrun. eexists. eexists. eexists. split; [reflexivity|].
  split; [apply chronological_is_order|].
  unfold risk_formula.
  rewrite <- (guarded_efficiency_overall df m Hv Hfit),
          <- (guarded_defect_rate_overall df m Hv Hfit).
  rewrite He. cbn [bind]. rewrite Hd. cbn [bind]. f_equal.
  pose proof (count_positive_nonneg (map Downtime_Minutes (machine_records df m))) as Hc.
  fold (downtime_count df m) in Hc.
  fold (recent_downtime df m).
  unfold clamp. destruct (recent_downtime df m); lia.
Qed.

(** C6, amended: on a table that carries every column, holds no negative
    number and whose column sums for the machine fit in an int64, the risk
    scorer returns an integer score in [0, 100]; with history the horizon
    is 24 above 20 records, 12 above 10 and 4 otherwise; without history
    the score is in [10, 90] and the horizon in {2, 4, 8, 12, 24}. *)
Theorem predict_downtime_ranges df m w :
  full_table df = true -> valid_table df = true -> totals_fit df m = true ->
  exists score hours w',
    predict_downtime randbelow df m w = (Ok (score, hours), w')
    /\ 0 <= score <= 100
    /\ (1 <= record_count df m ->
        hours = horizon_of (record_count df m) /\ In hours [4; 12; 24])
    /\ (record_count df m = 0 ->
        10 <= score <= 90 /\ In hours [2; 4; 8; 12; 24]).
Proof.
  intros Hf Hv Hfit.
  assert (Hcount : 0 <= record_count df m) by (unfold record_count; lia).
  destruct (Z.eq_dec (record_count df m) 0) as [H0 | H0].
  - destruct (predict_downtime_unknown df m w Hf H0) as (s & h & w' & Hrun & Hs & Hh).
    exists s, h, w'. split; [exact Hrun|]. split; [lia|]. split; [lia | auto].
  - assert (Hn : 1 <= record_count df m) by lia.
    destruct (predict_downtime_known df m w Hf Hn) as (e & d & He & Hd & Hrun).
    destruct (guarded_defect_rate_points df m Hv Hfit) as (d' & Hd' & Hpos).
    assert (d' = d) by congruence. subst d'.
    rewrite Hrun. eexists. eexists. eexists. split; [reflexivity|].
    pose proof (count_positive_nonneg (map Downtime_Minutes (machine_records df m))) as Hc.
    fold (downtime_count df m) in Hc.
    split; [unfold clamp; destruct (recent_downtime df m); lia|].
    split; [intros _; split; [reflexivity | apply horizon_of_values] | lia].
Qed.

(** *** Not enough data *)

(** C8: for a table that has no rows, or fewer than 5, or lacks one of the
    five numeric columns, the feature deriver returns its empty result and
    the anomaly engine returns the empty list; nothing is raised and the
    world is left as it was. *)
Theorem detect_anomalies_not_enough_data df w :
  rows df = []
  \/ (List.length (rows df) < 5)%nat
  \/ (exists c, In c numeric_cols /\ has_column df c = false) ->
  prepare_anomaly_features df = Ok None
  /\ detect_anomalies randbelow fit_transform fit_predict df w = (Ok [], w).
Proof.
  intros H.
  assert (Hprep : prepare_anomaly_features df = Ok None).
  { unfold prepare_anomaly_features.
    destruct (df_empty df || (Z.of_nat (List.length (rows df)) <? 5)) eqn:Hsmall;
      [reflexivity|].
    apply orb_false_iff in Hsmall as [Hempty Hlen]. apply Z.ltb_ge in Hlen.
    destruct H as [Hrows | [Hfew | (c & Hc & Hmiss)]].
    - rewrite Hrows in Hlen. simpl in Hlen. lia.
    - lia.
    - assert (Hall : forallb (has_column df) numeric_cols = false).
      { destruct (forallb (has_column df) numeric_cols) eqn:Hall; [|reflexivity].
        rewrite forallb_forall in Hall. rewrite (Hall c Hc) in Hmiss. discriminate. }
      rewrite Hall. reflexivity. }
  split; [exact Hprep|]. unfold detect_anomalies. rewrite Hprep. reflexivity.
Qed.

(** *** What the analytics read of the world *)

Lemma predict_downtime_rng_only df m w1 w2 :
  rng w1 = rng w2 ->
  fst (predict_downtime randbelow df m w1) = fst (predict_downtime randbelow df m w2).
Proof.
  intros Hrng. unfold predict_downtime, bindM, lift.
  destruct (prepare_machine_features df m) as [[f|]|e]; [| |reflexivity].
  - unfold path_exists, train_downtime_model, try_except, joblib_load, ret.
    destruct (risk_score f), (horizon df m);
      destruct w1 as [s1 [[|]|] o1], w2 as [s2 [[|]|] o2]; reflexivity.
  - unfold randint, choice, ret, set_rng. rewrite Hrng.
    destruct (randbelow (90 - 10 + 1) (rng w2)) as [k s]. cbn [rng].
    destruct (randbelow (Z.of_nat (List.length [2; 4; 8; 12; 24])) s) as [j s'].
    destruct (nth_error [2; 4; 8; 12; 24] (Z.to_nat j)); reflexivity.
Qed.

Lemma report_anomalies_rng_only original_df machine_id idxs :
  forall anomalies w1 w2,
    rng w1 = rng w2 ->
    same_outcome (report_anomalies randbelow original_df machine_id idxs anomalies w1)
                 (report_anomalies randbelow original_df machine_id idxs anomalies w2).
Proof.
  induction idxs as [|idx rest IH]; intros anomalies w1 w2 Hrng; cbn [report_anomalies].
  - split; [reflexivity | exact Hrng].
  - destruct (anomaly_record <- loc original_df idx ;;
              reason <- determine_anomaly_reason anomaly_record original_df ;;
              date <- cell original_df "Date" Date anomaly_record ;;
              shift <- cell original_df "Shift" Shift anomaly_record ;;
              Ok (reason, date, shift)) as [[[reason date] shift]|e].
    + unfold randint, set_rng. rewrite Hrng.
      destruct (randbelow (95 - 70 + 1) (rng w2)) as [k s].
      apply IH. reflexivity.
    + split; [reflexivity | exact Hrng].
Qed.

Lemma machine_block_rng_only original_df machine_id fs anomalies w1 w2 :
  rng w1 = rng w2 ->
  same_outcome
    (machine_block randbelow fit_transform fit_predict
       original_df machine_id fs anomalies w1)
    (machine_block randbelow fit_transform fit_predict
       original_df machine_id fs anomalies w2).
Proof.
  intros Hrng. unfold machine_block.
  destruct (X_scaled <- fit_transform (feature_matrix fs) ;;
            preds <- fit_predict X_scaled ;;
            outliers <- iloc fs (where_outlier 0 preds) ;;
            Ok (map Feature.index outliers)) as [idxs|e].
  - now apply report_anomalies_rng_only.
  - split; [reflexivity | exact Hrng].
Qed.

Lemma scan_machines_rng_only feature_df original_df machines :
  forall anomalies w1 w2,
    rng w1 = rng w2 ->
    same_outcome (scan_machines randbelow fit_transform fit_predict
        feature_df original_df machines anomalies w1)
                 (scan_machines randbelow fit_transform fit_predict
                     feature_df original_df machines anomalies w2).
Proof.
  induction machines as [|m rest IH]; intros anomalies w1 w2 Hrng; cbn [scan_machines].
  - split; [reflexivity | exact Hrng].
  - cbv zeta.
    destruct (Z.of_nat (List.length (features_of m feature_df)) <? 5); [now apply IH|].
    destruct (machine_block_rng_only original_df m (features_of m feature_df)
                anomalies w1 w2 Hrng) as [Hfst Hsnd].
    destruct (machine_block randbelow fit_transform fit_predict
        original_df m (features_of m feature_df) anomalies w1)
      as [[r1 a1] w1'].
    destruct (machine_block randbelow fit_transform fit_predict
        original_df m (features_of m feature_df) anomalies w2)
      as [[r2 a2] w2'].
    cbn [fst snd] in Hfst, Hsnd. inversion Hfst; subst.
    destruct r2; apply IH; [exact Hsnd | exact Hsnd].
Qed.

Lemma detect_anomalies_rng_only df w1 w2 :
  rng w1 = rng w2 ->
  fst (detect_anomalies randbelow fit_transform fit_predict df w1)
  = fst (detect_anomalies randbelow fit_transform fit_predict df w2).
Proof.
  intros Hrng. unfold detect_anomalies.
  destruct (prepare_anomaly_features df) as [[[[|f fs] original_df]|]|e];
    try reflexivity.
  destruct (scan_machines_rng_only (f :: fs) original_df (feature_machines (f :: fs))
              [] w1 w2 Hrng) as [Hfst _].
  destruct (scan_machines randbelow fit_transform fit_predict
      (f :: fs) original_df (feature_machines (f :: fs)) [] w1).
  destruct (scan_machines randbelow fit_transform fit_predict
      (f :: fs) original_df (feature_machines (f :: fs)) [] w2).
  cbn [fst] in *. now subst.
Qed.

(** C5: each analytic, run a second time on the same table from the
    generator state the first run started from, returns what the first run
    returned:
    the outcome depends on the table, the machine and the generator state
    and on nothing else of the world. *)
Theorem analytics_repeatable df m w :
  (let first := predict_downtime randbelow df m w in
   fst (predict_downtime randbelow df m (set_rng (snd first) (rng w))) = fst first)
  /\ (let first := detect_anomalies randbelow fit_transform fit_predict df w in
      fst (detect_anomalies randbelow fit_transform fit_predict
          df (set_rng (snd first) (rng w))) = fst first)
  /\ (let first := lift (predict_production_targets df m) w in
      fst (lift (predict_production_targets df m) (set_rng (snd first) (rng w)))
      = fst first).
Proof.
  split; [|split]; cbv zeta.
  - apply predict_downtime_rng_only. reflexivity.
  - apply detect_anomalies_rng_only. reflexivity.
  - reflexivity.
Qed.


(** ** Further properties of the analytics *)

(** *** The feature row of the risk scorer *)

Lemma any_positive_exists l : any_positive l = true <-> exists z, In z l /\ 0 < z.
Proof.
  unfold any_positive. rewrite existsb_exists.
  split; intros (z & Hz & Hp); exists z; (split; [exact Hz|]);
    [now apply Z.ltb_lt | now apply Z.ltb_lt].
Qed.

Lemma count_positive_exists l : 1 <= count_positive l <-> exists z, In z l /\ 0 < z.
Proof.
  unfold count_positive. split.
  - intros H. destruct (filter (fun d => 0 <? d) l) as [|z t] eqn:E; [simpl in H; lia|].
    assert (Hz : In z (filter (fun d => 0 <? d) l)) by (rewrite E; simpl; auto).
    apply filter_In in Hz as [Hin Hp]. exists z. split; [exact Hin | now apply Z.ltb_lt].
  - intros (z & Hin & Hp).
    assert (Hz : In z (filter (fun d => 0 <? d) l)).
    { apply filter_In. split; [exact Hin | now apply Z.ltb_lt]. }
    destruct (filter (fun d => 0 <? d) l); [contradiction | simpl; lia].
Qed.

Lemma count_positive_le_length l : count_positive l <= Z.of_nat (List.length l).
Proof.
  unfold count_positive. pose proof (filter_length_le (fun d => 0 <? d) l). lia.
Qed.

Lemma in_tail {A : Type} n (l : list A) x : In x (tail n l) -> In x l.
Proof.
  unfold tail. intros H. rewrite <- (firstn_skipn (List.length l - n) l).
  apply in_or_app. now right.
Qed.

Lemma tail_all {A : Type} n (l : list A) : (List.length l <= n)%nat -> tail n l = l.
Proof.
  unfold tail. intros H. replace (List.length l - n)%nat with 0%nat by lia. reflexivity.
Qed.

Lemma recent_downtime_counted df m :
  recent_downtime df m = true -> 1 <= downtime_count df m.
Proof.
  unfold recent_downtime, recent_in, downtime_count. intros H.
  apply any_positive_exists in H as (z & Hin & Hp).
  apply count_positive_exists. exists z. split; [|exact Hp].
  apply in_map_iff in Hin as (r & <- & Hr).
  apply in_tail in Hr. apply in_map.
  apply (Permutation_in _ (chronological_perm df m)), Hr.
Qed.

Lemma short_history_recent df m :
  record_count df m <= 5 -> 1 <= downtime_count df m -> recent_downtime df m = true.
Proof.
  unfold recent_downtime, recent_in, downtime_count, record_count. intros Hn Hc.
  apply count_positive_exists in Hc as (z & Hin & Hp).
  apply any_positive_exists. exists z. split; [|exact Hp].
  rewrite tail_all.
  - apply in_map_iff in Hin as (r & <- & Hr). apply in_map.
    apply (Permutation_in _ (Permutation_sym (chronological_perm df m))), Hr.
  - rewrite (Permutation_length (chronological_perm df m)). lia.
Qed.

(** X2: the feature row of a machine is coherent: between 0 and
    [operation_hours] of its records have downtime, a recent downtime is
    counted in the frequency, and with 5 records or fewer every downtime is
    a recent one. *)
Theorem prepare_machine_features_coherent df m f :
  full_table df = true ->
  prepare_machine_features df m = Ok (Some f) ->
  1 <= operation_hours f
  /\ operation_hours f = record_count df m
  /\ 0 <= downtime_frequency f <= operation_hours f
  /\ (has_recent_downtime f = 0 \/ has_recent_downtime f = 1)
  /\ (has_recent_downtime f = 1 -> 1 <= downtime_frequency f)
  /\ (operation_hours f <= 5 -> 1 <= downtime_frequency f ->
      has_recent_downtime f = 1).
Proof.
  intros Hf Hprep.
  assert (Hn : 1 <= record_count df m).
  { unfold prepare_machine_features in Hprep.
    rewrite select_machine_full in Hprep by assumption. cbn [bind] in Hprep.
    rewrite <- rows_of_count.
    destruct (rows_of m (iterrows df)); [discriminate | simpl; lia]. }
  destruct (prepare_machine_features_history df m Hf Hn) as (avg & mx & Hh).
  rewrite Hh in Hprep. inversion Hprep; subst f; clear Hprep.
  cbn [operation_hours downtime_frequency has_recent_downtime].
  split; [exact Hn|]. split; [reflexivity|].
  split.
  { unfold downtime_count, record_count.
    pose proof (count_positive_nonneg (map Downtime_Minutes (machine_records df m))).
    pose proof (count_positive_le_length (map Downtime_Minutes (machine_records df m))) as Hle.
    rewrite length_map in Hle. lia. }
  split; [destruct (recent_downtime df m); auto|].
  split.
  - destruct (recent_downtime df m) eqn:Hr; [|discriminate].
    intros _. now apply recent_downtime_counted.
  - intros H5 Hc. now rewrite short_history_recent.
Qed.

Lemma rows_of_nil df m :
  (match rows_of m (iterrows df) with [] => true | _ :: _ => false end)
  = (record_count df m =? 0).
Proof.
  rewrite <- rows_of_count. destruct (rows_of m (iterrows df)); reflexivity.
Qed.

(** *** The target advisor: lower bounds *)

Lemma fold_max_upper l a : forall x, x = a \/ In x l -> x <= fold_left Z.max l a.
Proof.
  revert a. induction l as [|y l IH]; intros a x Hx; simpl.
  - destruct Hx as [-> | []]. lia.
  - destruct Hx as [-> | [-> | Hx]].
    + etransitivity; [|apply IH; left; reflexivity]. lia.
    + etransitivity; [|apply IH; left; reflexivity]. lia.
    + apply IH. now right.
Qed.

Lemma int_max_upper l :
  l <> [] ->
  exists M, int_max l = of_int M /\ forall x, In x l -> x <= M.
Proof.
  destruct l as [|a l]; [congruence|]. intros _.
  exists (fold_left Z.max l a). split; [reflexivity|].
  intros x Hx. apply fold_max_upper. destruct Hx; auto.
Qed.

(** A double scaled up by a factor of 1 or more does not fall below
    itself. *)
Lemma scaled_up_floor q c :
  (0 <= q)%Q -> (round53 q == q)%Q -> (1 <= c)%Q ->
  (0 <= round53 (q * c))%Q /\ Qfloor q <= Qfloor (round53 (q * c)).
Proof.
  intros Hq Hr Hc.
  assert (Hle : (q <= q * c)%Q) by nra.
  split.
  - apply round53_nonneg. nra.
  - apply Qfloor_resp_le, round53_above; assumption.
Qed.

(** An integer turned into a double and scaled by 1.05 does not fall below
    the integer, however large. *)
Lemma max_scaled_up M :
  0 <= M ->
  (0 <= round53 (round53 (inject_Z M) * round53 (105 # 100)))%Q
  /\ M <= Qfloor (round53 (round53 (inject_Z M) * round53 (105 # 100))).
Proof.
  intros HM.
  assert (H0 : (0 <= inject_Z M)%Q).
  { change 0%Q with (inject_Z 0). now rewrite <- Zle_Qle. }
  pose proof (round53_nonneg _ H0) as Hx0.
  destruct (round53_error _ H0) as [Hx _].
  set (c := round53 (105 # 100)) in *.
  assert (Hc : (0 <= c)%Q) by (vm_compute; discriminate).
  assert (Hxc : (0 <= round53 (inject_Z M) * c)%Q) by (apply Qmult_le_0_compat; assumption).
  destruct (round53_error _ Hxc) as [Hy _].
  set (a := (1 - (1 # 2) ^ 53)%Q) in *.
  assert (Ha : (0 <= a)%Q) by (vm_compute; discriminate).
  assert (Hk : (1 <= a * (c * a))%Q) by (vm_compute; discriminate).
  set (x := round53 (inject_Z M)) in *.
  set (y := round53 (x * c)) in *.
  assert (Hle : (inject_Z M <= y)%Q).
  { assert (H1 : (0 <= (x - inject_Z M * a) * (c * a))%Q).
    { apply Qmult_le_0_compat; [lra | apply Qmult_le_0_compat; assumption]. }
    assert (H2 : (0 <= inject_Z M * (a * (c * a) - 1))%Q).
    { apply Qmult_le_0_compat; lra. }
    clearbody a c x y. set (z := inject_Z M) in *. clearbody z. nra. }
  split; [lra|].
  rewrite <- (Qfloor_Z M). now apply Qfloor_resp_le.
Qed.

(** X6: on a table that respects the data model the advised target is
    never below the machine's average output (truncated), so never
    negative; and an advice of confidence 80 is never below the best hour
    on record. *)
Theorem predict_production_targets_lower_bound df m :
  full_table df = true -> valid_table df = true -> 3 <= record_count df m ->
  exists p t a,
    predict_production_targets df m = Ok p
    /\ optimal_target p = Some t
    /\ to_int (history_avg_output df m) = Ok a
    /\ 0 <= a <= t
    /\ (confidence p = 80 ->
        forall r, In r (machine_records df m) -> Actual_Output r <= t).
Proof.
  intros Hf Hv Hn.
  assert (Hvalid : Forall (fun z => 0 <= z) (map Actual_Output (machine_records df m))).
  { apply Forall_forall. intros z Hz. apply in_map_iff in Hz as (r & <- & Hr).
    unfold machine_records in Hr. apply filter_In in Hr as [Hr _].
    unfold valid_table in Hv. rewrite forallb_forall in Hv.
    specialize (Hv r Hr). apply valid_record_fields in Hv. tauto. }
  assert (Hne : map Actual_Output (machine_records df m) <> []).
  { unfold record_count in Hn. destruct (machine_records df m); simpl in *; [lia|congruence]. }
  destruct (int_mean_nonneg _ Hne Hvalid) as (qo & Ho & Hqo & Hro).
  destruct (int_max_upper _ Hne) as (M & HM & Hmax).
  fold (history_avg_output df m) in Ho. fold (history_max_output df m) in HM.
  assert (Hfloor : 0 <= Qfloor qo).
  { change 0 with (Qfloor 0). now apply Qfloor_resp_le. }
  assert (HM0 : 0 <= M).
  { destruct (map Actual_Output (machine_records df m)) as [|z l] eqn:E; [congruence|].
    inversion Hvalid; subst. specialize (Hmax z ltac:(simpl; auto)). lia. }
  assert (H11 : (1 <= round53 (11 # 10))%Q) by (vm_compute; discriminate).
  destruct (scaled_up_floor qo _ Hqo Hro H11) as [Hb0 Hb].
  destruct (max_scaled_up M HM0) as [Ha0 Ha'].
  destruct (predict_production_targets_cases df m Hf)
    as [[Hlt _] | [(_ & He & a & b & Ha & Hb' & H) | [(_ & H95 & H80 & a & Ha & H)
       | (_ & H95 & H80 & a & Ha & H)]]]; [lia | | |].
  - rewrite Ho in Hb'. rewrite HM in Ha. unfold lit, of_int in Ha, Hb'.
    rewrite fmul_finite in Ha, Hb'.
    rewrite to_int_floor in Ha by exact Ha0.
    rewrite to_int_floor in Hb' by exact Hb0.
    inversion Ha; inversion Hb'; subst a b; clear Ha Hb'.
    eexists. eexists. exists (Qfloor qo). split; [exact H|]. split; [reflexivity|].
    split; [rewrite Ho; now apply to_int_floor|]. split; [lia|].
    intros _ r Hr. specialize (Hmax (Actual_Output r) (in_map _ _ _ Hr)). lia.
  - destruct (fgeb_finite_pos _ 8 10 ltac:(lia) H80) as [Hinf | (qe & Hqe & Hs)].
    { rewrite Hinf in H95. discriminate. }
    rewrite Hqe in H95, H80, Ha. rewrite Ho in Ha.
    unfold fgeb, fleb, lit in H95, H80.
    assert (Hlt1 : (qe < 1)%Q).
    { destruct (Qlt_le_dec qe 1) as [Hl | Hl]; [exact Hl|].
      exfalso. assert (Hb1 : Qle_bool (round53 (95 # 100)) qe = true).
      { apply Qle_bool_iff. eapply Qle_trans; [|exact Hl]. vm_compute. discriminate. }
      congruence. }
    unfold fdiv in Ha. rewrite (Qsign_pos qe Hs) in Ha.
    assert (Hdiv : (qo <= qo / qe)%Q).
    { apply Qle_shift_div_l; [exact Hs|]. nra. }
    assert (Hr0 : (qo <= round53 (qo / qe))%Q) by (apply round53_above; assumption).
    rewrite to_int_floor in Ha by lra.
    inversion Ha; subst a; clear Ha.
    eexists. eexists. exists (Qfloor qo).
    split; [exact H|]. split; [reflexivity|].
    split; [rewrite Ho; now apply to_int_floor|].
    split; [split; [lia | now apply Qfloor_resp_le]|].
    simpl. discriminate.
  - rewrite Ho in Ha. unfold lit in Ha.
    rewrite fmul_finite, to_int_floor in Ha by exact Hb0.
    inversion Ha; subst a; clear Ha.
    eexists. eexists. exists (Qfloor qo).
    split; [exact H|]. split; [reflexivity|].
    split; [rewrite Ho; now apply to_int_floor|]. split; [lia|].
    simpl. discriminate.
Qed.

(** *** The feature deriver: which records get a feature row *)

Lemma map_fst_iterrows df : map fst (iterrows df) = seq 0 (List.length (rows df)).
Proof.
  unfold iterrows.
  assert (H : forall (l : list ShiftRecord) k,
             map fst (combine (seq k (List.length l)) l) = seq k (List.length l)).
  { induction l as [|x l IH]; intros k; simpl; [reflexivity | now rewrite IH]. }
  apply H.
Qed.

Lemma iterrows_NoDup df : NoDup (map fst (iterrows df)).
Proof. rewrite map_fst_iterrows. apply seq_NoDup. Qed.

Lemma nth_error_iterrows df i r :
  nth_error (rows df) i = Some r -> In (i, r) (iterrows df).
Proof.
  unfold iterrows.
  assert (H : forall (l : list ShiftRecord) k j,
             nth_error l j = Some r -> In ((k + j)%nat, r) (combine (seq k (List.length l)) l)).
  { induction l as [|x l IH]; intros k j Hj; [destruct j; discriminate|].
    destruct j as [|j]; simpl in *.
    - inversion Hj; subst. left. f_equal. lia.
    - right. replace (k + S j)%nat with (S k + j)%nat by lia. now apply IH. }
  intros Hi. apply (H (rows df) 0%nat i Hi).
Qed.

Lemma NoDup_map_injective {A B : Type} (f : A -> B) l x y :
  NoDup (map f l) -> In x l -> In y l -> f x = f y -> x = y.
Proof.
  induction l as [|a l IH]; simpl; [contradiction|].
  intros Hnd Hx Hy Hf. inversion Hnd as [|? ? Hnotin Hnd']; subst.
  destruct Hx as [-> | Hx], Hy as [-> | Hy]; auto.
  - exfalso. apply Hnotin. rewrite Hf. now apply in_map.
  - exfalso. apply Hnotin. rewrite <- Hf. now apply in_map.
Qed.

Lemma NoDup_map_filter {A B : Type} (f : A -> B) p l :
  NoDup (map f l) -> NoDup (map f (filter p l)).
Proof.
  induction l as [|a l IH]; simpl; [auto|].
  intros Hnd. inversion Hnd as [|? ? Hnotin Hnd']; subst.
  destruct (p a); simpl; [|auto].
  constructor; [|auto].
  intros Hin. apply Hnotin. apply in_map_iff in Hin as (x & Hx & Hxl).
  apply filter_In in Hxl as [Hxl _]. rewrite <- Hx. now apply in_map.
Qed.

Lemma in_unique x l : In x (unique l) <-> In x l.
Proof.
  induction l as [|a l IH]; simpl; [tauto|].
  rewrite filter_In, IH, negb_true_iff.
  split; intros [H | H]; auto.
  - destruct H; auto.
  - destruct (String.eqb_spec a x); auto.
Qed.

Lemma unique_NoDup l : NoDup (unique l).
Proof.
  induction l as [|a l IH]; simpl; constructor.
  - rewrite filter_In, negb_true_iff, String.eqb_refl. intros [_ H]. discriminate.
  - now apply NoDup_filter.
Qed.

Lemma insert_key_perm x l : Permutation (insert_key x l) (x :: l).
Proof.
  induction l as [|y l IH]; simpl; [apply Permutation_refl|].
  destruct (String.leb x y); [apply Permutation_refl|].
  eapply perm_trans; [apply perm_skip, IH | apply perm_swap].
Qed.

Lemma sort_keys_perm l : Permutation (sort_keys l) l.
Proof.
  unfold sort_keys. induction l as [|x l IH]; simpl; [constructor|].
  eapply perm_trans; [apply insert_key_perm | now apply perm_skip].
Qed.

Lemma group_features_map machine_id group :
  group_features machine_id group = map (feature_of machine_id) group.
Proof. reflexivity. Qed.

(** The groups of [groupby], for the list of keys [keys]. *)
Lemma in_features_of_groups f (L : Rows) keys :
  In f (List.concat (all_features (map (fun k => (k, rows_of k L)) keys)))
  <-> exists k ir, In k keys /\ 3 <= Z.of_nat (List.length (rows_of k L))
                   /\ In ir (rows_of k L) /\ f = feature_of k ir.
Proof.
  induction keys as [|k keys IH]; simpl.
  - split; [contradiction | intros (k & ir & [] & _)].
  - destruct (Z.ltb_spec (Z.of_nat (List.length (rows_of k L))) 3) as [Hlt | Hge].
    + rewrite IH. split.
      * intros (k' & ir & Hk & H). exists k', ir. tauto.
      * intros (k' & ir & [-> | Hk] & H3 & H); [lia|]. exists k', ir. tauto.
    + simpl. rewrite in_app_iff, IH, group_features_map, in_map_iff. split.
      * intros [(ir & Hf & Hir) | (k' & ir & Hk & H)].
        -- exists k, ir. auto.
        -- exists k', ir. tauto.
      * intros (k' & ir & [-> | Hk] & H3 & Hir & Hf).
        -- left. exists ir. auto.
        -- right. exists k', ir. auto.
Qed.

Lemma in_rows_of k (L : Rows) ir :
  In ir (rows_of k L) <-> In ir L /\ Machine_ID (snd ir) = k.
Proof.
  unfold rows_of. rewrite filter_In. now rewrite String.eqb_eq.
Qed.

Lemma features_of_groups_NoDup (L : Rows) keys :
  NoDup (map fst L) -> NoDup keys ->
  NoDup (map Feature.index
           (List.concat (all_features (map (fun k => (k, rows_of k L)) keys)))).
Proof.
  intros HL. induction keys as [|k keys IH]; intros Hk; simpl; [constructor|].
  inversion Hk as [|? ? Hnotin Hk']; subst.
  destruct (Z.of_nat (List.length (rows_of k L)) <? 3); [auto|].
  simpl. rewrite map_app. apply NoDup_app; [| auto |].
  - rewrite group_features_map, map_map. cbn [feature_of Feature.index].
    unfold rows_of. now apply NoDup_map_filter.
  - intros i Hi Hi'.
    rewrite group_features_map, map_map in Hi. cbn [feature_of Feature.index] in Hi.
    apply in_map_iff in Hi as (ir & <- & Hir).
    apply in_map_iff in Hi' as (f & Hf & Hin).
    apply in_features_of_groups in Hin as (k' & ir' & Hk'in & _ & Hir' & ->).
    cbn [feature_of Feature.index] in Hf.
    apply in_rows_of in Hir as [Hir Hkey], Hir' as [Hir' Hkey'].
    assert (ir' = ir) by (eapply NoDup_map_injective; eauto).
    subst ir'. apply Hnotin. congruence.
Qed.

Lemma groupby_groups df grouped :
  groupby df = Ok grouped ->
  exists keys,
    grouped = map (fun k => (k, rows_of k (iterrows df))) keys
    /\ NoDup keys
    /\ forall k, In k keys <-> exists ir, In ir (iterrows df) /\ Machine_ID (snd ir) = k.
Proof.
  unfold groupby, column. destruct (has_column df "Machine_ID"); [|discriminate].
  cbn [bind]. intros H. inversion H; subst; clear H.
  eexists. split; [reflexivity|]. split.
  - apply (Permutation_NoDup (Permutation_sym (sort_keys_perm _))), unique_NoDup.
  - intros k. split.
    + intros Hk. apply (Permutation_in _ (sort_keys_perm _)) in Hk.
      apply in_unique, in_map_iff in Hk as (ir & Hm & Hir). eauto.
    + intros (ir & Hir & Hm).
      apply (Permutation_in _ (Permutation_sym (sort_keys_perm _))).
      apply in_unique, in_map_iff. eauto.
Qed.

Lemma prepare_anomaly_features_groups df feature_df original_df :
  prepare_anomaly_features df = Ok (Some (feature_df, original_df)) ->
  original_df = df
  /\ exists keys,
       feature_df
       = List.concat (all_features (map (fun k => (k, rows_of k (iterrows df))) keys))
       /\ NoDup keys
       /\ forall k, In k keys
                    <-> exists ir, In ir (iterrows df) /\ Machine_ID (snd ir) = k.
Proof.
  unfold prepare_anomaly_features. intros Hprep.
  destruct (df_empty df || (Z.of_nat (List.length (rows df)) <? 5)); [discriminate|].
  destruct (negb (forallb (has_column df) numeric_cols)); [discriminate|].
  destruct (groupby df) as [grouped|e] eqn:Hgroup; [|discriminate].
  cbn [bind] in Hprep.
  destruct (groupby_groups df grouped Hgroup) as (keys & -> & Hnd & Hkeys).
  destruct (all_features _) as [|fs0 fss] eqn:Hall; [discriminate|].
  inversion Hprep; subst. split; [reflexivity|].
  exists keys. split; [rewrite Hall; reflexivity | auto].
Qed.

Lemma prepare_anomaly_features_rows df feature_df original_df :
  prepare_anomaly_features df = Ok (Some (feature_df, original_df)) ->
  original_df = df
  /\ NoDup (map Feature.index feature_df)
  /\ (forall f, In f feature_df ->
        exists r, nth_error (rows df) (Feature.index f) = Some r
                  /\ Machine_ID r = Feature.machine_id f).
Proof.
  intros Hprep.
  destruct (prepare_anomaly_features_groups _ _ _ Hprep) as (Ho & keys & -> & Hnd & Hkeys).
  split; [exact Ho|]. split; [apply features_of_groups_NoDup; [apply iterrows_NoDup | exact Hnd]|].
  intros f Hf. apply in_features_of_groups in Hf as (k & [i r] & _ & _ & Hir & ->).
  apply in_rows_of in Hir as [Hir Hm]. exists r. split; [|exact Hm].
  now apply in_iterrows.
Qed.

(** X7: in the feature frame every record of a machine with at least 3
    records has exactly one feature row, tagged with its machine, and the
    records of the other machines have none; the table handed back is the
    input table. *)
Theorem prepare_anomaly_features_partition df feature_df original_df :
  prepare_anomaly_features df = Ok (Some (feature_df, original_df)) ->
  original_df = df
  /\ NoDup (map Feature.index feature_df)
  /\ (forall f, In f feature_df ->
        exists r, nth_error (rows df) (Feature.index f) = Some r
                  /\ Machine_ID r = Feature.machine_id f)
  /\ (forall i r, nth_error (rows df) i = Some r ->
        (In i (map Feature.index feature_df) <-> 3 <= record_count df (Machine_ID r))).
Proof.
  intros Hprep.
  destruct (prepare_anomaly_features_rows _ _ _ Hprep) as (Ho & Hnd' & Hrow).
  split; [exact Ho|]. split; [exact Hnd'|]. split; [exact Hrow|]. clear Hnd' Hrow.
  destruct (prepare_anomaly_features_groups _ _ _ Hprep) as (_ & keys & -> & Hnd & Hkeys).
  intros i r Hi. pose proof (nth_error_iterrows df i r Hi) as Hin. split.
  - intros Hidx. apply in_map_iff in Hidx as (f & Hfi & Hf).
    apply in_features_of_groups in Hf as (k & [i' r'] & _ & H3 & Hir & ->).
    cbn [feature_of Feature.index fst] in Hfi. subst i'.
    apply in_rows_of in Hir as [Hir Hm]. cbn [snd] in Hm.
    apply in_iterrows in Hir. assert (r' = r) by congruence. subst r'.
    rewrite Hm, <- rows_of_count. exact H3.
  - intros H3. apply in_map_iff. exists (feature_of (Machine_ID r) (i, r)).
    split; [reflexivity|]. apply in_features_of_groups.
    exists (Machine_ID r), (i, r). split; [apply Hkeys; exists (i, r); auto|].
    split; [now rewrite rows_of_count|]. split; [|reflexivity].
    apply in_rows_of. auto.
Qed.

(** *** utils.py *)

Lemma valid_time_fields t :
  valid_time t = true ->
  0 <= hour t < 24 /\ 0 <= minute t < 60 /\ 0 <= second t < 60
  /\ 0 <= microsecond t < 1000000.
Proof.
  unfold valid_time. rewrite !andb_true_iff, !Z.leb_le, !Z.ltb_lt. tauto.
Qed.

Lemma time_leb_hour h t :
  valid_time t = true ->
  time_leb (mkTime h 0 0 0) t = (3600 * h <=? second_of_day t).
Proof.
  intros Hv. apply valid_time_fields in Hv. unfold time_leb, time_compare, second_of_day.
  cbn [hour minute second microsecond].
  destruct (Z.compare_spec h (hour t)); destruct (Z.compare_spec 0 (minute t));
    destruct (Z.compare_spec 0 (second t)); destruct (Z.compare_spec 0 (microsecond t));
    symmetry; (apply Z.leb_le || apply Z.leb_gt); lia.
Qed.

Lemma time_ltb_hour h t :
  valid_time t = true ->
  time_ltb t (mkTime h 0 0 0) = (second_of_day t <? 3600 * h).
Proof.
  intros Hv. apply valid_time_fields in Hv. unfold time_ltb, time_compare, second_of_day.
  cbn [hour minute second microsecond].
  destruct (Z.compare_spec (hour t) h); destruct (Z.compare_spec (minute t) 0);
    destruct (Z.compare_spec (second t) 0); destruct (Z.compare_spec (microsecond t) 0);
    symmetry; (apply Z.ltb_lt || apply Z.ltb_ge); lia.
Qed.

(** X11: the three shifts split the day at 06:00, 14:00 and 22:00: a time
    from 06:00:00 up to 14:00:00 excluded is the morning, from 14:00:00 up
    to 22:00:00 excluded the afternoon, any other the night; a datetime
    counts by its time alone. *)
Theorem get_shift_from_time_windows t day :
  valid_time t = true ->
  get_shift_from_time (a_datetime day t) = get_shift_from_time (a_time t)
  /\ (get_shift_from_time (a_time t) = "Morning"
      <-> 21600 <= second_of_day t < 50400)
  /\ (get_shift_from_time (a_time t) = "Afternoon"
      <-> 50400 <= second_of_day t < 79200)
  /\ (get_shift_from_time (a_time t) = "Night"
      <-> second_of_day t < 21600 \/ 79200 <= second_of_day t).
Proof.
  intros Hv. split; [reflexivity|].
  unfold get_shift_from_time.
  rewrite !time_leb_hour, !time_ltb_hour by assumption.
  change (3600 * 6) with 21600. change (3600 * 14) with 50400.
  change (3600 * 22) with 79200.
  destruct (Z.leb_spec 21600 (second_of_day t)); destruct (Z.ltb_spec (second_of_day t) 50400);
    destruct (Z.leb_spec 50400 (second_of_day t)); destruct (Z.ltb_spec (second_of_day t) 79200);
    cbn [andb]; repeat split; intros; try lia; try discriminate; try reflexivity.
Qed.

(** X12: a duration of an hour or more reads "Hh Mm" with 60 H + M the
    minutes and M below 60; a shorter one reads "Mm"; a negative one loses
    its hours and reads as the remainder of its minutes modulo 60, between
    0 and 59. *)
Theorem format_duration_parts minutes :
  (60 <= minutes ->
   exists h m, 1 <= h /\ 0 <= m < 60 /\ minutes = 60 * h + m
               /\ format_duration minutes
                  = (str_int h ++ "h " ++ str_int m ++ "m")%string)
  /\ (0 <= minutes < 60 -> format_duration minutes = (str_int minutes ++ "m")%string)
  /\ (minutes < 0 ->
      0 <= minutes mod 60 < 60
      /\ format_duration minutes = (str_int (minutes mod 60) ++ "m")%string).
Proof.
  unfold format_duration. cbv zeta.
  pose proof (Z.div_mod minutes 60 ltac:(lia)) as Hdm.
  pose proof (Z.mod_pos_bound minutes 60 ltac:(lia)) as Hm.
  repeat split.
  - intros H. exists (minutes / 60), (minutes mod 60).
    assert (Hh : 1 <= minutes / 60) by (apply Z.div_le_lower_bound; lia).
    repeat split; try lia.
    destruct (Z.ltb_spec 0 (minutes / 60)); [reflexivity | lia].
  - intros H. rewrite Z.div_small, Z.mod_small by lia. reflexivity.
  - lia.
  - lia.
  - assert (Hh : minutes / 60 < 0) by (apply Z.div_lt_upper_bound; lia).
    destruct (Z.ltb_spec 0 (minutes / 60)); [lia | reflexivity].
Qed.

(** *** data_manager.py *)

Lemma unique_length_le l : (List.length (unique l) <= List.length l)%nat.
Proof.
  induction l as [|a l IH]; simpl; [lia|].
  pose proof (filter_length_le (fun y => negb (String.eqb a y)) (unique l)). lia.
Qed.

Lemma nunique_bounds (l : list string) :
  l <> [] -> 1 <= nunique l <= Z.of_nat (List.length l).
Proof.
  intros Hl. unfold nunique. pose proof (unique_length_le l).
  destruct l as [|a l]; [congruence|]. simpl in *. lia.
Qed.

Lemma length_iterrows df : List.length (iterrows df) = List.length (rows df).
Proof.
  rewrite <- (length_map fst), map_fst_iterrows. apply length_seq.
Qed.

Lemma map_snd_iterrows df : map snd (iterrows df) = rows df.
Proof.
  pose proof (filter_snd_combine (fun _ => true) (rows df) 0) as H.
  rewrite (forallb_filter_id (fun ir : nat * ShiftRecord => true)) in H
    by (apply forallb_forall; auto).
  unfold iterrows. rewrite H.
  apply forallb_filter_id, forallb_forall; auto.
Qed.

Lemma full_table_not_empty df : full_table df = true -> rows df <> [] -> df_empty df = false.
Proof.
  intros Hf Hr. unfold df_empty.
  destruct (rows df); [congruence|].
  destruct (columns df) eqn:E; [|reflexivity].
  unfold full_table, has_column in Hf. rewrite E in Hf. discriminate.
Qed.

Lemma percentage_finite a b :
  0 < b -> exists q, fmul (fdiv (of_int a) (of_int b)) (of_int 100) = Fin q
                     /\ ((0 <= a) -> (0 <= q)%Q).
Proof.
  intros Hb. rewrite fdiv_ints by exact Hb. unfold of_int. rewrite fmul_finite.
  eexists. split; [reflexivity|]. intros Ha.
  apply round53_nonneg, Qmult_le_0_compat; [|now apply of_int_nonneg].
  apply round53_nonneg, Qdiv_nonneg; [now apply of_int_nonneg | now apply of_int_positive].
Qed.

Lemma valid_table_total (field : ShiftRecord -> Z) df :
  valid_table df = true ->
  (forall r, valid_record r = true -> 0 <= field r) ->
  0 <= table_total field df.
Proof.
  intros Hv Hfield. apply Zsum_nonneg, Forall_forall.
  intros z Hz. apply in_map_iff in Hz as (r & <- & Hr).
  apply Hfield. unfold valid_table in Hv. rewrite forallb_forall in Hv. auto.
Qed.

Lemma int_sum_total (field : ShiftRecord -> Z) df :
  int_sum (map field (rows df)) = wrap64 (table_total field df).
Proof. apply int_sum_wrap. Qed.

Lemma wrap64_fits z : fits_int64 z = true -> wrap64 z = z.
Proof.
  intros H. apply fits_int64_spec in H. unfold wrap64.
  rewrite Z.mod_small; lia.
Qed.

(** X13: the summary of a table without rows is the empty dictionary; for
    any other table it holds the totals, each the sum of its column wrapped
    around as an int64, an efficiency and a defect rate that are finite
    numbers (0 when the total they divide by is not positive), not negative
    on a table that respects the data model and whose sums of output and of
    defects fit in an int64, and between 1 and the number of records as the
    counts of machines and of operators. *)
Theorem get_production_stats_summary df :
  full_table df = true ->
  (rows df = [] -> get_production_stats df = Ok None)
  /\ (rows df <> [] ->
      exists st e d,
        get_production_stats df = Ok (Some st)
        /\ total_production st = wrap64 (table_total Actual_Output df)
        /\ stats_total_defects st = wrap64 (table_total Defects df)
        /\ total_downtime st = wrap64 (table_total Downtime_Minutes df)
        /\ stats_efficiency st = Fin e /\ stats_defect_rate st = Fin d
        /\ (wrap64 (table_total Target_Output df) <= 0 -> e = 0%Q)
        /\ (wrap64 (table_total Actual_Output df) <= 0 -> d = 0%Q)
        /\ (valid_table df = true ->
            fits_int64 (table_total Actual_Output df) = true ->
            fits_int64 (table_total Defects df) = true ->
            total_production st = table_total Actual_Output df
            /\ stats_total_defects st = table_total Defects df
            /\ (0 <= e)%Q /\ (0 <= d)%Q)
        /\ 1 <= machines st <= Z.of_nat (List.length (rows df))
        /\ 1 <= operators st <= Z.of_nat (List.length (rows df))).
Proof.
  intros Hf. split.
  - intros Hr. unfold get_production_stats, df_empty. rewrite Hr.
    destruct (columns df); reflexivity.
  - intros Hr. unfold get_production_stats.
    rewrite (full_table_not_empty df Hf Hr).
    rewrite !column_full by (auto; in_columns). cbn [bind].
    rewrite (map_field_rows Actual_Output), (map_field_rows Defects),
      (map_field_rows Downtime_Minutes), (map_field_rows Target_Output),
      (map_field_rows Machine_ID), (map_field_rows Operator_Name), map_snd_iterrows.
    rewrite !int_sum_total.
    set (A := wrap64 (table_total Actual_Output df)).
    set (T := wrap64 (table_total Target_Output df)).
    set (D := wrap64 (table_total Defects df)).
    assert (Hnn : valid_table df = true ->
                  fits_int64 (table_total Actual_Output df) = true ->
                  fits_int64 (table_total Defects df) = true ->
                  A = table_total Actual_Output df /\ D = table_total Defects df
                  /\ 0 <= A /\ 0 <= D).
    { intros Hv HA HD. unfold A, D. rewrite !wrap64_fits by assumption.
      repeat split; apply valid_table_total; try assumption;
        intros r Hr'; apply valid_record_fields in Hr'; tauto. }
    assert (He : exists e, (if 0 <? T then fmul (fdiv (of_int A) (of_int T)) (of_int 100)
                            else of_int 0) = Fin e
                           /\ (T <= 0 -> e = 0%Q)
                           /\ (0 <= A -> (0 <= e)%Q)).
    { destruct (Z.ltb_spec 0 T) as [HT | HT].
      - destruct (percentage_finite A T HT) as (q & -> & Hq).
        exists q. split; [reflexivity|]. split; [lia | exact Hq].
      - exists 0%Q. split; [reflexivity|]. split; [reflexivity | intros; apply Qle_refl]. }
    assert (Hd : exists d, (if 0 <? A then fmul (fdiv (of_int D) (of_int A)) (of_int 100)
                            else of_int 0) = Fin d
                           /\ (A <= 0 -> d = 0%Q)
                           /\ (0 <= D -> (0 <= d)%Q)).
    { destruct (Z.ltb_spec 0 A) as [HA | HA].
      - destruct (percentage_finite D A HA) as (q & -> & Hq).
        exists q. split; [reflexivity|]. split; [lia | exact Hq].
      - exists 0%Q. split; [reflexivity|]. split; [reflexivity | intros; apply Qle_refl]. }
    destruct He as (e & He & He0 & Hepos). destruct Hd as (d & Hd & Hd0 & Hdpos).
    eexists. exists e, d. split; [reflexivity|].
    cbn [total_production stats_total_defects total_downtime stats_efficiency
           stats_defect_rate machines operators].
    split; [reflexivity|]. split; [reflexivity|]. split; [reflexivity|].
    split; [exact He|]. split; [exact Hd|]. split; [exact He0|]. split; [exact Hd0|].
    split.
    { intros Hv HA HD. destruct (Hnn Hv HA HD) as (EA & ED & HA0 & HD0).
      split; [exact EA|]. split; [exact ED|]. split; [now apply Hepos | now apply Hdpos]. }
    split.
    + pose proof (nunique_bounds (map Machine_ID (rows df))) as H.
      rewrite length_map in H. apply H. destruct (rows df); [congruence | discriminate].
    + pose proof (nunique_bounds (map Operator_Name (rows df))) as H.
      rewrite length_map in H. apply H. destruct (rows df); [congruence | discriminate].
Qed.

Lemma in_values_rows df m :
  in_values m (map (fun ir => Machine_ID (snd ir)) (iterrows df)) = true
  <-> rows_of m (iterrows df) <> [].
Proof.
  unfold in_values. rewrite existsb_exists. split.
  - intros (x & Hx & Heq). apply in_map_iff in Hx as (ir & <- & Hir).
    apply String.eqb_eq in Heq.
    assert (Hin : In ir (rows_of m (iterrows df))) by (apply in_rows_of; auto).
    intros Hnil. rewrite Hnil in Hin. contradiction.
  - intros Hne. destruct (rows_of m (iterrows df)) as [|ir t] eqn:E; [congruence|].
    assert (Hin : In ir (rows_of m (iterrows df))) by (rewrite E; simpl; auto).
    apply in_rows_of in Hin as [Hin Hm].
    exists (Machine_ID (snd ir)). split; [now apply in_map_iff; exists ir|].
    apply String.eqb_eq. auto.
Qed.

(** X14: [get_machine_data] returns the records of the machine, in table
    order and under the columns of the table; for a machine without records
    it returns the frame without rows and without columns, so that reading
    any column of the answer raises. *)
Theorem get_machine_data_rows df m :
  has_column df "Machine_ID" = true ->
  exists fr,
    get_machine_data df m = Ok fr
    /\ map snd (frows fr) = machine_records df m
    /\ (1 <= record_count df m -> fcolumns fr = columns df)
    /\ (record_count df m = 0 -> fr = empty_frame).
Proof.
  intros Hc. unfold get_machine_data, select_machine, column. rewrite Hc. cbn [bind].
  pose proof (in_values_rows df m) as Hin. rewrite <- rows_of_count.
  destruct (in_values m _) eqn:E.
  - eexists. split; [reflexivity|]. cbn [frows fcolumns].
    split; [apply rows_of_records|]. split; [reflexivity|].
    intros H0. exfalso. apply (proj1 Hin eq_refl).
    destruct (rows_of m (iterrows df)); [reflexivity | simpl in H0; lia].
  - exists empty_frame. split; [reflexivity|].
    assert (Hnil : rows_of m (iterrows df) = []).
    { destruct (rows_of m (iterrows df)) eqn:E'; [reflexivity|].
      assert (false = true) by (apply Hin; discriminate).
      discriminate. }
    split; [now rewrite <- rows_of_records, Hnil|].
    split; [rewrite Hnil; simpl; lia | reflexivity].
Qed.

(** X19: [get_operator_data] returns the records of the operator, in table
    order and under the columns of the table; for an operator without
    records it returns the frame without rows and without columns. *)
Theorem get_operator_data_rows df name :
  has_column df "Operator_Name" = true ->
  exists fr,
    get_operator_data df name = Ok fr
    /\ map snd (frows fr) = operator_records df name
    /\ (operator_records df name <> [] -> fcolumns fr = columns df)
    /\ (operator_records df name = [] -> fr = empty_frame).
Proof.
  intros Hc. unfold get_operator_data, column. rewrite Hc. cbn [bind].
  assert (Hsel : map snd (filter (fun ir : nat * ShiftRecord =>
                                    String.eqb (Operator_Name (snd ir)) name)
                                 (iterrows df))
                 = operator_records df name).
  { unfold iterrows, operator_records.
    apply (filter_snd_combine (fun r => String.eqb (Operator_Name r) name)). }
  assert (Hin : in_values name (map (fun ir => Operator_Name (snd ir)) (iterrows df))
                = negb (match operator_records df name with [] => true | _ => false end)).
  { clear Hsel. unfold in_values, operator_records. rewrite <- (map_snd_iterrows df).
    induction (iterrows df) as [|ir l IH]; [reflexivity|].
    cbn [map existsb filter]. rewrite String.eqb_sym.
    destruct (String.eqb (Operator_Name (snd ir)) name); [reflexivity|].
    exact IH. }
  rewrite Hin. destruct (operator_records df name) as [|r0 rest] eqn:E; cbn [negb].
  - exists empty_frame. split; [reflexivity|]. split; [reflexivity|].
    split; [intros H; congruence | reflexivity].
  - eexists. split; [reflexivity|]. cbn [frows fcolumns].
    split; [rewrite Hsel; reflexivity|]. split; [reflexivity | discriminate].
Qed.

(** **** The latest downtime reasons *)

Lemma timestamp_ltb_spec a b :
  timestamp_ltb a b = true <-> (fst a < fst b \/ (fst a = fst b /\ snd a < snd b)).
Proof.
  unfold timestamp_ltb.
  rewrite orb_true_iff, andb_true_iff, !Z.ltb_lt, Z.eqb_eq. tauto.
Qed.

Lemma not_older_spec a b :
  not_older a b <->
  ~ (fst (Timestamp a) < fst (Timestamp b)
     \/ (fst (Timestamp a) = fst (Timestamp b) /\ snd (Timestamp a) < snd (Timestamp b))).
Proof.
  unfold not_older. rewrite <- timestamp_ltb_spec.
  destruct (timestamp_ltb (Timestamp a) (Timestamp b)); split; congruence.
Qed.

Lemma insert_latest_perm x l : Permutation (insert_latest x l) (x :: l).
Proof.
  induction l as [|y l IH]; simpl; [apply Permutation_refl|].
  destruct (timestamp_ltb _ _); [apply Permutation_refl|].
  eapply perm_trans; [apply perm_skip, IH | apply perm_swap].
Qed.

Lemma sort_latest_first_perm l : Permutation (sort_latest_first l) l.
Proof.
  unfold sort_latest_first.
  assert (H : forall acc, Permutation (fold_left (fun a x => insert_latest x a) l acc)
                                      (l ++ acc)).
  { induction l as [|x l IH]; intros acc; simpl; [apply Permutation_refl|].
    eapply perm_trans; [apply IH|].
    eapply perm_trans; [apply Permutation_app_head, insert_latest_perm|].
    symmetry. apply Permutation_middle. }
  specialize (H []). now rewrite app_nil_r in H.
Qed.

Lemma insert_latest_sorted x l :
  StronglySorted (fun a b => not_older (snd a) (snd b)) l ->
  StronglySorted (fun a b => not_older (snd a) (snd b)) (insert_latest x l).
Proof.
  induction 1 as [|y l Hl IH Hy]; simpl.
  - constructor; constructor.
  - destruct (timestamp_ltb (Timestamp (snd y)) (Timestamp (snd x))) eqn:Hlt.
    + constructor; [constructor; assumption|].
      apply timestamp_ltb_spec in Hlt.
      constructor.
      * apply not_older_spec. lia.
      * rewrite Forall_forall in *. intros z Hz. specialize (Hy z Hz).
        apply not_older_spec in Hy. apply not_older_spec. lia.
    + constructor; [exact IH|].
      apply (Permutation_Forall (Permutation_sym (insert_latest_perm x l))).
      constructor; assumption.
Qed.

Lemma sort_latest_first_sorted l :
  StronglySorted (fun a b => not_older (snd a) (snd b)) (sort_latest_first l).
Proof.
  unfold sort_latest_first.
  assert (H : forall acc,
             StronglySorted (fun a b => not_older (snd a) (snd b)) acc ->
             StronglySorted (fun a b => not_older (snd a) (snd b))
               (fold_left (fun a x => insert_latest x a) l acc)).
  { induction l as [|x l IH]; intros acc Hacc; simpl; [exact Hacc|].
    apply IH, insert_latest_sorted, Hacc. }
  apply H. constructor.
Qed.

Lemma sorted_firstn {A : Type} (R : A -> A -> Prop) n (l : list A) :
  StronglySorted R l ->
  StronglySorted R (firstn n l)
  /\ forall x y, In x (firstn n l) -> In y (skipn n l) -> R x y.
Proof.
  intros Hs. revert n. induction Hs as [|a l Hl IH Ha]; intros n.
  - rewrite firstn_nil, skipn_nil. split; [constructor | contradiction].
  - destruct n as [|n]; simpl.
    + split; [constructor | contradiction].
    + destruct (IH n) as [Hsorted Hcross]. split.
      * constructor; [exact Hsorted|].
        rewrite Forall_forall in *. intros x Hx. apply Ha.
        rewrite <- (firstn_skipn n l). apply in_or_app. now left.
      * intros x y [<- | Hx] Hy; [|now apply Hcross].
        rewrite Forall_forall in Ha. apply Ha.
        rewrite <- (firstn_skipn n l). apply in_or_app. now right.
Qed.

(** X15: the latest downtime reasons are at most [limit] entries, each
    taken from a record with downtime and a reason, the latest first; a
    record with downtime and a reason that is left out is not later than
    any entry returned. *)
Theorem get_recent_downtime_reasons_latest df limit :
  full_table df = true -> 0 <= limit ->
  exists recs,
    get_recent_downtime_reasons df limit = Ok (map entry_of recs)
    /\ Z.of_nat (List.length recs) <= limit
    /\ (forall r, In r recs -> In r (rows df) /\ has_downtime_reason r = true)
    /\ StronglySorted not_older recs
    /\ (forall r, In r (rows df) -> has_downtime_reason r = true ->
          In r recs \/ forall r', In r' recs -> not_older r' r).
Proof.
  intros Hf Hlimit. unfold get_recent_downtime_reasons.
  destruct (df_empty df) eqn:Hempty.
  { exists []. cbn [orb map List.length]. split; [reflexivity|]. split; [simpl; lia|].
    split; [contradiction|]. split; [constructor|].
    intros r Hr _. exfalso. unfold df_empty in Hempty.
    destruct (columns df) eqn:Ec.
    - unfold full_table, has_column in Hf. rewrite Ec in Hf. discriminate.
    - destruct (rows df); [contradiction | discriminate]. }
  rewrite (has_column_full df "Downtime_Reason" Hf) by in_columns. cbn [orb negb].
  rewrite column_full by (auto; in_columns). cbn [bind].
  set (qualifying := filter (fun ir => (0 <? Downtime_Minutes (snd ir))
                                       && negb (String.eqb (Downtime_Reason (snd ir)) ""))
                            (iterrows df)).
  assert (Hqual : forall r, In r (rows df) -> has_downtime_reason r = true ->
                            In r (map snd qualifying)).
  { intros r Hr Hq. rewrite <- map_snd_iterrows in Hr.
    apply in_map_iff in Hr as (ir & <- & Hir). apply in_map.
    apply filter_In. split; [exact Hir | exact Hq]. }
  assert (Hfrom : forall ir, In ir qualifying ->
                             In (snd ir) (rows df) /\ has_downtime_reason (snd ir) = true).
  { intros ir Hir. apply filter_In in Hir as [Hir Hq]. split; [|exact Hq].
    rewrite <- map_snd_iterrows. now apply in_map. }
  destruct qualifying as [|q0 qs] eqn:Eq.
  { exists []. split; [reflexivity|]. split; [simpl; lia|].
    split; [contradiction|]. split; [constructor|].
    intros r Hr Hq. exfalso. apply (Hqual r Hr Hq). }
  rewrite <- Eq in *. clear Eq q0 qs.
  rewrite column_full by (auto; in_columns). cbn [bind].
  assert (Hreq : require_columns df
                   [ "Date"; "Machine_ID"; "Downtime_Minutes"; "Downtime_Reason" ] = Ok tt).
  { unfold require_columns. cbn [filter].
    rewrite !(has_column_full df _ Hf) by in_columns. reflexivity. }
  rewrite Hreq. cbn [bind].
  unfold head. apply Z.leb_le in Hlimit. rewrite Hlimit. apply Z.leb_le in Hlimit.
  set (sorted := sort_latest_first qualifying).
  pose proof (sort_latest_first_perm qualifying) as Hperm. fold sorted in Hperm.
  pose proof (sort_latest_first_sorted qualifying) as Hsorted. fold sorted in Hsorted.
  destruct (sorted_firstn _ (Z.to_nat limit) sorted Hsorted) as [Hfirst Hcross].
  exists (map snd (firstn (Z.to_nat limit) sorted)).
  split; [now rewrite map_map|].
  split; [rewrite length_map, length_firstn; lia|].
  split.
  { intros r Hr. apply in_map_iff in Hr as (ir & <- & Hir). apply Hfrom.
    apply (Permutation_in _ Hperm). rewrite <- (firstn_skipn (Z.to_nat limit) sorted).
    apply in_or_app. now left. }
  split.
  { clear - Hfirst. induction Hfirst as [|a l Hl IH Ha]; simpl; constructor; [exact IH|].
    rewrite Forall_forall in *. intros r Hr. apply in_map_iff in Hr as (y & <- & Hy). auto. }
  intros r Hr Hq. specialize (Hqual r Hr Hq).
  apply in_map_iff in Hqual as (ir & <- & Hir).
  apply (Permutation_in _ (Permutation_sym Hperm)) in Hir.
  rewrite <- (firstn_skipn (Z.to_nat limit) sorted) in Hir.
  apply in_app_or in Hir as [Hir | Hir].
  - left. now apply in_map.
  - right. intros r' Hr'. apply in_map_iff in Hr' as (ir' & <- & Hir'). now apply Hcross.
Qed.

(** **** Searching the records *)

Section SearchProperties.

Variable str_contains : string -> result (string -> bool).

Lemma filter_NoDup_labels (p : nat * ShiftRecord -> bool) (l : Rows) :
  NoDup (map fst l) -> NoDup (map fst (filter p l)).
Proof. apply NoDup_map_filter. Qed.

Lemma filter_twice {A} (p q : A -> bool) (l : list A) :
  filter q (filter p l) = filter (fun x => p x && q x) l.
Proof.
  induction l as [|a l IH]; [reflexivity|]. cbn [filter].
  destruct (p a); cbn [filter andb]; [destruct (q a)|]; now rewrite IH.
Qed.

(** X16: when the patterns given compile, the search returns, under the
    columns of the table and in table order, exactly the records that meet
    every criterion given: the date and the shift as they are, the machine
    and the operator by the pattern; a criterion that is absent or empty
    does not count, and without any the whole table comes back. *)
Theorem search_data_criteria df date shift machine_id operator_name
    (machine_matches operator_matches : string -> bool) :
  full_table df = true ->
  (forall pat, given machine_id = Some pat -> str_contains pat = Ok machine_matches) ->
  (forall pat, given operator_name = Some pat -> str_contains pat = Ok operator_matches) ->
  exists fr,
    search_data str_contains df date shift machine_id operator_name = Ok fr
    /\ fcolumns fr = columns df
    /\ NoDup (map fst (frows fr))
    /\ (exists keep, frows fr = filter keep (iterrows df))
    /\ (forall ir, In ir (frows fr) <->
          In ir (iterrows df)
          /\ (forall d, date = Some d -> Date (snd ir) = d)
          /\ (forall s, given shift = Some s -> Shift (snd ir) = s)
          /\ (forall pat, given machine_id = Some pat ->
                machine_matches (Machine_ID (snd ir)) = true)
          /\ (forall pat, given operator_name = Some pat ->
                operator_matches (Operator_Name (snd ir)) = true))
    /\ (date = None -> given shift = None -> given machine_id = None ->
        given operator_name = None -> fr = frame_of df).
Proof.
  intros Hf Hm Ho. unfold search_data.
  set (p1 := fun ir : nat * ShiftRecord =>
               match date with Some d => Date (snd ir) =? d | None => true end).
  set (p2 := fun ir : nat * ShiftRecord =>
               match given shift with
               | Some s => String.eqb (Shift (snd ir)) s | None => true end).
  set (p3 := fun ir : nat * ShiftRecord =>
               match given machine_id with
               | Some _ => machine_matches (Machine_ID (snd ir)) | None => true end).
  set (p4 := fun ir : nat * ShiftRecord =>
               match given operator_name with
               | Some _ => operator_matches (Operator_Name (snd ir)) | None => true end).
  assert (Hall : forall (l : Rows), filter (fun _ => true) l = l).
  { intros l. apply forallb_filter_id, forallb_forall. auto. }
  assert (H1 : match date with
               | Some d =>
                   _ <- column df "Date" Date (iterrows df) ;;
                   Ok (filter (fun ir => Date (snd ir) =? d) (iterrows df))
               | None => Ok (iterrows df)
               end = Ok (filter p1 (iterrows df))).
  { unfold p1. destruct date; [|now rewrite Hall].
    rewrite column_full by (auto; in_columns). reflexivity. }
  rewrite H1. cbn [bind].
  assert (H2 : forall l : Rows,
             match given shift with
             | Some s =>
                 _ <- column df "Shift" Shift l ;;
                 Ok (filter (fun ir => String.eqb (Shift (snd ir)) s) l)
             | None => Ok l
             end = Ok (filter p2 l)).
  { intros l. unfold p2. destruct (given shift); [|now rewrite Hall].
    rewrite column_full by (auto; in_columns). reflexivity. }
  rewrite H2. cbn [bind].
  assert (H3 : forall l : Rows,
             match given machine_id with
             | Some pat =>
                 _ <- column df "Machine_ID" Machine_ID l ;;
                 matches <- str_contains pat ;;
                 Ok (filter (fun ir => matches (Machine_ID (snd ir))) l)
             | None => Ok l
             end = Ok (filter p3 l)).
  { intros l. unfold p3. destruct (given machine_id) as [pat|]; [|now rewrite Hall].
    rewrite column_full by (auto; in_columns). cbn [bind].
    rewrite (Hm pat eq_refl). reflexivity. }
  rewrite H3. cbn [bind].
  assert (H4 : forall l : Rows,
             match given operator_name with
             | Some pat =>
                 _ <- column df "Operator_Name" Operator_Name l ;;
                 matches <- str_contains pat ;;
                 Ok (filter (fun ir => matches (Operator_Name (snd ir))) l)
             | None => Ok l
             end = Ok (filter p4 l)).
  { intros l. unfold p4. destruct (given operator_name) as [pat|]; [|now rewrite Hall].
    rewrite column_full by (auto; in_columns). cbn [bind].
    rewrite (Ho pat eq_refl). reflexivity. }
  rewrite H4. cbn [bind].
  eexists. split; [reflexivity|]. cbn [fcolumns frows].
  split; [reflexivity|].
  split; [repeat apply filter_NoDup_labels; apply iterrows_NoDup|].
  split.
  { exists (fun ir => p1 ir && p2 ir && p3 ir && p4 ir).
    rewrite !filter_twice. apply filter_ext. intros ir.
    destruct (p1 ir), (p2 ir), (p3 ir), (p4 ir); reflexivity. }
  split.
  { intros ir. rewrite !filter_In. unfold p1, p2, p3, p4. split.
    - intros ((((Hin & Hd) & Hs) & Hmm) & Hoo). split; [exact Hin|].
      split; [intros d ->; now apply Z.eqb_eq|].
      split; [intros s Hg; rewrite Hg in Hs; now apply String.eqb_eq|].
      split; [intros pat Hg; now rewrite Hg in Hmm|].
      intros pat Hg. now rewrite Hg in Hoo.
    - intros (Hin & Hd & Hs & Hmm & Hoo). repeat split; [exact Hin | | | |].
      + destruct date as [d|]; [apply Z.eqb_eq; auto | reflexivity].
      + destruct (given shift) as [s|]; [apply String.eqb_eq; auto | reflexivity].
      + destruct (given machine_id) as [pat|]; [eapply Hmm; eauto | reflexivity].
      + destruct (given operator_name) as [pat|]; [eapply Hoo; eauto | reflexivity]. }
  intros Hd Hs Hmm Hoo. unfold p1, p2, p3, p4. rewrite Hd, Hs, Hmm, Hoo.
  rewrite !Hall. reflexivity.
Qed.

(** X17: a machine or operator criterion that is not a valid regular
    expression makes the search raise the error of the compilation: it is
    not taken as plain text and nothing catches it. *)
Theorem search_data_bad_pattern df date shift machine_id operator_name pat e :
  full_table df = true ->
  (given machine_id = Some pat
   \/ (given machine_id = None /\ given operator_name = Some pat)) ->
  str_contains pat = Raise e ->
  search_data str_contains df date shift machine_id operator_name = Raise e.
Proof.
  intros Hf Hpat He. unfold search_data.
  assert (H1 : exists l1,
             match date with
             | Some d =>
                 _ <- column df "Date" Date (iterrows df) ;;
                 Ok (filter (fun ir => Date (snd ir) =? d) (iterrows df))
             | None => Ok (iterrows df)
             end = Ok l1).
  { destruct date; [|eauto]. rewrite column_full by (auto; in_columns). cbn [bind]. eauto. }
  destruct H1 as (l1 & ->). cbn [bind].
  assert (H2 : exists l2,
             match given shift with
             | Some s =>
                 _ <- column df "Shift" Shift l1 ;;
                 Ok (filter (fun ir => String.eqb (Shift (snd ir)) s) l1)
             | None => Ok l1
             end = Ok l2).
  { destruct (given shift); [|eauto].
    rewrite column_full by (auto; in_columns). cbn [bind]. eauto. }
  destruct H2 as (l2 & ->). cbn [bind].
  destruct Hpat as [Hm | [Hm Ho]]; rewrite Hm.
  - rewrite column_full by (auto; in_columns). cbn [bind]. rewrite He. reflexivity.
  - cbn [bind]. rewrite Ho.
    rewrite column_full by (auto; in_columns). cbn [bind]. rewrite He. reflexivity.
Qed.

End SearchProperties.

(** *** import_data.py *)

Lemma new_record_ok sheet row :
  complete_sheet sheet = true ->
  exists r, new_record sheet row = Ok r /\ imported row r.
Proof.
  intros Hc. unfold new_record.
  destruct (find _ sheet_cells) as [c|] eqn:E.
  - apply find_some in E as [Hin Hneg].
    unfold complete_sheet in Hc. rewrite forallb_forall in Hc.
    rewrite (Hc c Hin) in Hneg. discriminate.
  - eexists. split; [reflexivity|]. unfold imported. cbn. repeat split.
Qed.

Lemma import_records_ok sheet todo :
  complete_sheet sheet = true ->
  exists records, import_records sheet todo = Ok records /\ Forall2 imported todo records.
Proof.
  intros Hc. induction todo as [|row rest IH].
  - exists []. split; [reflexivity | constructor].
  - destruct (new_record_ok sheet row Hc) as (r & Hr & Hi).
    destruct IH as (records & Hrec & Hall).
    exists (r :: records). cbn [import_records]. rewrite Hr. cbn [bind].
    rewrite Hrec. cbn [bind]. split; [reflexivity | now constructor].
Qed.

Lemma Forall2_length_eq {A B} (R : A -> B -> Prop) l l' :
  Forall2 R l l' -> List.length l' = List.length l.
Proof. induction 1; simpl; congruence. Qed.

Lemma imported_midnight todo records :
  Forall2 imported todo records ->
  Forall (fun r => DateTime r = 86400 * Date r) records.
Proof.
  induction 1 as [|row r todo records Hi _ IH]; constructor; [|exact IH].
  unfold imported in Hi. unfold DateTime.
  destruct Hi as (Hd & _ & _ & _ & _ & _ & _ & _ & _ & _ & _ & _ & Ht).
  rewrite Ht, Hd. cbn [snd]. lia.
Qed.

(** X20: a sheet that is read and has every column asked for (or no row)
    is always reported as imported, with the number of its rows, whether
    the data file could be written or not.  When the write succeeds the
    data file is replaced by the records of the sheet alone, row by row,
    each stamped at midnight of its day, and nothing is printed; when it
    fails the data file stays as it was and the failure is only printed. *)
Theorem import_hourly_sheet_data_success fs sheet :
  import_file fs = Some (Ok sheet) ->
  (sheet_rows sheet = [] \/ complete_sheet sheet = true) ->
  exists records,
    Forall2 imported (sheet_rows sheet) records
    /\ Forall (fun r => DateTime r = 86400 * Date r) records
    /\ (records <> [] -> full_table (data_frame_of records) = true)
    /\ fst (import_hourly_sheet_data fs)
       = (true, ("Successfully imported "
                 ++ str_int (Z.of_nat (List.length (sheet_rows sheet)))
                 ++ " records")%string)
    /\ (write_error fs = None ->
        data_file (snd (import_hourly_sheet_data fs)) = Some (data_frame_of records)
        /\ printed (snd (import_hourly_sheet_data fs)) = printed fs)
    /\ (forall e, write_error fs = Some e ->
        data_file (snd (import_hourly_sheet_data fs)) = data_file fs
        /\ printed (snd (import_hourly_sheet_data fs))
           = printed fs ++ [ ("Error saving data: " ++ str_exn e)%string ]).
Proof.
  intros Hfile Hsheet.
  assert (Hrec : exists records,
             import_records sheet (sheet_rows sheet) = Ok records
             /\ Forall2 imported (sheet_rows sheet) records).
  { destruct Hsheet as [Hnil | Hc].
    - rewrite Hnil. exists []. split; [reflexivity | constructor].
    - apply import_records_ok, Hc. }
  destruct Hrec as (records & Hrec & Hall).
  exists records. split; [exact Hall|].
  split; [eapply imported_midnight; eauto|].
  split; [destruct records; [congruence | reflexivity]|].
  unfold import_hourly_sheet_data. rewrite Hfile. cbn [bind]. rewrite Hrec.
  rewrite (Forall2_length_eq _ _ _ Hall). cbn [fst snd].
  split; [reflexivity|]. unfold save_data.
  split.
  - intros ->. cbn [snd data_file printed]. split; reflexivity.
  - intros e ->. cbn [snd data_file printed]. split; reflexivity.
Qed.

(** X21: the import never lets an error out and, when it fails, touches
    nothing: a missing sheet, a sheet that cannot be read and a sheet with
    rows that lacks a column asked for are each answered by [False] and a
    message, the last naming a missing column, with the data file and the
    output as they were. *)
Theorem import_hourly_sheet_data_failure fs :
  (import_file fs = None ->
   import_hourly_sheet_data fs = ((false, "Import file not found"%string), fs))
  /\ (forall e, import_file fs = Some (Raise e) ->
      import_hourly_sheet_data fs
      = ((false, ("Error importing data: " ++ str_exn e)%string), fs))
  /\ (forall sheet, import_file fs = Some (Ok sheet) ->
      sheet_rows sheet <> [] -> complete_sheet sheet = false ->
      exists c, In c sheet_cells /\ sheet_has sheet c = false
                /\ import_hourly_sheet_data fs
                   = ((false, ("Error importing data: '" ++ c ++ "'")%string), fs)).
Proof.
  unfold import_hourly_sheet_data. split; [intros ->; reflexivity|].
  split; [intros e ->; reflexivity|].
  intros sheet -> Hrows Hc. cbn [bind].
  destruct (find (fun c => negb (sheet_has sheet c)) sheet_cells) as [c|] eqn:E.
  - pose proof (find_some _ _ E) as [Hin Hneg].
    exists c. split; [exact Hin|].
    split; [now destruct (sheet_has sheet c)|].
    destruct (sheet_rows sheet) as [|row rest]; [congruence|].
    cbn [import_records]. unfold new_record. rewrite E. reflexivity.
  - exfalso. unfold complete_sheet in Hc.
    assert (Htrue : forallb (sheet_has sheet) sheet_cells = true).
    { apply forallb_forall. intros c Hin.
      pose proof (find_none _ _ E c Hin) as Hn. cbn beta in Hn.
      destruct (sheet_has sheet c); [reflexivity | discriminate Hn]. }
    congruence.
Qed.


(** *** The effectful analytics, further *)

(** X1: for a machine with history the four contributions are capped at
    30, 20, 40 and 10, so their sum never exceeds 100: the score is that
    sum and the final [min(score, 100)] never binds.  The efficiency and
    the defect rate are those of the int64 column sums, as doubles, and the
    recent records those the sort leaves last. *)
Theorem predict_downtime_cap_inactive df m w :
  full_table df = true -> 1 <= record_count df m ->
  exists e d,
    to_int (fmul (fsub (of_int 1) (guarded_efficiency df m)) (of_int 100)) = Ok e
    /\ to_int (fmul (guarded_defect_rate df m) (of_int 100)) = Ok d
    /\ fst (predict_downtime randbelow df m w)
       = Ok (Z.min (10 * downtime_count df m) 30
             + (if recent_downtime df m then 20 else 0)
             + clamp 0 40 e + Z.min d 10,
             horizon_of (record_count df m))
    /\ Z.min (10 * downtime_count df m) 30
       + (if recent_downtime df m then 20 else 0)
       + clamp 0 40 e + Z.min d 10 <= 100.
Proof.
  intros Hf Hn.
  destruct (predict_downtime_known df m w Hf Hn) as (e & d & He & Hd & Hrun).
  exists e, d. split; [exact He|]. split; [exact Hd|].
  assert (Hle : Z.min (10 * downtime_count df m) 30
                + (if recent_downtime df m then 20 else 0)
                + clamp 0 40 e + Z.min d 10 <= 100).
  { unfold clamp. destruct (recent_downtime df m); lia. }
  split; [|exact Hle].
  rewrite Hrun. cbn [fst]. now rewrite Z.min_l by exact Hle.
Qed.

(** X5: for a machine with history the risk scorer draws no random number
    and prints nothing, and leaves a readable model file behind, whether the
    file was absent, readable or unreadable before; for a machine without
    history it draws twice and neither reads nor writes the model file. *)
Theorem predict_downtime_world df m w :
  full_table df = true ->
  (1 <= record_count df m ->
   rng (snd (predict_downtime randbelow df m w)) = rng w
   /\ model_file (snd (predict_downtime randbelow df m w)) = Some true
   /\ stdout (snd (predict_downtime randbelow df m w)) = stdout w)
  /\ (record_count df m = 0 ->
      rng (snd (predict_downtime randbelow df m w))
      = snd (randbelow 5 (snd (randbelow 81 (rng w))))
      /\ model_file (snd (predict_downtime randbelow df m w)) = model_file w
      /\ stdout (snd (predict_downtime randbelow df m w)) = stdout w).
Proof.
  intros Hf. split.
  - intros Hn.
    destruct (predict_downtime_returns df m Hf Hn) as (f & score & _ & _ & Hrun).
    rewrite Hrun. repeat split.
  - intros Hn.
    unfold predict_downtime, prepare_machine_features, bindM, lift.
    rewrite select_machine_full by assumption. cbn [bind].
    rewrite <- rows_of_count in Hn.
    destruct (rows_of m (iterrows df)) as [|ir rest]; [|simpl in Hn; lia].
    unfold randint, choice, ret, set_rng.
    change (90 - 10 + 1) with 81.
    destruct (randbelow 81 (rng w)) as [k s]. cbn [rng model_file stdout snd].
    change (Z.of_nat (List.length [2; 4; 8; 12; 24])) with 5.
    destruct (randbelow 5 s) as [j s']. cbn [snd].
    destruct (nth_error [2; 4; 8; 12; 24] (Z.to_nat j)); repeat split.
Qed.

(** X4: without a [Machine_ID] column the risk scorer and the target
    advisor raise [KeyError] and leave the world as it was; so does the
    anomaly engine once the table has 5 rows and the five numeric columns. *)
Theorem missing_machine_id_column df m w :
  has_column df "Machine_ID" = false ->
  predict_downtime randbelow df m w = (Raise (KeyError "Machine_ID"), w)
  /\ predict_production_targets df m = Raise (KeyError "Machine_ID")
  /\ (df_empty df = false -> (5 <= List.length (rows df))%nat ->
      forallb (has_column df) numeric_cols = true ->
      detect_anomalies randbelow fit_transform fit_predict df w
      = (Raise (KeyError "Machine_ID"), w)).
Proof.
  intros Hc. split; [|split].
  - unfold predict_downtime, prepare_machine_features, select_machine, column,
      bindM, lift. rewrite Hc. reflexivity.
  - unfold predict_production_targets, select_machine, column. rewrite Hc. reflexivity.
  - intros He Hn Hnum.
    unfold detect_anomalies, prepare_anomaly_features, groupby, column.
    rewrite He, Hnum, Hc. cbn [orb negb].
    assert (Hlen : (Z.of_nat (List.length (rows df)) <? 5) = false)
      by (apply Z.ltb_ge; lia).
    rewrite Hlen. reflexivity.
Qed.

(** A column of the sorted frame, from the records of the machine alone. *)
Lemma sorted_column {A : Type} (field : ShiftRecord -> A) df m :
  map (fun ir => field (snd ir)) (sort_values DateTime (rows_of m (iterrows df)))
  = take (map field (machine_records df m))
         (argsort (map DateTime (machine_records df m))).
Proof.
  unfold sort_values.
  rewrite take_map, (map_field_rows field), (map_field_rows DateTime), rows_of_records.
  reflexivity.
Qed.

Lemma sorted_rows_length df m :
  List.length (sort_values DateTime (rows_of m (iterrows df)))
  = List.length (take (machine_records df m)
                      (argsort (map DateTime (machine_records df m)))).
Proof.
  rewrite <- (length_map (fun ir => snd ir)).
  rewrite (sorted_column (fun r => r)), map_id. reflexivity.
Qed.

(** The feature row of a machine depends on its records alone. *)
Lemma prepare_machine_features_local df1 df2 m :
  full_table df1 = true -> full_table df2 = true ->
  machine_records df1 m = machine_records df2 m ->
  prepare_machine_features df1 m = prepare_machine_features df2 m.
Proof.
  intros Hf1 Hf2 H. unfold prepare_machine_features.
  rewrite !select_machine_full by assumption. cbn [bind].
  pose proof (rows_of_records df1 m) as R1. pose proof (rows_of_records df2 m) as R2.
  destruct (rows_of m (iterrows df1)) as [|a1 l1] eqn:E1;
    destruct (rows_of m (iterrows df2)) as [|a2 l2] eqn:E2;
    try (rewrite <- R1, <- R2 in H; discriminate H); [reflexivity|].
  rewrite <- E1, <- E2. clear R1 R2 E1 E2.
  rewrite !column_full by (auto; in_columns). cbn [bind].
  rewrite !tail_min, !map_tail, !sorted_column, !sorted_rows_length, H.
  destruct (0 <? int_sum _); rewrite ?column_full by (auto; in_columns); cbn [bind];
    rewrite ?sorted_column, ?H; reflexivity.
Qed.

Lemma history_averages_local df1 df2 m :
  machine_records df1 m = machine_records df2 m ->
  record_count df1 m = record_count df2 m
  /\ history_averages df1 m = history_averages df2 m.
Proof.
  intros H.
  unfold record_count, history_averages, history_avg_efficiency,
    history_avg_defect_rate, history_avg_downtime.
  rewrite H. split; reflexivity.
Qed.

(** X3: the records of other machines never count: on two tables that hold
    the same records of a machine, in the same order, the risk scorer, the
    target advisor and the attribution of a record of that machine return
    the same. *)
Theorem analytics_of_one_machine df1 df2 m w :
  full_table df1 = true -> full_table df2 = true ->
  machine_records df1 m = machine_records df2 m ->
  predict_downtime randbelow df1 m w = predict_downtime randbelow df2 m w
  /\ predict_production_targets df1 m = predict_production_targets df2 m
  /\ (forall record, Machine_ID record = m ->
        determine_anomaly_reason record df1 = determine_anomaly_reason record df2).
Proof.
  intros Hf1 Hf2 H.
  destruct (history_averages_local df1 df2 m H) as (Hn & Ha).
  split; [|split].
  - unfold predict_downtime, bindM, lift.
    rewrite (prepare_machine_features_local df1 df2 m Hf1 Hf2 H).
    rewrite !horizon_full, Hn by assumption. reflexivity.
  - unfold predict_production_targets.
    rewrite !select_machine_full by assumption. cbn [bind].
    rewrite !rows_of_nil, !rows_of_count, Hn.
    destruct ((record_count df2 m =? 0) || (record_count df2 m <? 3)); [reflexivity|].
    rewrite !column_full by (auto; in_columns). cbn [bind].
    rewrite !(map_field_rows Actual_Output), !(map_field_rows Target_Output).
    rewrite !rows_of_records, H. reflexivity.
  - intros record Hm. unfold determine_anomaly_reason.
    rewrite !cell_full by (auto; in_columns). cbn [bind].
    destruct (0 <? Actual_Output record); cbn [bind];
      rewrite !machine_averages_full by assumption; rewrite Hm, Ha; reflexivity.
Qed.

(** *** What the anomaly engine returns *)

Lemma iloc_In {A : Type} (l : list A) positions xs :
  iloc l positions = Ok xs -> forall x, In x xs -> In x l.
Proof.
  revert xs. induction positions as [|p t IH]; intros xs H x Hx; simpl in H.
  - inversion H; subst. contradiction.
  - destruct (nth_error l p) as [y|] eqn:Hy; [|discriminate].
    destruct (iloc l t) as [ys|e]; [|discriminate]. cbn [bind] in H.
    inversion H; subst. destruct Hx as [<- | Hx].
    + eapply nth_error_In; eauto.
    + eapply IH; eauto.
Qed.

Lemma cell_value {A : Type} df c (field : ShiftRecord -> A) r v :
  cell df c field r = Ok v -> v = field r.
Proof.
  unfold cell. destruct (has_column df c); [|discriminate]. now inversion 1.
Qed.

Lemma report_anomalies_invariant (P : Anomaly.t -> Prop) original_df machine_id idxs :
  (forall idx r reason s,
      In idx idxs -> loc original_df idx = Ok r ->
      determine_anomaly_reason r original_df = Ok reason ->
      P {| Anomaly.machine_id := machine_id;
           Anomaly.date := Date r;
           Anomaly.shift := Shift r;
           Anomaly.message := reason;
           Anomaly.confidence := 70 + fst (randbelow 26 s) |}) ->
  forall anomalies w,
    Forall P anomalies ->
    Forall P (snd (fst (report_anomalies randbelow original_df machine_id idxs anomalies w))).
Proof.
  induction idxs as [|idx rest IH]; intros HP anomalies w Hacc; cbn [report_anomalies].
  - exact Hacc.
  - destruct (loc original_df idx) as [r|e] eqn:Hloc; cbn [bind]; [|exact Hacc].
    destruct (determine_anomaly_reason r original_df) as [reason|e] eqn:Hreason;
      cbn [bind]; [|exact Hacc].
    destruct (cell original_df "Date" Date r) as [date|e] eqn:Hdate;
      cbn [bind]; [|exact Hacc].
    destruct (cell original_df "Shift" Shift r) as [shift|e] eqn:Hshift;
      cbn [bind]; [|exact Hacc].
    apply cell_value in Hdate, Hshift. subst date shift.
    unfold randint, set_rng. change (95 - 70 + 1) with 26.
    pose proof (HP idx r reason (rng w) (or_introl eq_refl) Hloc Hreason) as Hnew.
    destruct (randbelow 26 (rng w)) as [k s]. cbn [fst] in Hnew.
    apply IH.
    + intros idx' r' reason' s' Hin. apply HP. now right.
    + apply Forall_app. split; [exact Hacc | constructor; [exact Hnew | constructor]].
Qed.

Lemma machine_block_invariant (P : Anomaly.t -> Prop) original_df machine_id fs :
  (forall f r reason s,
      In f fs -> loc original_df (Feature.index f) = Ok r ->
      determine_anomaly_reason r original_df = Ok reason ->
      P {| Anomaly.machine_id := machine_id;
           Anomaly.date := Date r;
           Anomaly.shift := Shift r;
           Anomaly.message := reason;
           Anomaly.confidence := 70 + fst (randbelow 26 s) |}) ->
  forall anomalies w,
    Forall P anomalies ->
    Forall P (snd (fst (machine_block randbelow fit_transform fit_predict
                          original_df machine_id fs anomalies w))).
Proof.
  intros HP anomalies w Hacc. unfold machine_block.
  destruct (fit_transform (feature_matrix fs)) as [X|e]; cbn [bind]; [|exact Hacc].
  destruct (fit_predict X) as [preds|e]; cbn [bind]; [|exact Hacc].
  destruct (iloc fs (where_outlier 0 preds)) as [outliers|e] eqn:Hiloc;
    cbn [bind]; [|exact Hacc].
  apply report_anomalies_invariant; [|exact Hacc].
  intros idx r reason s Hidx. apply in_map_iff in Hidx as (f & <- & Hf).
  apply HP. eapply iloc_In; eauto.
Qed.

Lemma scan_machines_invariant (P : Anomaly.t -> Prop) feature_df original_df machines :
  (forall m f r reason s,
      In m machines ->
      5 <= Z.of_nat (List.length (features_of m feature_df)) ->
      In f (features_of m feature_df) ->
      loc original_df (Feature.index f) = Ok r ->
      determine_anomaly_reason r original_df = Ok reason ->
      P {| Anomaly.machine_id := m;
           Anomaly.date := Date r;
           Anomaly.shift := Shift r;
           Anomaly.message := reason;
           Anomaly.confidence := 70 + fst (randbelow 26 s) |}) ->
  forall anomalies w,
    Forall P anomalies ->
    Forall P (fst (scan_machines randbelow fit_transform fit_predict
                     feature_df original_df machines anomalies w)).
Proof.
  induction machines as [|m rest IH]; intros HP anomalies w Hacc; cbn [scan_machines].
  - exact Hacc.
  - cbv zeta.
    assert (HPrest : forall m' f r reason s,
               In m' rest ->
               5 <= Z.of_nat (List.length (features_of m' feature_df)) ->
               In f (features_of m' feature_df) ->
               loc original_df (Feature.index f) = Ok r ->
               determine_anomaly_reason r original_df = Ok reason ->
               P {| Anomaly.machine_id := m';
                    Anomaly.date := Date r;
                    Anomaly.shift := Shift r;
                    Anomaly.message := reason;
                    Anomaly.confidence := 70 + fst (randbelow 26 s) |}).
    { intros m' f r reason s Hin. apply HP. now right. }
    destruct (Z.ltb_spec (Z.of_nat (List.length (features_of m feature_df))) 5)
      as [Hlt | Hge]; [now apply IH|].
    pose proof (machine_block_invariant P original_df m (features_of m feature_df)
                  (fun f r reason s => HP m f r reason s (or_introl eq_refl) Hge)
                  anomalies w Hacc) as Hblock.
    destruct (machine_block randbelow fit_transform fit_predict original_df m
                (features_of m feature_df) anomalies w) as [[[u|e] a'] w'];
      cbn [fst snd] in Hblock; now apply IH.
Qed.

Lemma features_of_length df feature_df original_df m :
  prepare_anomaly_features df = Ok (Some (feature_df, original_df)) ->
  Z.of_nat (List.length (features_of m feature_df)) <= record_count df m.
Proof.
  intros Hprep.
  destruct (prepare_anomaly_features_rows _ _ _ Hprep) as (_ & Hnd & Hrow).
  rewrite <- rows_of_count.
  rewrite <- (length_map Feature.index), <- (length_map fst (rows_of m (iterrows df))).
  apply Nat2Z.inj_le. apply NoDup_incl_length.
  - unfold features_of. now apply NoDup_map_filter.
  - intros i Hi. apply in_map_iff in Hi as (f & <- & Hf).
    unfold features_of in Hf. apply filter_In in Hf as [Hf Hm].
    apply String.eqb_eq in Hm.
    destruct (Hrow f Hf) as (r & Hr & Hmr).
    apply in_map_iff. exists (Feature.index f, r). split; [reflexivity|].
    apply in_rows_of. split; [now apply nth_error_iterrows | cbn [snd]; congruence].
Qed.

(** X8: every anomaly the engine returns stands for a record of the table:
    it carries the machine, the date and the shift of that record and the
    reason the attribution procedure gives for it; and its machine has at
    least 5 records, so a machine with fewer is never flagged. *)
Theorem detect_anomalies_provenance df w anomalies w' :
  detect_anomalies randbelow fit_transform fit_predict df w = (Ok anomalies, w') ->
  Forall (fun a =>
            5 <= record_count df (Anomaly.machine_id a)
            /\ exists r, In r (rows df)
                         /\ Machine_ID r = Anomaly.machine_id a
                         /\ Date r = Anomaly.date a
                         /\ Shift r = Anomaly.shift a
                         /\ determine_anomaly_reason r df = Ok (Anomaly.message a))
         anomalies.
Proof.
  unfold detect_anomalies.
  destruct (prepare_anomaly_features df) as [[[feature_df original_df]|]|e] eqn:Hprep;
    [| intros H; inversion H; constructor | discriminate].
  destruct (prepare_anomaly_features_rows _ _ _ Hprep) as (Ho & _ & Hrow).
  subst original_df.
  destruct feature_df as [|f0 fs0]; [intros H; inversion H; constructor|].
  set (P := fun a : Anomaly.t =>
              5 <= record_count df (Anomaly.machine_id a)
              /\ exists r, In r (rows df)
                           /\ Machine_ID r = Anomaly.machine_id a
                           /\ Date r = Anomaly.date a
                           /\ Shift r = Anomaly.shift a
                           /\ determine_anomaly_reason r df = Ok (Anomaly.message a)).
  pose proof (scan_machines_invariant P (f0 :: fs0) df (feature_machines (f0 :: fs0))) as Hinv.
  destruct (scan_machines randbelow fit_transform fit_predict (f0 :: fs0) df
              (feature_machines (f0 :: fs0)) [] w) as [a1 w1] eqn:Hscan.
  intros H. inversion H; subst; clear H.
  specialize (Hinv ltac:(
    intros m f r reason s _ H5 Hf Hloc Hreason; unfold P; cbn;
    pose proof (features_of_length df (f0 :: fs0) df m Hprep) as Hlen;
    split; [lia|];
    unfold features_of in Hf; apply filter_In in Hf as [Hf Hm];
    apply String.eqb_eq in Hm;
    destruct (Hrow f Hf) as (r' & Hr' & Hmr');
    unfold loc in Hloc; rewrite Hr' in Hloc; inversion Hloc; subst r';
    exists r; repeat split; [eapply nth_error_In; eauto | congruence | exact Hreason])
    [] w (Forall_nil P)).
  rewrite Hscan in Hinv. exact Hinv.
Qed.

(** X9: every anomaly the engine returns has a confidence between 70 and
    95. *)
Theorem detect_anomalies_confidence df w anomalies w' :
  detect_anomalies randbelow fit_transform fit_predict df w = (Ok anomalies, w') ->
  Forall (fun a => 70 <= Anomaly.confidence a <= 95) anomalies.
Proof.
  unfold detect_anomalies.
  destruct (prepare_anomaly_features df) as [[[feature_df original_df]|]|e];
    [| intros H; inversion H; constructor | discriminate].
  destruct feature_df as [|f0 fs0]; [intros H; inversion H; constructor|].
  pose proof (scan_machines_invariant (fun a => 70 <= Anomaly.confidence a <= 95)
                (f0 :: fs0) original_df (feature_machines (f0 :: fs0))) as Hinv.
  destruct (scan_machines randbelow fit_transform fit_predict (f0 :: fs0) original_df
              (feature_machines (f0 :: fs0)) [] w) as [a1 w1] eqn:Hscan.
  intros H. inversion H; subst; clear H.
  specialize (Hinv ltac:(
    intros m f r reason s _ _ _ _ _; cbn [Anomaly.confidence];
    pose proof (randbelow_range 26 s ltac:(lia)); lia)
    [] w (Forall_nil _)).
  rewrite Hscan in Hinv. exact Hinv.
Qed.

(** X10: on a table with a [Machine_ID] column the anomaly engine never
    raises: whatever scikit-learn does and whichever other columns are
    missing, it returns a list. *)
Theorem detect_anomalies_total df w :
  has_column df "Machine_ID" = true ->
  exists anomalies w',
    detect_anomalies randbelow fit_transform fit_predict df w = (Ok anomalies, w').
Proof.
  intros Hc. unfold detect_anomalies, prepare_anomaly_features, groupby, column.
  rewrite Hc. cbn [bind].
  destruct (df_empty df || (Z.of_nat (List.length (rows df)) <? 5)); [eauto|].
  destruct (negb (forallb (has_column df) numeric_cols)); [eauto|].
  destruct (all_features _) as [|fs0 fss]; [eauto|].
  destruct (List.concat (fs0 :: fss)) as [|f0 fs]; [eauto|].
  destruct (scan_machines _ _ _ _ _ _ _ _) as [a1 w1]. eauto.
Qed.

(** *** A failing fit *)

Lemma report_anomalies_reports df machine_id idxs :
  full_table df = true ->
  (forall idx, In idx idxs -> exists r, nth_error (rows df) idx = Some r) ->
  forall anomalies w,
  exists new w',
    report_anomalies randbelow df machine_id idxs anomalies w
    = ((Ok tt, anomalies ++ new), w')
    /\ Forall2 (reports df) (map (pair machine_id) idxs) new
    /\ stdout w' = stdout w.
Proof.
  intros Hf. induction idxs as [|idx rest IH]; intros Hidx anomalies w;
    cbn [report_anomalies].
  - exists [], w. rewrite app_nil_r. repeat split. constructor.
  - destruct (Hidx idx (or_introl eq_refl)) as [r Hr].
    unfold loc. rewrite Hr. cbn [bind].
    rewrite determine_anomaly_reason_rules by exact Hf. cbn [bind].
    rewrite !cell_full by (auto; in_columns). cbn [bind].
    unfold randint, set_rng. change (95 - 70 + 1) with 26.
    pose proof (randbelow_range 26 (rng w) ltac:(lia)) as Hk.
    destruct (randbelow 26 (rng w)) as [k s]. cbn [fst] in Hk.
    destruct (IH (fun i Hi => Hidx i (or_intror Hi))
                 (anomalies ++ [ {| Anomaly.machine_id := machine_id;
                                    Anomaly.date := Date r;
                                    Anomaly.shift := Shift r;
                                    Anomaly.message :=
                                      first_match
                                        (attribution_rules r
                                           (history_averages df (Machine_ID r)))
                                        generic_text;
                                    Anomaly.confidence := 70 + k |} ])
                 {| rng := s; model_file := model_file w; stdout := stdout w |})
      as (new & w' & Hrun & Hnew & Hout).
    rewrite Hrun. eexists. exists w'. rewrite <- app_assoc.
    split; [reflexivity|]. split; [|exact Hout].
    cbn [map app]. constructor; [|exact Hnew].
    exists r. cbn [snd fst Anomaly.machine_id Anomaly.date Anomaly.shift
                     Anomaly.message Anomaly.confidence].
    repeat split; try assumption; lia.
Qed.

Lemma machine_block_reports df machine_id fs anomalies w :
  full_table df = true ->
  (forall f, In f fs -> exists r, nth_error (rows df) (Feature.index f) = Some r) ->
  match flagged_indices fit_transform fit_predict fs with
  | Ok idxs =>
      exists new w',
        machine_block randbelow fit_transform fit_predict df machine_id fs anomalies w
        = ((Ok tt, anomalies ++ new), w')
        /\ Forall2 (reports df) (map (pair machine_id) idxs) new
        /\ stdout w' = stdout w
  | Raise e =>
      machine_block randbelow fit_transform fit_predict df machine_id fs anomalies w
      = ((Raise e, anomalies), w)
  end.
Proof.
  intros Hf Hfs. unfold flagged_indices, fit_outcome, machine_block.
  destruct (fit_transform (feature_matrix fs)) as [X|e]; cbn [bind]; [|reflexivity].
  destruct (fit_predict X) as [preds|e]; cbn [bind]; [|reflexivity].
  destruct (iloc fs (where_outlier 0 preds)) as [outliers|e] eqn:Hiloc;
    cbn [bind]; [|reflexivity].
  apply report_anomalies_reports; [exact Hf|].
  intros idx Hidx. apply in_map_iff in Hidx as (f & <- & Hin).
  apply Hfs. eapply iloc_In; eauto.
Qed.

(** What the loop over the machines appends and prints. *)
Lemma scan_machines_reports df feature_df machines :
  full_table df = true ->
  (forall f, In f feature_df ->
             exists r, nth_error (rows df) (Feature.index f) = Some r) ->
  forall anomalies w,
  exists new w',
    scan_machines randbelow fit_transform fit_predict feature_df df machines anomalies w
    = (anomalies ++ new, w')
    /\ Forall2 (reports df)
         (flat_map (flagged fit_transform fit_predict feature_df) machines) new
    /\ stdout w'
       = stdout w
         ++ flat_map (failure_reports fit_transform fit_predict feature_df) machines.
Proof.
  intros Hf Hrows. induction machines as [|m rest IH]; intros anomalies w;
    cbn [scan_machines flat_map].
  - exists [], w. rewrite !app_nil_r. repeat split. constructor.
  - cbv zeta. unfold flagged at 1, failure_reports at 1. cbv zeta.
    destruct (Z.of_nat (List.length (features_of m feature_df)) <? 5).
    { cbn [app]. apply IH. }
    pose proof (machine_block_reports df m (features_of m feature_df) anomalies w Hf)
      as Hblock.
    specialize (Hblock ltac:(
      intros f Hin; apply Hrows; unfold features_of in Hin;
      now apply filter_In in Hin as [Hin _])).
    destruct (flagged_indices fit_transform fit_predict (features_of m feature_df))
      as [idxs|e].
    + destruct Hblock as (new & w1 & Hrun & Hnew & Hout). rewrite Hrun.
      destruct (IH (anomalies ++ new) w1) as (new' & w' & Hrun' & Hnew' & Hout').
      rewrite Hrun'. exists (new ++ new'), w'. rewrite app_assoc.
      split; [reflexivity|]. split.
      * now apply Forall2_app.
      * cbn [app]. now rewrite Hout', Hout.
    + rewrite Hblock. unfold py_print. cbn [snd].
      destruct (IH anomalies
                   {| rng := rng w; model_file := model_file w;
                      stdout := stdout w ++ [error_line m e] |})
        as (new' & w' & Hrun' & Hnew' & Hout').
      rewrite Hrun'. exists new', w'. split; [reflexivity|]. split; [exact Hnew'|].
      rewrite Hout'. cbn [stdout app]. now rewrite <- app_assoc.
Qed.

Lemma flat_map_others {A : Type} (f : string -> list A) bad l :
  f bad = [] ->
  flat_map f (filter (fun m => negb (String.eqb m bad)) l) = flat_map f l.
Proof.
  intros Hbad. induction l as [|m l IH]; cbn [filter flat_map]; [reflexivity|].
  destruct (String.eqb_spec m bad) as [-> | Hne]; cbn [negb flat_map].
  - now rewrite Hbad, IH.
  - now rewrite IH.
Qed.

Lemma features_of_machine m feature_df :
  features_of m feature_df <> [] -> In m (feature_machines feature_df).
Proof.
  unfold features_of, feature_machines. intros Hne.
  destruct (filter _ feature_df) as [|f fs] eqn:E; [congruence|].
  assert (Hin : In f (filter (fun f => String.eqb (Feature.machine_id f) m) feature_df))
    by (rewrite E; simpl; auto).
  apply filter_In in Hin as [Hin Hm]. apply String.eqb_eq in Hm.
  apply in_unique, in_map_iff. eauto.
Qed.

Lemma Forall2_Forall {A B : Type} (R : A -> B -> Prop) (P : A -> Prop) (Q : B -> Prop)
    l l' :
  Forall2 R l l' -> (forall x y, P x -> R x y -> Q y) -> Forall P l -> Forall Q l'.
Proof.
  intros H HPQ. induction H as [|x y l l' Hxy _ IH]; intros HP; constructor;
    inversion HP; subst; eauto.
Qed.

Lemma in_flagged feature_df m flag :
  In flag (flagged fit_transform fit_predict feature_df m) -> fst flag = m.
Proof.
  unfold flagged. cbv zeta.
  destruct (Z.of_nat (List.length (features_of m feature_df)) <? 5); [contradiction|].
  destruct (flagged_indices _ _ _); [|contradiction].
  intros Hin. apply in_map_iff in Hin as (idx & <- & _). reflexivity.
Qed.


(** *** The prediction button *)

(** X18: what the prediction button shows depends on the table and on the
    text typed, and on nothing else: on a table with all its columns the
    handler returns a page, the same from every world, draws no random
    number and prints nothing.  An empty text gives the warning alone and
    a machine without records the error alone, the world untouched; so the
    random estimate of the scorer is never shown, and a machine with records
    gets the three elements of its computed score. *)
Theorem prediction_page_not_random df m :
  full_table df = true ->
  exists page,
    (forall w,
        fst (predict_downtime_risk randbelow df m w) = Ok page
        /\ rng (snd (predict_downtime_risk randbelow df m w)) = rng w
        /\ stdout (snd (predict_downtime_risk randbelow df m w)) = stdout w)
    /\ (m = "" ->
        page = [st_warning "Please enter a Machine ID for prediction."]
        /\ forall w, snd (predict_downtime_risk randbelow df m w) = w)
    /\ (m <> "" -> record_count df m = 0 ->
        page = [st_error ("Machine ID '" ++ m ++ "' not found in the dataset.")]
        /\ forall w, snd (predict_downtime_risk randbelow df m w) = w)
    /\ (m <> "" -> 1 <= record_count df m ->
        exists score,
          (forall w, predict_downtime randbelow df m w
                     = (Ok (score, horizon_of (record_count df m)), model_ready w))
          /\ nth_error page 0
             = Some (st_metric "Downtime Risk" (str_int score ++ "%"))
          /\ List.length page = 3%nat).
Proof.
  intros Hf. unfold predict_downtime_risk.
  destruct (String.eqb_spec m "") as [Hm | Hm]; cbn [negb].
  { eexists. split; [intros w; repeat split|].
    split; [intros _; split; [reflexivity | intros w; reflexivity]|].
    split; intros Hne; contradiction. }
  unfold bindM, lift. rewrite column_full by (auto; in_columns).
  destruct (in_values m (map (fun ir => Machine_ID (snd ir)) (iterrows df))) eqn:Hin.
  - apply in_values_rows in Hin.
    assert (Hn : 1 <= record_count df m).
    { rewrite <- rows_of_count.
      destruct (rows_of m (iterrows df)); [congruence | simpl; lia]. }
    destruct (predict_downtime_returns df m Hf Hn) as (f & score & _ & _ & Hrun).
    eexists. split.
    { intros w. rewrite Hrun. cbn [fst snd ret]. repeat split. }
    split; [intros ?; contradiction|].
    split; [intros _ H0; lia|].
    intros _ _. exists score. repeat split. exact Hrun.
  - assert (Hn : record_count df m = 0).
    { rewrite <- rows_of_count.
      destruct (rows_of m (iterrows df)) eqn:E; [reflexivity|].
      assert (Htrue : in_values m (map (fun ir => Machine_ID (snd ir)) (iterrows df))
                      = true).
      { apply in_values_rows. rewrite E. discriminate. }
      congruence. }
    eexists. split; [intros w; repeat split|].
    split; [intros ?; contradiction|].
    split; [intros _ _; split; [reflexivity | intros w; reflexivity]|].
    intros _ H1. lia.
Qed.

End Properties.

(** * Instances *)

(** ** The stand-ins meet what is assumed of the libraries *)

Lemma sequential_sum_from l :
  forall pre a, sum_tree pre a -> sum_tree (pre ++ l) (fold_left fadd l a).
Proof.
  induction l as [|x l IH]; intros pre a Ha; cbn [fold_left].
  - now rewrite app_nil_r.
  - replace (pre ++ x :: l) with ((pre ++ [x]) ++ l) by now rewrite <- app_assoc.
    apply IH. eapply sum_tree_node; [exact Ha | apply sum_tree_leaf | apply Permutation_refl].
Qed.

Lemma sequential_sum_tree l : sum_tree l (sequential_sum l).
Proof. apply (sequential_sum_from l [] (Fin 0)), sum_tree_nil. Qed.

Lemma insert_position_perm keys i sorted :
  Permutation (insert_position keys i sorted) (i :: sorted).
Proof.
  induction sorted as [|j t IH]; simpl; [apply Permutation_refl|].
  destruct (nth i keys 0 <? nth j keys 0); [apply Permutation_refl|].
  eapply perm_trans; [apply perm_skip, IH | apply perm_swap].
Qed.

Lemma insert_position_sorted keys i sorted :
  StronglySorted Z.le (map (fun i => nth i keys 0) sorted) ->
  StronglySorted Z.le (map (fun i => nth i keys 0) (insert_position keys i sorted)).
Proof.
  induction sorted as [|j t IH]; intros Hs; cbn [insert_position map].
  - constructor; constructor.
  - cbn [map] in Hs. inversion Hs as [|? ? Ht Hj]; subst.
    destruct (Z.ltb_spec (nth i keys 0) (nth j keys 0)) as [Hlt | Hge]; cbn [map].
    + constructor; [exact Hs|].
      constructor; [lia|]. rewrite Forall_forall in *. intros z Hz.
      specialize (Hj z Hz). lia.
    + constructor; [apply IH, Ht|].
      apply (Permutation_Forall
               (Permutation_sym (Permutation_map _ (insert_position_perm keys i t)))).
      cbn [map]. constructor; assumption.
Qed.

Lemma insertion_argsort_sorts keys : sorts keys (insertion_argsort keys).
Proof.
  unfold sorts, insertion_argsort.
  assert (H : forall l acc,
             StronglySorted Z.le (map (fun i => nth i keys 0) acc) ->
             Permutation (fold_left (fun sorted i => insert_position keys i sorted) l acc)
                         (l ++ acc)
             /\ StronglySorted Z.le
                  (map (fun i => nth i keys 0)
                       (fold_left (fun sorted i => insert_position keys i sorted) l acc))).
  { induction l as [|x l IH]; intros acc Hacc; cbn [fold_left app].
    - split; [apply Permutation_refl | exact Hacc].
    - destruct (IH _ (insert_position_sorted keys x acc Hacc)) as [Hp Hs].
      split; [|exact Hs].
      eapply perm_trans; [exact Hp|].
      eapply perm_trans; [apply Permutation_app_head, insert_position_perm|].
      symmetry. apply Permutation_middle. }
  destruct (H (seq 0 (List.length keys)) [] (SSorted_nil _)) as [Hp Hs].
  rewrite app_nil_r in Hp. split; assumption.
Qed.

Lemma stand_in_sum_tree : forall l, sum_tree l (np_sum l).
Proof. exact sequential_sum_tree. Qed.

Lemma stand_in_sorts : forall keys, sorts keys (argsort keys).
Proof. exact insertion_argsort_sorts. Qed.

Lemma lcg_randbelow_range n s : 0 < n -> 0 <= fst (lcg_randbelow n s) < n.
Proof.
  intros Hn. unfold lcg_randbelow. cbn [fst]. apply Z.mod_pos_bound, Hn.
Qed.

(** ** The analytics on sample tables *)

Lemma predict_production_targets_shape_witness :
  exists p, predict_production_targets three_at_target "M1" = Ok p
    /\ In (confidence p) [0; 60; 70; 80]
    /\ (optimal_target p = None <-> record_count three_at_target "M1" < 3)
    /\ (confidence p = 0 <-> record_count three_at_target "M1" < 3)
    /\ (3 <= record_count three_at_target "M1" -> exists z, optimal_target p = Some z).
Proof.
  apply (predict_production_targets_shape stand_in_sum_tree three_at_target "M1").
  reflexivity.
Defined.

Lemma predict_production_targets_rules_witness :
  exists p, predict_production_targets three_at_target "M1" = Ok p
    /\ target_rule to_int three_at_target "M1" p
    /\ (record_count three_at_target "M1" = 3 ->
        (forall r, In r (machine_records three_at_target "M1") ->
                   Actual_Output r = 100 /\ Target_Output r = 100) ->
        optimal_target p = Some 110 /\ confidence p = 80).
Proof.
  apply (predict_production_targets_rules stand_in_sum_tree three_at_target "M1").
  - reflexivity.
  - reflexivity.
  - vm_compute. discriminate.
Defined.

(** C4 as stated, with [round], fails: for three records of 7 units against
    a target of 10 the average output is 7 and the efficiency 0.7; the
    target is [int(7.7)], 7, where [round(7.7)] is 8. *)
Lemma predict_production_targets_round_counterexample :
  exists p, predict_production_targets three_at_seven "M1" = Ok p
    /\ full_table three_at_seven = true
    /\ positive_targets three_at_seven "M1" = true
    /\ 3 <= record_count three_at_seven "M1"
    /\ fltb (floored_avg_efficiency three_at_seven "M1") (lit 8 10) = true
    /\ optimal_target p = Some 7
    /\ py_round (fmul (history_avg_output three_at_seven "M1") (lit 11 10)) = Ok 8
    /\ ~ target_rule py_round three_at_seven "M1" p.
Proof.
  eexists. split; [vm_compute; reflexivity|].
  split; [reflexivity|]. split; [reflexivity|].
  split; [vm_compute; discriminate|].
  split; [vm_compute; reflexivity|].
  split; [reflexivity|]. split; [vm_compute; reflexivity|].
  intros (_ & _ & H). destruct H as (a & Ha & Ht & _); [vm_compute; reflexivity|].
  vm_compute in Ha. simpl in Ht. congruence.
Qed.

Lemma determine_anomaly_reason_first_match_witness :
  let avg := history_averages downtime_spike (Machine_ID spike_record) in
  determine_anomaly_reason spike_record downtime_spike
  = Ok (first_match (attribution_rules spike_record avg) generic_text)
  /\ (fgtb (of_int (Downtime_Minutes spike_record))
            (fmul (history_avg_downtime downtime_spike (Machine_ID spike_record))
                  (of_int 2)) = true ->
      10 < Downtime_Minutes spike_record ->
      determine_anomaly_reason spike_record downtime_spike
      = Ok ("Unusual downtime: " ++ str_int (Downtime_Minutes spike_record)
            ++ " minutes vs. average "
            ++ format_1f (history_avg_downtime downtime_spike (Machine_ID spike_record))
            ++ " minutes")%string).
Proof.
  apply (determine_anomaly_reason_first_match spike_record downtime_spike).
  reflexivity.
Defined.

(** On the spike record the conditions of all four rules hold; the reason
    is the downtime one. *)
Example spike_reason :
  map fst (attribution_rules spike_record (history_averages downtime_spike "M1"))
  = [true; true; true; true]
  /\ determine_anomaly_reason spike_record downtime_spike
     = Ok "Unusual downtime: 50 minutes vs. average 8.3 minutes".
Proof. vm_compute. split; reflexivity. Qed.

(** The numbers are printed as Python prints doubles: 1.05 is the double
    just above it and prints as 1.1; a rate of 0.0005 is multiplied by 100
    first, to the double just above 0.05, and prints as 0.1%; a quarter is
    a tie and goes to the even digit. *)
Example format_samples :
  format_1f (lit 105 100) = "1.1"%string
  /\ format_1pct (lit 5 10000) = "0.1%"%string
  /\ format_1f (lit 25 100) = "0.2"%string
  /\ format_1f (lit 75 100) = "0.8"%string
  /\ format_1pct PInf = "inf%"%string.
Proof. vm_compute. repeat split. Qed.

Lemma machine_averages_unguarded_witness :
  machine_averages zero_denominators "M1"
  = Ok {| avg_efficiency := PInf; avg_defect_rate := PInf; avg_downtime := Fin 12 |}
  /\ mean (map (fun r => guarded_ratio (Actual_Output r) (Target_Output r))
               (machine_records zero_denominators "M1")) = lit 3 5
  /\ determine_anomaly_reason (shift_record "M1" 1 28800 100 100 0 0) zero_denominators
     = Ok "Production efficiency dropped to 100.0% vs. average inf%"
  /\ predict_production_targets zero_denominators "M1"
     = Ok (advice 105 80
             "Machine consistently meets targets, can increase production target.").
Proof.
  apply (machine_averages_unguarded stand_in_sum_tree).
Defined.

(** Records with neither target nor output are left out of the mean, not
    counted as 0; when no other record is left the average is NaN. *)
Example machine_averages_skip_nan :
  history_avg_efficiency
    (table [ shift_record "M1" 1 21600 0 0 0 0;
             shift_record "M1" 1 25200 100 100 0 0 ]) "M1" = Fin 1
  /\ history_avg_efficiency
       (table [ shift_record "M1" 1 21600 0 0 0 0;
                shift_record "M1" 1 25200 0 0 0 0 ]) "M1" = NaN.
Proof. split; vm_compute; reflexivity. Qed.

Lemma predict_downtime_score_witness :
  exists score hours w',
    predict_downtime lcg_randbelow downtime_spike "M1" sample_world
    = (Ok (score, hours), w')
    /\ chronological_order downtime_spike "M1" (chronological downtime_spike "M1")
    /\ risk_formula to_int downtime_spike "M1" (chronological downtime_spike "M1")
       = Ok score.
Proof.
  apply (predict_downtime_score stand_in_sorts lcg_randbelow
           downtime_spike "M1" sample_world).
  - reflexivity.
  - reflexivity.
  - reflexivity.
  - vm_compute. discriminate.
Defined.

(** C1 as stated, with [round], fails: for one record of 993 units against
    a target of 1000 the efficiency term is [int(0.7000000000000006)], 0,
    where [round] gives 1; the score is 0, the formula of the claim gives
    1. *)
Lemma predict_downtime_round_counterexample :
  full_table near_target = true
  /\ valid_table near_target = true
  /\ totals_fit near_target "M1" = true
  /\ 1 <= record_count near_target "M1"
  /\ fst (predict_downtime lcg_randbelow near_target "M1" sample_world) = Ok (0, 4)
  /\ risk_formula py_round near_target "M1" (chronological near_target "M1") = Ok 1
  /\ ~ (exists score hours w',
          predict_downtime lcg_randbelow near_target "M1" sample_world
          = (Ok (score, hours), w')
          /\ risk_formula py_round near_target "M1" (chronological near_target "M1")
             = Ok score).
Proof.
  split; [reflexivity|]. split; [reflexivity|]. split; [reflexivity|].
  split; [vm_compute; discriminate|].
  split; [vm_compute; reflexivity|]. split; [vm_compute; reflexivity|].
  intros (score & hours & w' & Hrun & Hformula).
  vm_compute in Hrun. vm_compute in Hformula.
  inversion Hrun. inversion Hformula. congruence.
Qed.

(** The points are those of the doubles: 900 units against a target of
    1000 give [int((1 - 0.9) * 100)], which is [int(9.999999999999998)],
    9 points and not 10. *)
Example nine_tenths_score :
  fst (predict_downtime lcg_randbelow nine_tenths "M1" sample_world) = Ok (9, 4)
  /\ guarded_efficiency nine_tenths "M1" = lit 9 10
  /\ fltb (fmul (fsub (of_int 1) (lit 9 10)) (of_int 100)) (of_int 10) = true.
Proof. vm_compute. repeat split. Qed.

Lemma predict_downtime_ranges_witness :
  exists score hours w',
    predict_downtime lcg_randbelow downtime_spike "M1" sample_world
    = (Ok (score, hours), w')
    /\ 0 <= score <= 100
    /\ (1 <= record_count downtime_spike "M1" ->
        hours = horizon_of (record_count downtime_spike "M1") /\ In hours [4; 12; 24])
    /\ (record_count downtime_spike "M1" = 0 ->
        10 <= score <= 90 /\ In hours [2; 4; 8; 12; 24]).
Proof.
  apply (predict_downtime_ranges stand_in_sorts lcg_randbelow
           lcg_randbelow_range downtime_spike "M1" sample_world); reflexivity.
Defined.

(** C6 as stated, for every table, fails: the score is capped from above
    only.  One record with -300 defects for 100 units gives a defect rate of
    -3 and [min(int(-300.0), 10)], -300 points: the score is -300. *)
Lemma predict_downtime_ranges_counterexample :
  full_table negative_defects = true
  /\ totals_fit negative_defects "M1" = true
  /\ fst (predict_downtime lcg_randbelow negative_defects "M1" sample_world)
     = Ok (-300, 4)
  /\ ~ (exists score hours w',
          predict_downtime lcg_randbelow negative_defects "M1" sample_world
          = (Ok (score, hours), w')
          /\ 0 <= score <= 100).
Proof.
  split; [reflexivity|]. split; [reflexivity|].
  split; [vm_compute; reflexivity|].
  intros (score & hours & w' & Hrun & Hscore).
  vm_compute in Hrun. inversion Hrun. lia.
Qed.

(** Without resetting the generator a second run draws other values. *)
Example unknown_machine_twice :
  let first := predict_downtime lcg_randbelow near_target "M9" sample_world in
  fst first = Ok (17, 4)
  /\ fst (predict_downtime lcg_randbelow near_target "M9" (snd first)) <> fst first.
Proof. vm_compute. split; [reflexivity | discriminate]. Qed.

Lemma prepare_anomaly_features_ratios_witness :
  isfinite (Feature.efficiency zero_output_feature) = true
  /\ isfinite (Feature.defect_rate zero_output_feature) = true
  /\ isfinite (Feature.downtime_per_unit zero_output_feature) = true
  /\ exists r,
       nth_error (rows zero_denominators) (Feature.index zero_output_feature) = Some r
       /\ (Target_Output r = 0 -> Feature.efficiency zero_output_feature = Fin 0)
       /\ (Actual_Output r = 0 ->
           Feature.defect_rate zero_output_feature = Fin 0
           /\ Feature.downtime_per_unit zero_output_feature = Fin 0)
       /\ (Target_Output r <> 0 ->
           Feature.efficiency zero_output_feature
           = fdiv (of_int (Actual_Output r)) (of_int (Target_Output r)))
       /\ (Actual_Output r <> 0 ->
           Feature.defect_rate zero_output_feature
           = fdiv (of_int (Defects r)) (of_int (Actual_Output r))
           /\ Feature.downtime_per_unit zero_output_feature
              = fdiv (of_int (Downtime_Minutes r)) (of_int (Actual_Output r))).
Proof.
  eapply (prepare_anomaly_features_ratios zero_denominators _ _ zero_output_feature).
  - vm_compute. reflexivity.
  - right. left. reflexivity.
Defined.

Lemma detect_anomalies_not_enough_data_witness :
  prepare_anomaly_features without_defects = Ok None
  /\ detect_anomalies lcg_randbelow sample_fit_transform sample_fit_predict
       without_defects sample_world = (Ok [], sample_world).
Proof.
  apply (detect_anomalies_not_enough_data lcg_randbelow sample_fit_transform
           sample_fit_predict without_defects sample_world).
  right. right. exists "Defects". split; [simpl; tauto | reflexivity].
Defined.


(** On the two machines the fit of M1 raises; the anomaly of M2 is
    returned and the failure is printed. *)
Example two_machines_anomalies :
  detect_anomalies lcg_randbelow sample_fit_transform sample_fit_predict
    two_machines sample_world
  = (Ok [ {| Anomaly.machine_id := "M2";
             Anomaly.date := 1;
             Anomaly.shift := "Morning";
             Anomaly.message := "Unusual downtime: 50 minutes vs. average 10.0 minutes";
             Anomaly.confidence := 77 |} ],
     {| rng := 1282168116;
        model_file := None;
        stdout := [ "Error detecting anomalies for machine M1: degenerate feature matrix" ] |})
  /\ flat_map (flagged sample_fit_transform sample_fit_predict two_machines_features)
              (other_machines two_machines_features "M1")
     = [ ("M2"%string, 7%nat) ].
Proof. vm_compute. split; reflexivity. Qed.

(** ** The helpers and the engine on sample tables *)

Lemma prepare_machine_features_coherent_witness :
  exists f,
    prepare_machine_features downtime_spike "M1" = Ok (Some f)
    /\ 1 <= operation_hours f
    /\ operation_hours f = record_count downtime_spike "M1"
    /\ 0 <= downtime_frequency f <= operation_hours f
    /\ (has_recent_downtime f = 0 \/ has_recent_downtime f = 1)
    /\ (has_recent_downtime f = 1 -> 1 <= downtime_frequency f)
    /\ (operation_hours f <= 5 -> 1 <= downtime_frequency f ->
        has_recent_downtime f = 1).
Proof.
  eexists. split; [vm_compute; reflexivity|].
  apply (prepare_machine_features_coherent stand_in_sorts downtime_spike "M1").
  - reflexivity.
  - vm_compute. reflexivity.
Defined.

Lemma predict_production_targets_lower_bound_witness :
  exists p t a,
    predict_production_targets three_at_target "M1" = Ok p
    /\ optimal_target p = Some t
    /\ to_int (history_avg_output three_at_target "M1") = Ok a
    /\ 0 <= a <= t
    /\ (confidence p = 80 ->
        forall r, In r (machine_records three_at_target "M1") -> Actual_Output r <= t).
Proof.
  apply (predict_production_targets_lower_bound stand_in_sum_tree three_at_target "M1").
  - reflexivity.
  - reflexivity.
  - vm_compute. discriminate.
Defined.

Lemma prepare_anomaly_features_partition_witness :
  two_machines = two_machines
  /\ NoDup (map Feature.index two_machines_features)
  /\ (forall f, In f two_machines_features ->
        exists r, nth_error (rows two_machines) (Feature.index f) = Some r
                  /\ Machine_ID r = Feature.machine_id f)
  /\ (forall i r, nth_error (rows two_machines) i = Some r ->
        (In i (map Feature.index two_machines_features)
         <-> 3 <= record_count two_machines (Machine_ID r))).
Proof.
  apply (prepare_anomaly_features_partition two_machines two_machines_features
           two_machines).
  vm_compute. reflexivity.
Defined.

Lemma get_shift_from_time_windows_witness :
  get_shift_from_time (a_datetime 1 end_of_morning)
  = get_shift_from_time (a_time end_of_morning)
  /\ (get_shift_from_time (a_time end_of_morning) = "Morning"
      <-> 21600 <= second_of_day end_of_morning < 50400)
  /\ (get_shift_from_time (a_time end_of_morning) = "Afternoon"
      <-> 50400 <= second_of_day end_of_morning < 79200)
  /\ (get_shift_from_time (a_time end_of_morning) = "Night"
      <-> second_of_day end_of_morning < 21600 \/ 79200 <= second_of_day end_of_morning).
Proof.
  apply (get_shift_from_time_windows end_of_morning 1). reflexivity.
Defined.

Lemma get_production_stats_summary_witness :
  (rows downtime_spike = [] -> get_production_stats downtime_spike = Ok None)
  /\ (rows downtime_spike <> [] ->
      exists st e d,
        get_production_stats downtime_spike = Ok (Some st)
        /\ total_production st = wrap64 (table_total Actual_Output downtime_spike)
        /\ stats_total_defects st = wrap64 (table_total Defects downtime_spike)
        /\ total_downtime st = wrap64 (table_total Downtime_Minutes downtime_spike)
        /\ stats_efficiency st = Fin e /\ stats_defect_rate st = Fin d
        /\ (wrap64 (table_total Target_Output downtime_spike) <= 0 -> e = 0%Q)
        /\ (wrap64 (table_total Actual_Output downtime_spike) <= 0 -> d = 0%Q)
        /\ (valid_table downtime_spike = true ->
            fits_int64 (table_total Actual_Output downtime_spike) = true ->
            fits_int64 (table_total Defects downtime_spike) = true ->
            total_production st = table_total Actual_Output downtime_spike
            /\ stats_total_defects st = table_total Defects downtime_spike
            /\ (0 <= e)%Q /\ (0 <= d)%Q)
        /\ 1 <= machines st <= Z.of_nat (List.length (rows downtime_spike))
        /\ 1 <= operators st <= Z.of_nat (List.length (rows downtime_spike))).
Proof.
  apply (get_production_stats_summary downtime_spike). reflexivity.
Defined.

(** A total beyond the int64 range wraps around: two hours of 2^62 units
    are reported as a negative production. *)
Example get_production_stats_wraps :
  option_map total_production
    (match get_production_stats
             (table [ shift_record "M1" 1 21600 100 (2 ^ 62) 0 0;
                      shift_record "M1" 1 25200 100 (2 ^ 62) 0 0 ]) with
     | Ok st => st
     | Raise _ => None
     end)
  = Some (- 2 ^ 63).
Proof. vm_compute. reflexivity. Qed.

Lemma get_machine_data_rows_witness :
  exists fr,
    get_machine_data two_machines "M2" = Ok fr
    /\ map snd (frows fr) = machine_records two_machines "M2"
    /\ (1 <= record_count two_machines "M2" -> fcolumns fr = columns two_machines)
    /\ (record_count two_machines "M2" = 0 -> fr = empty_frame).
Proof.
  apply (get_machine_data_rows two_machines "M2"). reflexivity.
Defined.

Lemma get_recent_downtime_reasons_latest_witness :
  exists recs,
    get_recent_downtime_reasons stoppages 2 = Ok (map entry_of recs)
    /\ Z.of_nat (List.length recs) <= 2
    /\ (forall r, In r recs -> In r (rows stoppages) /\ has_downtime_reason r = true)
    /\ StronglySorted not_older recs
    /\ (forall r, In r (rows stoppages) -> has_downtime_reason r = true ->
          In r recs \/ forall r', In r' recs -> not_older r' r).
Proof.
  apply (get_recent_downtime_reasons_latest stoppages 2).
  - reflexivity.
  - lia.
Defined.

Lemma search_data_criteria_witness :
  exists fr,
    search_data sample_str_contains two_machines None None (Some "M2") (Some "")
    = Ok fr
    /\ fcolumns fr = columns two_machines
    /\ NoDup (map fst (frows fr))
    /\ (exists keep, frows fr = filter keep (iterrows two_machines))
    /\ (forall ir, In ir (frows fr) <->
          In ir (iterrows two_machines)
          /\ (forall d, @None Z = Some d -> Date (snd ir) = d)
          /\ (forall s, given None = Some s -> Shift (snd ir) = s)
          /\ (forall pat, given (Some "M2") = Some pat ->
                holds "M2" (Machine_ID (snd ir)) = true)
          /\ (forall pat, given (Some "") = Some pat ->
                holds "" (Operator_Name (snd ir)) = true))
    /\ (@None Z = None -> given None = None -> given (Some "M2") = None ->
        given (Some "") = None -> fr = frame_of two_machines).
Proof.
  apply (search_data_criteria sample_str_contains two_machines None None
           (Some "M2") (Some "") (holds "M2") (holds "")).
  - reflexivity.
  - intros pat Hpat. injection Hpat as <-. reflexivity.
  - intros pat Hpat. discriminate Hpat.
Defined.

Lemma search_data_bad_pattern_witness :
  search_data sample_str_contains two_machines None None (Some "(") None
  = Raise (LibraryError "missing ), unterminated subpattern at position 0").
Proof.
  apply (search_data_bad_pattern sample_str_contains two_machines None None
           (Some "(") None "(").
  - reflexivity.
  - left. reflexivity.
  - reflexivity.
Defined.

Lemma predict_downtime_cap_inactive_witness :
  exists e d,
    to_int (fmul (fsub (of_int 1) (guarded_efficiency downtime_spike "M1"))
                 (of_int 100)) = Ok e
    /\ to_int (fmul (guarded_defect_rate downtime_spike "M1") (of_int 100)) = Ok d
    /\ fst (predict_downtime lcg_randbelow downtime_spike "M1" sample_world)
       = Ok (Z.min (10 * downtime_count downtime_spike "M1") 30
             + (if recent_downtime downtime_spike "M1" then 20 else 0)
             + clamp 0 40 e + Z.min d 10,
             horizon_of (record_count downtime_spike "M1"))
    /\ Z.min (10 * downtime_count downtime_spike "M1") 30
       + (if recent_downtime downtime_spike "M1" then 20 else 0)
       + clamp 0 40 e + Z.min d 10 <= 100.
Proof.
  apply (predict_downtime_cap_inactive stand_in_sorts lcg_randbelow downtime_spike "M1"
           sample_world).
  - reflexivity.
  - vm_compute. discriminate.
Defined.

Lemma predict_downtime_world_witness :
  (1 <= record_count near_target "M1" ->
   rng (snd (predict_downtime lcg_randbelow near_target "M1" sample_world))
   = rng sample_world
   /\ model_file (snd (predict_downtime lcg_randbelow near_target "M1" sample_world))
      = Some true
   /\ stdout (snd (predict_downtime lcg_randbelow near_target "M1" sample_world))
      = stdout sample_world)
  /\ (record_count near_target "M1" = 0 ->
      rng (snd (predict_downtime lcg_randbelow near_target "M1" sample_world))
      = snd (lcg_randbelow 5 (snd (lcg_randbelow 81 (rng sample_world))))
      /\ model_file (snd (predict_downtime lcg_randbelow near_target "M1" sample_world))
         = model_file sample_world
      /\ stdout (snd (predict_downtime lcg_randbelow near_target "M1" sample_world))
         = stdout sample_world).
Proof.
  apply (predict_downtime_world lcg_randbelow near_target "M1" sample_world).
  reflexivity.
Defined.

Lemma missing_machine_id_column_witness :
  predict_downtime lcg_randbelow without_machine_id "M1" sample_world
  = (Raise (KeyError "Machine_ID"), sample_world)
  /\ predict_production_targets without_machine_id "M1" = Raise (KeyError "Machine_ID")
  /\ (df_empty without_machine_id = false ->
      (5 <= List.length (rows without_machine_id))%nat ->
      forallb (has_column without_machine_id) numeric_cols = true ->
      detect_anomalies lcg_randbelow sample_fit_transform sample_fit_predict
        without_machine_id sample_world
      = (Raise (KeyError "Machine_ID"), sample_world)).
Proof.
  apply (missing_machine_id_column lcg_randbelow sample_fit_transform
           sample_fit_predict without_machine_id "M1" sample_world).
  reflexivity.
Defined.

Lemma analytics_of_one_machine_witness :
  predict_downtime lcg_randbelow two_machines "M1" sample_world
  = predict_downtime lcg_randbelow first_machine_alone "M1" sample_world
  /\ predict_production_targets two_machines "M1"
     = predict_production_targets first_machine_alone "M1"
  /\ (forall record, Machine_ID record = "M1" ->
        determine_anomaly_reason record two_machines
        = determine_anomaly_reason record first_machine_alone).
Proof.
  apply (analytics_of_one_machine lcg_randbelow two_machines first_machine_alone
           "M1" sample_world); reflexivity.
Defined.

Lemma detect_anomalies_provenance_witness :
  Forall (fun a =>
            5 <= record_count two_machines (Anomaly.machine_id a)
            /\ exists r, In r (rows two_machines)
                         /\ Machine_ID r = Anomaly.machine_id a
                         /\ Date r = Anomaly.date a
                         /\ Shift r = Anomaly.shift a
                         /\ determine_anomaly_reason r two_machines
                            = Ok (Anomaly.message a))
         two_machines_found.
Proof.
  apply (detect_anomalies_provenance lcg_randbelow sample_fit_transform
           sample_fit_predict two_machines sample_world two_machines_found
           (snd two_machines_run)).
  vm_compute. reflexivity.
Defined.

Lemma detect_anomalies_confidence_witness :
  Forall (fun a => 70 <= Anomaly.confidence a <= 95) two_machines_found.
Proof.
  apply (detect_anomalies_confidence lcg_randbelow lcg_randbelow_range
           sample_fit_transform sample_fit_predict two_machines sample_world
           two_machines_found (snd two_machines_run)).
  vm_compute. reflexivity.
Defined.

Lemma detect_anomalies_total_witness :
  exists anomalies w',
    detect_anomalies lcg_randbelow sample_fit_transform sample_fit_predict
      two_machines sample_world = (Ok anomalies, w').
Proof.
  apply (detect_anomalies_total lcg_randbelow sample_fit_transform
           sample_fit_predict two_machines sample_world).
  reflexivity.
Defined.

Lemma prediction_page_not_random_witness :
  exists page,
    (forall w,
        fst (predict_downtime_risk lcg_randbelow near_target "M1" w) = Ok page
        /\ rng (snd (predict_downtime_risk lcg_randbelow near_target "M1" w)) = rng w
        /\ stdout (snd (predict_downtime_risk lcg_randbelow near_target "M1" w))
           = stdout w)
    /\ ("M1"%string = ""%string ->
        page = [st_warning "Please enter a Machine ID for prediction."]
        /\ forall w, snd (predict_downtime_risk lcg_randbelow near_target "M1" w) = w)
    /\ ("M1"%string <> ""%string -> record_count near_target "M1" = 0 ->
        page = [st_error ("Machine ID '" ++ "M1" ++ "' not found in the dataset.")]
        /\ forall w, snd (predict_downtime_risk lcg_randbelow near_target "M1" w) = w)
    /\ ("M1"%string <> ""%string -> 1 <= record_count near_target "M1" ->
        exists score,
          (forall w, predict_downtime lcg_randbelow near_target "M1" w
                     = (Ok (score, horizon_of (record_count near_target "M1")),
                        model_ready w))
          /\ nth_error page 0
             = Some (st_metric "Downtime Risk" (str_int score ++ "%"))
          /\ List.length page = 3%nat).
Proof.
  apply (prediction_page_not_random lcg_randbelow near_target "M1").
  reflexivity.
Defined.

(** Two hours and five minutes; five minutes short of nothing. *)
Example format_duration_samples :
  format_duration 125 = "2h 5m"%string
  /\ format_duration 59 = "59m"%string
  /\ format_duration (-5) = "55m"%string.
Proof. vm_compute. repeat split. Qed.

(** The two latest of the three stoppages, the latest first. *)
Example stoppages_latest :
  get_recent_downtime_reasons stoppages 2
  = Ok [ {| entry_date := 2; entry_machine := "M1"; entry_minutes := 5;
            entry_reason := "tool change" |};
         {| entry_date := 1; entry_machine := "M3"; entry_minutes := 20;
            entry_reason := "power" |} ].
Proof. vm_compute. reflexivity. Qed.

(** The page of a machine with records, and of one without: the scorer
    alone would have drawn a score for the second. *)
Example prediction_pages :
  fst (predict_downtime_risk lcg_randbelow near_target "M1" sample_world)
  = Ok [ st_metric "Downtime Risk" "0%";
         st_markdown "**Machine M1** has a **0%** risk of downtime in the next **4** hours.";
         st_success "Low risk of downtime." ]
  /\ predict_downtime_risk lcg_randbelow near_target "M9" sample_world
     = (Ok [ st_error "Machine ID 'M9' not found in the dataset." ], sample_world).
Proof. vm_compute. split; reflexivity. Qed.

Lemma get_operator_data_rows_witness :
  exists fr,
    get_operator_data two_machines "op" = Ok fr
    /\ map snd (frows fr) = operator_records two_machines "op"
    /\ (operator_records two_machines "op" <> [] -> fcolumns fr = columns two_machines)
    /\ (operator_records two_machines "op" = [] -> fr = empty_frame).
Proof.
  apply (get_operator_data_rows two_machines "op"). reflexivity.
Defined.

Lemma import_hourly_sheet_data_success_witness :
  exists records,
    Forall2 imported (sheet_rows sample_sheet) records
    /\ Forall (fun r => DateTime r = 86400 * Date r) records
    /\ (records <> [] -> full_table (data_frame_of records) = true)
    /\ fst (import_hourly_sheet_data sample_files)
       = (true, ("Successfully imported "
                 ++ str_int (Z.of_nat (List.length (sheet_rows sample_sheet)))
                 ++ " records")%string)
    /\ (write_error sample_files = None ->
        data_file (snd (import_hourly_sheet_data sample_files))
        = Some (data_frame_of records)
        /\ printed (snd (import_hourly_sheet_data sample_files)) = printed sample_files)
    /\ (forall e, write_error sample_files = Some e ->
        data_file (snd (import_hourly_sheet_data sample_files)) = data_file sample_files
        /\ printed (snd (import_hourly_sheet_data sample_files))
           = printed sample_files ++ [ ("Error saving data: " ++ str_exn e)%string ]).
Proof.
  apply (import_hourly_sheet_data_success sample_files sample_sheet).
  - reflexivity.
  - right. reflexivity.
Defined.

(** The write is refused: the import says it succeeded, the older data file
    is still there. *)
Example import_unsaved :
  fst (import_hourly_sheet_data sample_files)
  = (true, "Successfully imported 2 records"%string)
  /\ data_file (snd (import_hourly_sheet_data sample_files)) = Some downtime_spike
  /\ printed (snd (import_hourly_sheet_data sample_files))
     = [ "Error saving data: [Errno 13] Permission denied: 'manufacturing_data.csv'"%string ].
Proof. vm_compute. repeat split. Qed.
